(** * Movie ranking: the two implementations of read_file, top_n, write_file

    A shallow embedding of [gptproject.py] and [teamproject.py].

    - Python [str] is [string], a sequence of characters with code points
      below 256; a movie row is the [list string] that
      [line.strip().split(';')] returns; a data set is a list of rows.
    - Python [float] is IEEE binary64, which is what Rocq's primitive
      [float] is; the arithmetic of the sources ([+], [/], unary [-],
      [<], [==], [>]) is the primitive one.
    - An exception is a value of [exn]; code that can raise returns a
      [result], and statements are sequenced by [bind] in the order in
      which the source evaluates them.
    - [float(s)], [int(s)], [sum(l)] and the text of a float inside an
      f-string are the Python runtime's, not the repository's: they are
      parameters ([py_float], [py_int], [py_sum], [py_str]).
    - A text file is the list of its lines as iteration over the file
      yields them (each with its line terminator); [write_file] is the
      text it writes. *)

From Stdlib Require Import ZArith List String Ascii Bool Lia Floats DecimalString.
From Stdlib Require Import Sorting.Permutation Sorting.Sorted.
From stdpp Require Import base option list strings gmap sorting.

Local Open Scope string_scope.
Local Open Scope list_scope.

(** ** Exceptions *)

Inductive value_error : Type :=
| BadFloat      (* float(): could not convert string to float *)
| BadInt        (* int(): invalid literal *)
| EmptyMax.     (* max() of an empty iterable *)

Inductive exn : Type :=
| IndexError
| ValueError (why : value_error)
| KeyError (key : string)
| ZeroDivisionError.

Inductive result (A : Type) : Type :=
| Ok (a : A)
| Raise (e : exn).

Arguments Ok {A} a.
Arguments Raise {A} e.

Definition bind {A B : Type} (c : result A) (k : A -> result B) : result B :=
  match c with
  | Ok a => k a
  | Raise e => Raise e
  end.

Notation "'let*' x ':=' c 'in' k" := (bind c (fun x => k))
  (at level 10, x pattern, c at level 100, k at level 200).

(** [for x in l: acc = body(acc, x)], where the body can raise. *)
Fixpoint for_each {A S : Type} (body : S -> A -> result S) (l : list A) (acc : S)
  : result S :=
  match l with
  | [] => Ok acc
  | x :: l' => let* acc' := body acc x in for_each body l' acc'
  end.

(** [[f(x) for x in l if p(x)]], where [p] and [f] can raise; [p(x)] and
    [f(x)] are evaluated element by element. *)
Fixpoint comprehension {A B : Type} (p : A -> result bool) (f : A -> result B) (l : list A)
  : result (list B) :=
  match l with
  | [] => Ok []
  | x :: l' =>
      let* b := p x in
      if b then let* y := f x in let* ys := comprehension p f l' in Ok (y :: ys)
      else comprehension p f l'
  end.

(** ** Strings *)

(** [needle in hay] on two strings: [needle] occurs in [hay]. *)
Fixpoint py_in (needle hay : string) : bool :=
  String.prefix needle hay ||
  match hay with
  | EmptyString => false
  | String _ hay' => py_in needle hay'
  end.

(** [s.split(sep)] for a non-empty [sep]: occurrences of [sep] are found
    from the left and do not overlap.  [skip] counts the characters of
    the occurrence of [sep] that is being passed over. *)
Fixpoint split_from (sep : string) (skip : nat) (s : string) : list string :=
  match s with
  | EmptyString => [EmptyString]
  | String c s' =>
      match skip with
      | S k => split_from sep k s'
      | O =>
          if String.prefix sep s
          then EmptyString :: split_from sep (String.length sep - 1) s'
          else match split_from sep 0 s' with
               | field :: fields => String c field :: fields
               | [] => [String c EmptyString]
               end
      end
  end.

Definition py_split (sep s : string) : list string := split_from sep 0 s.

(** [str.isspace] on one character (code points below 256). *)
Definition is_space (c : ascii) : bool :=
  let n := nat_of_ascii c in
  (((9 <=? n) && (n <=? 13)) || ((28 <=? n) && (n <=? 32))
   || (n =? 133) || (n =? 160))%nat.

Fixpoint lstrip (s : string) : string :=
  match s with
  | EmptyString => EmptyString
  | String c s' => if is_space c then lstrip s' else s
  end.

Fixpoint rstrip (s : string) : string :=
  match s with
  | EmptyString => EmptyString
  | String c s' =>
      match rstrip s' with
      | EmptyString => if is_space c then EmptyString else String c EmptyString
      | r => String c r
      end
  end.

(** [s.strip()] *)
Definition strip (s : string) : string := lstrip (rstrip s).

(** ["".join(l)] *)
Definition join (l : list string) : string := String.concat EmptyString l.

(** [row[i]] for a constant, non-negative [i]. *)
Definition item {A : Type} (row : list A) (i : nat) : result A :=
  match nth_error row i with
  | Some x => Ok x
  | None => Raise IndexError
  end.

(** ** Floats *)

(** The float an int becomes in arithmetic with a float: the nearest one. *)
Definition float_of_Z (z : Z) : float := SF2Prim (binary_normalize prec emax z 0 false).

Definition two : float := float_of_Z 2.

(** [x / n] with [n] an int: the int becomes a float, zero raises. *)
Definition py_div (x : float) (n : Z) : result float :=
  if (n =? 0)%Z then Raise ZeroDivisionError else Ok (PrimFloat.div x (float_of_Z n)).

(** [len(l)] *)
Definition len {A : Type} (l : list A) : Z := Z.of_nat (List.length l).

(** [max(a, b)]: the first argument stays unless the second is greater. *)
Definition py_max (a b : float) : float := if PrimFloat.ltb a b then b else a.

(** [max(iterable)] *)
Definition py_max_list (l : list float) : result float :=
  match l with
  | [] => Raise (ValueError EmptyMax)
  | x :: l' => Ok (fold_left py_max l' x)
  end.

(** [total = 0; for x in l: total += x]: the sum taken from the left,
    from the int 0. *)
Definition sum_left (l : list float) : float := fold_left PrimFloat.add l PrimFloat.zero.

Definition is_nan (x : float) : bool := negb (PrimFloat.eqb x x).

(** ** Sorting *)

(** [a < b] on the keys [(float, str)] of the two sources: tuples compare
    at the first component where they differ under [==]. *)
Definition key_lt (a b : float * string) : bool :=
  if PrimFloat.eqb (fst a) (fst b) then String.ltb (snd a) (snd b)
  else PrimFloat.ltb (fst a) (fst b).

Section Sorted.
Context {A K : Type} (lt : K -> K -> bool) (key : A -> K).

(** [x] enters a sorted run from its right end: it passes every
    element whose key is greater than its own. [run] is kept with its
    right end first. *)
Fixpoint insert_run (x : A) (run : list A) : list A :=
  match run with
  | [] => [x]
  | y :: run' => if lt (key x) (key y) then y :: insert_run x run' else x :: run
  end.

(** [sorted(l, key=key)]: stable, and driven by [<] on the keys only.
    On keys that [<] puts in order every stable sort returns this list.
    On any keys, a list in which no element is less than the one before
    it is returned as it is, after the comparisons of each element with
    the one before it: CPython's sort makes the same ones to find that
    the list is a single ascending run. *)
Definition py_sorted (l : list A) : list A :=
  rev (fold_left (fun run x => insert_run x run) l []).

(** [x] is not less than [y], by their keys. *)
Definition not_below (x y : A) : Prop := lt (key x) (key y) = false.
End Sorted.

(** [l[:n]] *)
Definition slice_to {A : Type} (n : Z) (l : list A) : list A :=
  if (0 <=? n)%Z then firstn (Z.to_nat n) l
  else firstn (List.length l - Z.to_nat (- n)) l.

(** ** The two sources

    A [ranked] triple is the [(title, rating, actor_rating)] both sources
    collect before they sort; [entry_of] is the [(title, (rating +
    actor_rating) / 2)] they return for it. *)

Definition row : Type := list string.
Definition ranked : Type := (string * float * float)%type.

Definition combined (mr ar : float) : float := PrimFloat.div (PrimFloat.add mr ar) two.

Definition entry_of (t : ranked) : string * float :=
  let '(title, mr, ar) := t in (title, combined mr ar).

(** [float(s)] and [int(s)] for a runtime conversion [conv]; [None] is
    the conversion's [ValueError]. *)
Definition convert {A : Type} (why : value_error) (conv : string -> option A) (s : string)
  : result A :=
  match conv s with
  | Some x => Ok x
  | None => Raise (ValueError why)
  end.

(** [f.write(f"{title}, {rating}\n")] for each pair: the text written. *)
Definition written (py_str : float -> string) (top : list (string * float)) : string :=
  join (map (fun '(title, rating) =>
               title +:+ ", " +:+ py_str rating +:+ String (ascii_of_nat 10) EmptyString) top).

(** *** teamproject.py *)
Module team.
Section Team.
Variable py_float : string -> option float.
Variable py_int : string -> option Z.
Variable py_str : float -> string.

Abbreviation to_float := (convert BadFloat py_float).
Abbreviation to_int := (convert BadInt py_int).

(** [read_file], from the lines of the file at [pathname]. *)
Definition read_file (lines : list string) (year : Z) : result (list row) :=
  let rest := tail lines in                               (* file.readline() *)
  comprehension
    (fun line => let* field := item (py_split ";" line) 6 in
                 let* y := to_int field in
                 Ok (year <=? y)%Z)
    (fun line => Ok (py_split ";" (strip line)))
    rest.

(** The nested [is_in_genres]; its [genre] is a [str] or a [list[str]]. *)
Definition is_in_genres (film_genres : list string) (genre : string + list string) : bool :=
  match genre with
  | inl g => if String.eqb g "" then true else bool_decide (g ∈ film_genres)
  | inr gs => existsb (fun g => bool_decide (g ∈ film_genres)) gs
  end.

(** [genre = genre.split(","); if len(genre) <= 1: genre = "".join(genre)] *)
Definition genre_arg (genre : string) : string + list string :=
  let gs := py_split "," genre in
  if (len gs <=? 1)%Z then inl (join gs) else inr gs.

(** The body of the inner loop that fills [actors_rating]. *)
Definition rate_actor (rating : float) (actors_rating : gmap string float) (actor : string)
  : gmap string float :=
  match actors_rating !! actor with
  | None => <[actor := rating]> actors_rating
  | Some best => <[actor := py_max best rating]> actors_rating
  end.

(** The first loop over [data]. *)
Definition rate_film (actors_rating : gmap string float) (film : row)
  : result (gmap string float) :=
  let* field5 := item film 5 in
  let actors := py_split ", " field5 in
  let* field8 := item film 8 in
  let* rating := to_float field8 in
  Ok (fold_left (rate_actor rating) actors actors_rating).

Definition actors_rating_of (data : list row) : result (gmap string float) :=
  for_each rate_film data ∅.

(** [actors_rating[actor]] *)
Definition getitem (actors_rating : gmap string float) (actor : string) : result float :=
  match actors_rating !! actor with
  | Some x => Ok x
  | None => Raise (KeyError actor)
  end.

(** The second loop over [data]: its body, which appends to [answer]. *)
Definition rank_film (genre : string + list string) (actors_rating : gmap string float)
    (answer : list ranked) (film : row) : result (list ranked) :=
  let* field2 := item film 2 in
  let film_genre := py_split "," field2 in
  let* field5 := item film 5 in
  let actors := py_split ", " field5 in
  if is_in_genres film_genre genre then
    let* avg_rating :=
      for_each (fun avg actor => let* r := getitem actors_rating actor in
                                 Ok (PrimFloat.add avg r)) actors PrimFloat.zero in
    let* average_actor_rating := py_div avg_rating (len actors) in
    let* field1 := item film 1 in
    let* field8 := item film 8 in
    let* rating := to_float field8 in
    Ok (answer ++ [(field1, rating, average_actor_rating)])
  else Ok answer.

Definition sorting_lambda (temp : ranked) : float * string :=
  let '(t0, t1, t2) := temp in
  (PrimFloat.div (PrimFloat.opp (PrimFloat.add t1 t2)) two, t0).

Definition top_n (data : list row) (genre : string) (n : Z) : result (list (string * float)) :=
  let genre := genre_arg genre in
  let* actors_rating := actors_rating_of data in
  let* answer := for_each (rank_film genre actors_rating) data [] in
  let answer := py_sorted key_lt sorting_lambda answer in
  let answer := map entry_of answer in
  Ok (if (0 <? n)%Z then slice_to n answer else answer).

Definition write_file (top : list (string * float)) : string := written py_str top.
End Team.
End team.

(** *** gptproject.py *)
Module gpt.
Section Gpt.
Variable py_float : string -> option float.
Variable py_int : string -> option Z.
Variable py_str : float -> string.
(** [sum(l)] on a list of floats: up to Python 3.11 it is [sum_left];
    from 3.12 on the runtime compensates the rounding errors. *)
Variable py_sum : list float -> float.

Abbreviation to_float := (convert BadFloat py_float).
Abbreviation to_int := (convert BadInt py_int).

(** [read_file], from the lines of the file at [pathname]; the first
    line is the one the flag [header_skipped] passes over. *)
Definition read_file (lines : list string) (year : Z) : result (list row) :=
  for_each
    (fun movie_data line =>
       let row := py_split ";" (strip line) in
       let* field := item row 6 in
       let* movie_year := to_int field in
       Ok (if (year =? 0)%Z || (year <=? movie_year)%Z then movie_data ++ [row]
           else movie_data))
    (tail lines) [].

(** The nested [get_highest_rating_for_actor]. *)
Definition get_highest_rating_for_actor (actor : string) (all_movies : list row)
  : result float :=
  let* ratings :=
    comprehension
      (fun movie => let* field5 := item movie 5 in Ok (py_in actor field5))
      (fun movie => let* field8 := item movie 8 in to_float field8)
      all_movies in
  py_max_list ratings.

(** [[g.strip() for g in genre.split(',')] if genre else []] *)
Definition genre_list_of (genre : string) : list string :=
  if String.eqb genre "" then [] else map strip (py_split "," genre).

(** [not genre_list or any(g in movie[2] for g in genre_list)] *)
Definition in_genre_list (genre_list : list string) (movie : row) : result bool :=
  match genre_list with
  | [] => Ok true
  | _ :: _ => let* field2 := item movie 2 in
              Ok (existsb (fun g => py_in g field2) genre_list)
  end.

(** The body of the loop over [filtered_movies]. *)
Definition rate_movie (data : list row) (movie : row) : result ranked :=
  let* title := item movie 1 in
  let* field8 := item movie 8 in
  let* movie_rating := to_float field8 in
  let* field5 := item movie 5 in
  let actors := py_split ", " field5 in
  let* actor_ratings :=
    comprehension (fun _ => Ok true)
                  (fun actor => get_highest_rating_for_actor actor data) actors in
  let* actor_rating := py_div (py_sum actor_ratings) (len actor_ratings) in
  Ok (title, movie_rating, actor_rating).

Definition sort_key (movie_info : ranked) : float * string :=
  let '(title, movie_rating, actor_rating) := movie_info in
  let combined_rating := PrimFloat.div (PrimFloat.add movie_rating actor_rating) two in
  (PrimFloat.opp combined_rating, title).

Definition top_n (data : list row) (genre : string) (n : Z) : result (list (string * float)) :=
  let genre_list := genre_list_of genre in
  let* filtered_movies := comprehension (in_genre_list genre_list) Ok data in
  let* movie_ratings := comprehension (fun _ => Ok true) (rate_movie data) filtered_movies in
  let sorted_movies := py_sorted key_lt sort_key movie_ratings in
  Ok (map entry_of (if (n =? 0)%Z then sorted_movies else slice_to n sorted_movies)).

Definition write_file (top : list (string * float)) : string := written py_str top.
End Gpt.
End gpt.

(** ** The runtime's conversions on plain decimal text

    [float_of_decimal] and [int_of_decimal] are what [float] and [int]
    return on the texts the examples below use: an optional sign, digits
    and (for a float) an optional fraction, or [nan] and [inf], between
    white space that [int] and [float] pass over. The float of a text is
    the float nearest to the quotient of two integers that the text
    denotes, which is the correctly rounded value [float] returns. Texts
    with an exponent, an underscore or another spelling of [nan] and
    [inf] are outside them: no example uses one. *)

Definition digit_of (c : ascii) : option Z :=
  let n := nat_of_ascii c in
  if ((48 <=? n) && (n <=? 57))%nat then Some (Z.of_nat n - 48)%Z else None.

(** Digits read from the left, most significant first. *)
Fixpoint digits_from (acc : Z) (s : string) : option Z :=
  match s with
  | EmptyString => Some acc
  | String c s' =>
      match digit_of c with
      | Some d => digits_from (10 * acc + d)%Z s'
      | None => None
      end
  end.

Definition unsigned_of (s : string) : option Z :=
  match s with
  | EmptyString => None
  | _ => digits_from 0 s
  end.

(** The sign of a literal and the text after it. *)
Definition signed (s : string) : bool * string :=
  match s with
  | String "-" s' => (true, s')
  | String "+" s' => (false, s')
  | _ => (false, s)
  end.

(** The white space [int] and [float] pass over at the two ends of a
    text (code points below 256); unlike [str.strip] they do not pass
    over the separators 28 to 31. *)
Definition is_blank (c : ascii) : bool :=
  let n := nat_of_ascii c in
  (((9 <=? n) && (n <=? 13)) || (n =? 32) || (n =? 133) || (n =? 160))%nat.

Fixpoint ltrim (s : string) : string :=
  match s with
  | EmptyString => EmptyString
  | String c s' => if is_blank c then ltrim s' else s
  end.

Fixpoint rtrim (s : string) : string :=
  match s with
  | EmptyString => EmptyString
  | String c s' =>
      match rtrim s' with
      | EmptyString => if is_blank c then EmptyString else String c EmptyString
      | r => String c r
      end
  end.

Definition trim (s : string) : string := ltrim (rtrim s).

(** The last character of a text is white space to [str.strip]. *)
Fixpoint last_is_space (s : string) : bool :=
  match s with
  | EmptyString => false
  | String c EmptyString => is_space c
  | String _ s' => last_is_space s'
  end.

Definition int_of_decimal (s : string) : option Z :=
  let '(neg, body) := signed (trim s) in
  match unsigned_of body with
  | Some z => Some (if neg then (- z)%Z else z)
  | None => None
  end.

(** The float nearest to [n / d], for integers [0 <= n] and [0 < d]. *)
Definition ratio (n d : Z) : float :=
  if (n =? 0)%Z then PrimFloat.zero
  else SF2Prim (SFdiv prec emax (S754_finite false (Z.to_pos n) 0)
                                (S754_finite false (Z.to_pos d) 0)).

Definition unsigned_float_of (s : string) : option float :=
  if String.eqb s "nan" then Some PrimFloat.nan
  else if String.eqb s "inf" then Some PrimFloat.infinity
  else
    match py_split "." s with
    | [whole] =>
        match unsigned_of whole with
        | Some m => Some (ratio m 1)
        | None => None
        end
    | [whole; frac] =>
        match s, digits_from 0 (whole +:+ frac) with
        | String _ (String _ _), Some m =>
            Some (ratio m (10 ^ Z.of_nat (String.length frac)))
        | _, _ => None
        end
    | _ => None
    end.

Definition float_of_decimal (s : string) : option float :=
  let '(neg, body) := signed (trim s) in
  match unsigned_float_of body with
  | Some x => Some (if neg then PrimFloat.opp x else x)
  | None => None
  end.

(** [str_of_float] is the text of a float in an f-string, for a float
    that is zero, infinite, NaN or of a magnitude from [1e-4] up to
    [1e16], which Python writes without an exponent: the decimal text
    with the fewest decimals, at least one, that [float] reads back as
    the same float. [scaled m e k] is [m * 2^e * 10^k] rounded to the
    nearest integer, to the even one of two. *)

Definition decimal_of (z : Z) : string := NilZero.string_of_int (Z.to_int z).

Definition scaled (m : positive) (e : Z) (k : nat) : Z :=
  let n := (Zpos m * 10 ^ Z.of_nat k)%Z in
  if (0 <=? e)%Z then (n * 2 ^ e)%Z
  else
    let d := (2 ^ (- e))%Z in
    let q := (n / d)%Z in
    let r := (n mod d)%Z in
    if ((d <? 2 * r)%Z || ((d =? 2 * r)%Z && Z.odd q))%bool then (q + 1)%Z else q.

Definition pad (k : nat) (s : string) : string :=
  String.concat EmptyString (repeat "0" (k - String.length s)) +:+ s.

Definition fixed (neg : bool) (n : Z) (k : nat) : string :=
  let p := (10 ^ Z.of_nat k)%Z in
  (if neg then "-" else "") +:+ decimal_of (n / p) +:+ "." +:+ pad k (decimal_of (n mod p)).

Fixpoint shortest (fuel k : nat) (neg : bool) (m : positive) (e : Z) (ax : float) : string :=
  let n := scaled m e k in
  match fuel with
  | O => fixed neg n k
  | S fuel' =>
      if PrimFloat.eqb (ratio n (10 ^ Z.of_nat k)) ax
      then fixed neg n k
      else shortest fuel' (S k) neg m e ax
  end.

Definition str_of_float (x : float) : string :=
  match Prim2SF x with
  | S754_nan => "nan"
  | S754_infinity s => if s then "-inf" else "inf"
  | S754_zero s => if s then "-0.0" else "0.0"
  | S754_finite s m e => shortest 21 1 s m e (PrimFloat.abs x)
  end.

(** ** What a ranking is made of

    The fields of a row that [top_n] reads, as pure functions of the row.
    A field that is missing reads as the empty text and a rating that
    [float] refuses reads as [nan]; neither case occurs in a call of
    [top_n] that returns. *)

Definition field (r : row) (i : nat) : string := nth i r EmptyString.

Definition title_of (r : row) : string := field r 1.
Definition genres_of (r : row) : list string := py_split "," (field r 2).
Definition actors_of (r : row) : list string := py_split ", " (field r 5).

(** [max] of the ratings in [l], taken from the left. *)
Definition max_of (l : list float) : float :=
  match l with
  | [] => PrimFloat.nan
  | x :: l' => fold_left py_max l' x
  end.

(** [total(l) / len(l)], for a way [total] of adding up. *)
Definition mean (total : list float -> float) (l : list float) : float :=
  PrimFloat.div (total l) (float_of_Z (len l)).

Section Ranking.
Variable py_float : string -> option float.

Definition rating_of (r : row) : float := default PrimFloat.nan (py_float (field r 8)).

(** A row [top_n] can rank: it reaches index 8 and its rating is a float. *)
Definition well_formed (r : row) : bool :=
  (9 <=? List.length r)%nat && bool_decide (is_Some (py_float (field r 8))).

(** The sum of the actor ratings of a film. *)
Variable total : list float -> float.

(** [cast a r] says whether [r] counts as a film of the actor [a]. *)
Variable cast : string -> row -> bool.

(** The actor index: the best rating among the films of [a] in [data]. *)
Definition actor_index (data : list row) (a : string) : float :=
  max_of (map rating_of (List.filter (cast a) data)).

Definition actor_average (data : list row) (r : row) : float :=
  mean total (map (actor_index data) (actors_of r)).

Definition ranked_of (data : list row) (r : row) : ranked :=
  (title_of r, rating_of r, actor_average data r).

(** [(title, combinedScore)] of the film [r] within [data]. *)
Definition scored (data : list row) (r : row) : string * float :=
  entry_of (ranked_of data r).

(** The films that pass, ranked, before the limit applies. *)
Definition ranking (passes : row -> bool) (key : ranked -> float * string)
    (data : list row) : list ranked :=
  py_sorted key_lt key (map (ranked_of data) (List.filter passes data)).
End Ranking.

(** [a] is one of the names of [r]'s actor field split on [", "]. *)
Definition credited (a : string) (r : row) : bool := bool_decide (a ∈ actors_of r).

(** [a] occurs somewhere in [r]'s actor field. *)
Definition occurs (a : string) (r : row) : bool := py_in a (field r 5).

(** The genre filter as the specification words it: the filter is empty,
    or one of its tokens (split on [","]) is one of the film's genre
    tokens. *)
Definition passes (genre : string) (r : row) : bool :=
  String.eqb genre "" ||
  existsb (fun g => bool_decide (g ∈ genres_of r)) (py_split "," genre).

(** The genre filter of [gptproject.py]: the filter is empty, or one of
    its stripped tokens occurs in the film's genre field. *)
Definition gpt_passes (genre : string) (r : row) : bool :=
  match gpt.genre_list_of genre with
  | [] => true
  | gs => existsb (fun g => py_in g (field r 2)) gs
  end.

(** The limit of [teamproject.py] and of [gptproject.py]. *)
Definition team_limit {A : Type} (n : Z) (l : list A) : list A :=
  if (0 <? n)%Z then slice_to n l else l.

Definition gpt_limit {A : Type} (n : Z) (l : list A) : list A :=
  if (n =? 0)%Z then l else slice_to n l.

(** The result of [top_n] in each source, on rows it can rank. *)
Definition team_ranking (py_float : string -> option float) (data : list row)
    (genre : string) : list ranked :=
  ranking py_float sum_left credited
          (fun r => team.is_in_genres (genres_of r) (team.genre_arg genre))
          team.sorting_lambda data.

Definition gpt_ranking (py_float : string -> option float) (py_sum : list float -> float)
    (data : list row) (genre : string) : list ranked :=
  ranking py_float py_sum occurs (gpt_passes genre) gpt.sort_key data.

(** ** The actor index, one rating at a time *)

(** What one rating does to an entry of the actor index. *)
Definition improve (rating : float) (best : option float) : option float :=
  Some (match best with
        | None => rating
        | Some b => py_max b rating
        end).

(** ** The order of floats

    A float that is not NaN has a place on a line: [code] gives it as a
    triple of integers compared from the left, and the comparisons of
    binary64 are the comparisons of the codes. *)

Definition code (x : spec_float) : Z * Z * Z :=
  match x with
  | S754_nan => (0, 0, 0)
  | S754_zero _ => (0, 0, 0)
  | S754_infinity s => (if s then -2 else 2, 0, 0)
  | S754_finite s m e => if s then (-1, - e, Zneg m) else (1, e, Zpos m)
  end%Z.

Definition lex (a b : Z * Z * Z) : comparison :=
  let '(a1, a2, a3) := a in
  let '(b1, b2, b3) := b in
  match (a1 ?= b1)%Z with
  | Eq => match (a2 ?= b2)%Z with
          | Eq => (a3 ?= b3)%Z
          | c => c
          end
  | c => c
  end.

Definition lex_lt (a b : Z * Z * Z) : Prop :=
  let '(a1, a2, a3) := a in
  let '(b1, b2, b3) := b in
  (a1 < b1 \/ (a1 = b1 /\ (a2 < b2 \/ (a2 = b2 /\ a3 < b3))))%Z.

Definition fcode (x : float) : Z * Z * Z := code (Prim2SF x).

(** Negation turns the line around. *)
Definition opp3 (a : Z * Z * Z) : Z * Z * Z :=
  let '(a1, a2, a3) := a in (- a1, - a2, - a3)%Z.

(** ** The order of sort keys and of results *)

(** [a] comes before [b] on the line of keys. *)
Definition key_below (a b : float * string) : Prop :=
  lex_lt (fcode (fst a)) (fcode (fst b)) \/
  (fcode (fst a) = fcode (fst b) /\ String.compare (snd a) (snd b) = Lt).

(** [e1] may stand before [e2]: its score is not lower, and with equal
    scores its title is not greater. *)
Definition ranks_before (e1 e2 : string * float) : Prop :=
  PrimFloat.ltb (snd e1) (snd e2) = false /\
  (PrimFloat.eqb (snd e1) (snd e2) = true -> String.leb (fst e1) (fst e2) = true).

(** Every pair of positions [i < j] of [l] is in that order. *)
Definition in_rank_order (l : list (string * float)) : Prop :=
  forall (i j : nat) (e1 e2 : string * float),
    (i < j)%nat -> l !! i = Some e1 -> l !! j = Some e2 -> ranks_before e1 e2.

Definition scores_not_nan (l : list (string * float)) : Prop :=
  Forall (fun e => is_nan (snd e) = false) l.

(** ** Lines and records *)

(** [f] on the first element, and on the last. *)
Definition on_head {A : Type} (f : A -> A) (l : list A) : list A :=
  match l with
  | [] => []
  | x :: l' => f x :: l'
  end.

Fixpoint on_last {A : Type} (f : A -> A) (l : list A) : list A :=
  match l with
  | [] => []
  | [x] => [f x]
  | x :: l' => x :: on_last f l'
  end.

(** The record of a line, and the year a record holds. *)
Definition record_of (line : string) : row := py_split ";" (strip line).

Section Records.
Variable py_int : string -> option Z.

Definition year_of (r : row) : Z := default 0%Z (py_int (field r 6)).

(** A line [read_file] cannot load: fewer than 7 fields, or a year that
    is not an integer. *)
Definition malformed (line : string) : Prop :=
  (List.length (record_of line) < 7)%nat \/ py_int (field (record_of line) 6) = None.

(** [int(row[6])] on the record of a line. *)
Definition read_year (line : string) : result Z :=
  let* field := item (record_of line) 6 in convert BadInt py_int field.

(** [int(line.split(";")[6])]: the year [teamproject.py] tests, read
    from the line before it is stripped. *)
Definition read_year_unstripped (line : string) : result Z :=
  let* field := item (py_split ";" line) 6 in convert BadInt py_int field.

Definition year_unstripped (line : string) : Z :=
  default 0%Z (py_int (field (py_split ";" line) 6)).

(** A line whose year cannot be read before it is stripped. *)
Definition malformed_unstripped (line : string) : Prop :=
  (List.length (py_split ";" line) < 7)%nat \/ py_int (field (py_split ";" line) 6) = None.

(** What [int] does with trailing white space: a text it accepts it
    reads the same once stripped on the right; [str.rstrip] takes off
    all that [int] passes over, and no digit. *)
Definition reads_stripped : Prop :=
  forall s y, py_int s = Some y -> py_int (rstrip s) = Some y.

(** A weaker form: [int] accepts no text whose stripped form it refuses. *)
Definition refuses_unstripped : Prop :=
  forall s, py_int (rstrip s) = None -> py_int s = None.
End Records.

(** ** Example data *)

(** The two rows of the specification's literal scenario. *)
Definition film_A : row :=
  ["1"; "A"; "Action"; "d"; "dir"; "X, Y"; "2015"; "100"; "8.0"; "1"; "1"; "1"].
Definition film_B : row :=
  ["2"; "B"; "Action"; "d"; "dir"; "X"; "2015"; "100"; "6.0"; "1"; "1"; "1"].

(** A drama with the actor of [film_B]. *)
Definition film_D : row :=
  ["3"; "D"; "Drama"; "d"; "dir"; "X"; "2015"; "100"; "9.0"; "1"; "1"; "1"].

(** Two films whose only actors are [Al] and [Alan]. *)
Definition film_Al : row :=
  ["1"; "A"; "Drama"; "d"; "dir"; "Al"; "2015"; "100"; "5.0"; "1"; "1"; "1"].
Definition film_Alan : row :=
  ["2"; "B"; "Drama"; "d"; "dir"; "Alan"; "2015"; "100"; "9.0"; "1"; "1"; "1"].

(** A science-fiction film. *)
Definition film_S : row :=
  ["1"; "S"; "Sci-Fi"; "d"; "dir"; "Z"; "2015"; "100"; "7.0"; "1"; "1"; "1"].

(** A film with an empty actor field. *)
Definition film_E : row :=
  ["1"; "E"; "Drama"; "d"; "dir"; ""; "2015"; "100"; "8.0"; "1"; "1"; "1"].

(** A row that stops before the rating. *)
Definition film_short : row := ["1"; "T"; "Drama"].

(** Three films, the second with a rating that is not a number. *)
Definition film_1 : row :=
  ["1"; "A"; "Drama"; "d"; "dir"; "P"; "2015"; "100"; "1.0"; "1"; "1"; "1"].
Definition film_nan : row :=
  ["2"; "B"; "Drama"; "d"; "dir"; "Q"; "2015"; "100"; "nan"; "1"; "1"; "1"].
Definition film_2 : row :=
  ["3"; "C"; "Drama"; "d"; "dir"; "R"; "2015"; "100"; "2.0"; "1"; "1"; "1"].

(** A drama whose rating is no number. *)
Definition film_unrated : row :=
  ["4"; "U"; "Drama"; "d"; "dir"; "Q"; "2015"; "100"; "n/a"; "1"; "1"; "1"].

Definition newline : string := String (ascii_of_nat 10) EmptyString.

(** A file: a header and two lines, the second of a year before year 0. *)
Definition header : string := "Rank;Title;Genre;Description;Director;Actors;Year" +:+ newline.
Definition line_2015 : string := "1;A;Action;d;dir;X, Y;2015;100;8.0;1;1;1" +:+ newline.
Definition line_bc : string := "2;B;Action;d;dir;X;-44;100;6.0;1;1;1" +:+ newline.
Definition line_bad : string := "3;C;Action;d;dir;X;soon;100;6.0;1;1;1" +:+ newline.

(** A line of 7 fields whose year is followed by the separator 31. *)
Definition line_us : string :=
  "1;A;Action;d;dir;X;2015" +:+ String (ascii_of_nat 31) EmptyString +:+ newline.


(** * Properties *)

(** ** Sequencing *)

Lemma bind_Ok {A B : Type} (c : result A) (k : A -> result B) (b : B) :
  bind c k = Ok b <-> exists a, c = Ok a /\ k a = Ok b.
Proof.
  destruct c as [a|e]; simpl; split.
  - intros H. exists a. auto.
  - intros (a' & [= ->] & H). exact H.
  - discriminate.
  - intros (a' & H & _). discriminate.
Qed.

Lemma bind_Raise {A B : Type} (c : result A) (k : A -> result B) (e : exn) :
  bind c k = Raise e <-> c = Raise e \/ exists a, c = Ok a /\ k a = Raise e.
Proof.
  destruct c as [a|e']; simpl; split.
  - intros H. right. exists a. auto.
  - intros [H | (a' & [= ->] & H)]; [discriminate | exact H].
  - intros [= ->]. left. reflexivity.
  - intros [[= ->] | (a' & H & _)]; [reflexivity | discriminate].
Qed.

(** Unfolds one [let*] in a hypothesis that says the code returned. *)
Ltac returned H :=
  let a := fresh "v" in
  let Ha := fresh "Hv" in
  apply bind_Ok in H; destruct H as (a & Ha & H).

Lemma item_Ok {A : Type} (r : list A) (i : nat) (x : A) :
  item r i = Ok x <-> nth_error r i = Some x.
Proof.
  unfold item. destruct (nth_error r i); split; intros H; congruence.
Qed.

Lemma item_field (r : row) (i : nat) (x : string) : item r i = Ok x -> field r i = x.
Proof.
  intros H%item_Ok. unfold field. now apply nth_error_nth.
Qed.

Lemma item_length {A : Type} (r : list A) (i : nat) (x : A) :
  item r i = Ok x -> (i < List.length r)%nat.
Proof.
  intros H%item_Ok. apply nth_error_Some. congruence.
Qed.

Lemma item_in_range (r : row) (i : nat) : (i < List.length r)%nat -> item r i = Ok (field r i).
Proof.
  intros H. unfold item, field.
  destruct (nth_error r i) as [x|] eqn:E.
  - now rewrite (nth_error_nth _ _ _ E).
  - apply nth_error_None in E. lia.
Qed.

Lemma item_Raise {A : Type} (r : list A) (i : nat) (e : exn) :
  item r i = Raise e -> e = IndexError.
Proof.
  unfold item. destruct (nth_error r i); congruence.
Qed.

Lemma convert_Ok {A : Type} (why : value_error) (conv : string -> option A) s x :
  convert why conv s = Ok x <-> conv s = Some x.
Proof.
  unfold convert. destruct (conv s); split; congruence.
Qed.

Lemma convert_Raise {A : Type} (why : value_error) (conv : string -> option A) s e :
  convert why conv s = Raise e -> e = ValueError why /\ conv s = None.
Proof.
  unfold convert. destruct (conv s); [discriminate | intros [= <-]; auto].
Qed.

(** ** Splitting *)

Lemma split_from_nonempty (sep : string) (skip : nat) (s : string) :
  split_from sep skip s <> [].
Proof.
  revert skip. induction s as [|c s IH]; intros skip; cbn [split_from].
  - discriminate.
  - destruct skip as [|k]; [|apply IH].
    destruct (String.prefix sep (String c s)); [discriminate|].
    destruct (split_from sep 0 s); discriminate.
Qed.

(** [s.split(sep)] has at least one element, whatever [s] is. *)
Lemma py_split_nonempty (sep s : string) : (1 <= List.length (py_split sep s))%nat.
Proof.
  unfold py_split. pose proof (split_from_nonempty sep 0 s) as H.
  destruct (split_from sep 0 s); [congruence | simpl; lia].
Qed.

Lemma py_split_empty (sep : string) : py_split sep EmptyString = [EmptyString].
Proof. reflexivity. Qed.

Lemma len_split_pos (sep s : string) : (len (py_split sep s) =? 0)%Z = false.
Proof.
  unfold len. pose proof (py_split_nonempty sep s). apply Z.eqb_neq. lia.
Qed.

Lemma prefix_empty (s : string) : String.prefix EmptyString s = true.
Proof. destruct s; reflexivity. Qed.

Lemma split_from_head_prefix (sep s f : string) (fs : list string) :
  split_from sep 0 s = f :: fs -> String.prefix f s = true.
Proof.
  revert f fs. induction s as [|c s IH]; intros f fs; cbn [split_from].
  - intros [= <- _]. reflexivity.
  - destruct (String.prefix sep (String c s)).
    + intros [= <- _]. reflexivity.
    + destruct (split_from sep 0 s) as [|f' fs'] eqn:E.
      * intros [= <- _]. simpl. destruct (ascii_dec c c); [apply prefix_empty | congruence].
      * intros [= <- _]. simpl. destruct (ascii_dec c c); [eauto | congruence].
Qed.

Lemma py_in_cons (a : string) (c : ascii) (s : string) :
  py_in a s = true -> py_in a (String c s) = true.
Proof. intros H. cbn [py_in]. rewrite H. apply orb_true_r. Qed.

Lemma py_in_prefix (a s : string) : String.prefix a s = true -> py_in a s = true.
Proof. intros H. destruct s; cbn [py_in]; rewrite H; reflexivity. Qed.

(** Every piece of a split occurs in the text that was split. *)
Lemma split_from_py_in (sep : string) (skip : nat) (s a : string) :
  a ∈ split_from sep skip s -> py_in a s = true.
Proof.
  revert skip. induction s as [|c s IH]; intros skip; cbn [split_from].
  - intros ->%list_elem_of_singleton. reflexivity.
  - destruct skip as [|k].
    + destruct (String.prefix sep (String c s)).
      * intros [-> | H]%elem_of_cons.
        -- apply py_in_prefix, prefix_empty.
        -- apply py_in_cons. eauto.
      * destruct (split_from sep 0 s) as [|f fs] eqn:E.
        -- now destruct (split_from_nonempty sep 0 s).
        -- intros [-> | H]%elem_of_cons.
           ++ apply py_in_prefix. simpl.
              destruct (ascii_dec c c); [|congruence].
              eapply split_from_head_prefix; eauto.
           ++ apply py_in_cons. apply (IH 0%nat). rewrite E. now right.
    + intros H. apply py_in_cons. eauto.
Qed.

Lemma credited_occurs (a : string) (r : row) : credited a r = true -> occurs a r = true.
Proof.
  unfold credited, occurs, actors_of, py_split.
  intros H%bool_decide_eq_true. eapply split_from_py_in; eauto.
Qed.

Lemma split_from_single (sep s x : string) : split_from sep 0 s = [x] -> x = s.
Proof.
  revert x. induction s as [|c s IH]; intros x; cbn [split_from].
  - now intros [= <-].
  - destruct (String.prefix sep (String c s)).
    + intros [= _ H]. now destruct (split_from_nonempty _ _ _ H).
    + destruct (split_from sep 0 s) as [|f fs] eqn:E.
      * now destruct (split_from_nonempty _ _ _ E).
      * intros [= <- ->]. f_equal. now apply IH.
Qed.

(** ** Maximum and sum *)

Lemma py_max_same (x : float) : py_max x x = x.
Proof. unfold py_max. now destruct (PrimFloat.ltb x x). Qed.

Lemma py_max_again (b x : float) : py_max (py_max b x) x = py_max b x.
Proof.
  unfold py_max. destruct (PrimFloat.ltb b x) eqn:E.
  - now destruct (PrimFloat.ltb x x).
  - now rewrite E.
Qed.

Lemma improve_again (rating : float) (best : option float) :
  improve rating (improve rating best) = improve rating best.
Proof.
  destruct best as [b|]; unfold improve; f_equal.
  - apply py_max_again.
  - apply py_max_same.
Qed.

Lemma fold_improve_Some (l : list float) (b : float) :
  fold_left (fun best x => improve x best) l (Some b) = Some (fold_left py_max l b).
Proof.
  revert b. induction l as [|x l IH]; intros b; [reflexivity|]. simpl. apply IH.
Qed.

Lemma fold_improve_None (l : list float) :
  fold_left (fun best x => improve x best) l None =
  match l with
  | [] => None
  | _ :: _ => Some (max_of l)
  end.
Proof.
  destruct l as [|x l]; [reflexivity|]. simpl. apply fold_improve_Some.
Qed.

Lemma existsb_filter {A : Type} (p : A -> bool) (l : list A) :
  existsb p l = match List.filter p l with [] => false | _ :: _ => true end.
Proof.
  induction l as [|x l IH]; simpl; [reflexivity|]. now destruct (p x).
Qed.

(** ** teamproject.py: the actor index *)

Section TeamIndex.
Variable py_float : string -> option float.

Abbreviation rating_of' := (rating_of py_float).
Abbreviation well_formed' := (well_formed py_float).

Lemma well_formed_fields (r : row) :
  well_formed' r = true ->
  (forall i, (i < 9)%nat -> item r i = Ok (field r i)) /\
  convert BadFloat py_float (field r 8) = Ok (rating_of' r).
Proof.
  unfold well_formed. intros [Hlen Hrat]%andb_true_iff.
  apply Nat.leb_le in Hlen. apply bool_decide_eq_true in Hrat.
  split.
  - intros i Hi. apply item_in_range. lia.
  - destruct Hrat as [x Hx]. unfold rating_of. apply convert_Ok. now rewrite Hx.
Qed.

Lemma rate_actor_lookup (rating : float) (d : gmap string float) (actor a : string) :
  team.rate_actor rating d actor !! a =
  if decide (actor = a) then improve rating (d !! a) else d !! a.
Proof.
  unfold team.rate_actor. destruct (decide (actor = a)) as [->|Hne].
  - destruct (d !! a); now rewrite lookup_insert_eq.
  - destruct (d !! actor); now rewrite lookup_insert_ne.
Qed.

Lemma rate_actors_lookup (rating : float) (actors : list string) (d : gmap string float)
    (a : string) :
  fold_left (team.rate_actor rating) actors d !! a =
  if bool_decide (a ∈ actors) then improve rating (d !! a) else d !! a.
Proof.
  revert d. induction actors as [|x actors IH]; intros d; cbn [fold_left].
  - case_bool_decide as H; [now apply not_elem_of_nil in H | reflexivity].
  - rewrite IH, rate_actor_lookup.
    destruct (decide (x = a)) as [->|Hne]; repeat case_bool_decide;
      try reflexivity; try apply improve_again; exfalso;
      rewrite elem_of_cons in *; intuition congruence.
Qed.

(** One film of the first loop: it returns exactly on a row that can be
    ranked, and then each of its actors takes the film's rating in. *)
Lemma rate_film_Ok (d d' : gmap string float) (film : row) :
  team.rate_film py_float d film = Ok d' ->
  well_formed' film = true /\
  d' = fold_left (team.rate_actor (rating_of' film)) (actors_of film) d.
Proof.
  unfold team.rate_film. intros H.
  returned H. returned H. returned H. injection H as <-.
  pose proof (item_length _ _ _ Hv0) as Hlen.
  apply item_field in Hv, Hv0. apply convert_Ok in Hv1. subst v v0.
  unfold well_formed, rating_of, actors_of. rewrite Hv1. split; [|reflexivity].
  apply andb_true_iff. split; [apply Nat.leb_le; lia | apply bool_decide_eq_true; eauto].
Qed.

Lemma rate_film_well_formed (d : gmap string float) (film : row) :
  well_formed' film = true ->
  team.rate_film py_float d film =
  Ok (fold_left (team.rate_actor (rating_of' film)) (actors_of film) d).
Proof.
  intros [Hitem Hrat]%well_formed_fields. unfold team.rate_film.
  rewrite !Hitem by lia. simpl. rewrite Hrat. reflexivity.
Qed.

Lemma rate_film_lookup (d : gmap string float) (film : row) (a : string) :
  fold_left (team.rate_actor (rating_of' film)) (actors_of film) d !! a =
  fold_left (fun best x => improve x best)
            (map rating_of' (List.filter (credited a) [film])) (d !! a).
Proof.
  rewrite rate_actors_lookup. simpl. unfold credited.
  destruct (bool_decide (a ∈ actors_of film)); reflexivity.
Qed.

Lemma rated_lookup (data : list row) (d0 d : gmap string float) (a : string) :
  for_each (team.rate_film py_float) data d0 = Ok d ->
  d !! a = fold_left (fun best x => improve x best)
                     (map rating_of' (List.filter (credited a) data)) (d0 !! a).
Proof.
  revert d0. induction data as [|film data IH]; intros d0; simpl.
  - now intros [= <-].
  - intros H. returned H. apply rate_film_Ok in Hv as [_ ->].
    rewrite (IH _ H), rate_film_lookup. simpl.
    destruct (credited a film); reflexivity.
Qed.

Lemma rated_well_formed (data : list row) (d0 d : gmap string float) :
  for_each (team.rate_film py_float) data d0 = Ok d -> forallb well_formed' data = true.
Proof.
  revert d0. induction data as [|film data IH]; intros d0; simpl; [reflexivity|].
  intros H. returned H. apply rate_film_Ok in Hv as [-> _]. simpl. eauto.
Qed.

Lemma rated_total (data : list row) (d0 : gmap string float) :
  forallb well_formed' data = true ->
  exists d, for_each (team.rate_film py_float) data d0 = Ok d.
Proof.
  revert d0. induction data as [|film data IH]; intros d0; simpl; [eauto|].
  intros [Hwf Hrest]%andb_true_iff. rewrite rate_film_well_formed by assumption.
  simpl. now apply IH.
Qed.

(** The index [actors_rating], once built, holds for each name that is
    credited somewhere in [data] the best rating of the films that
    credit it, and nothing for any other name. *)
Lemma actors_rating_lookup (data : list row) (d : gmap string float) (a : string) :
  team.actors_rating_of py_float data = Ok d ->
  d !! a = if existsb (credited a) data
           then Some (actor_index py_float credited data a) else None.
Proof.
  unfold team.actors_rating_of. intros H.
  rewrite (rated_lookup _ _ _ a H), lookup_empty, fold_improve_None.
  unfold actor_index. rewrite existsb_filter.
  destruct (List.filter (credited a) data); reflexivity.
Qed.
End TeamIndex.

(** ** teamproject.py: [top_n] on rows it can rank *)

Section TeamRanking.
Variable py_float : string -> option float.

Abbreviation team_index := (actor_index py_float credited).

Lemma average_loop (d : gmap string float) (idx : string -> float) (actors : list string)
    (avg : float) :
  (forall a, a ∈ actors -> d !! a = Some (idx a)) ->
  for_each (fun avg actor => let* r := team.getitem d actor in Ok (PrimFloat.add avg r))
           actors avg
  = Ok (fold_left PrimFloat.add (map idx actors) avg).
Proof.
  revert avg. induction actors as [|a actors IH]; intros avg Hd; simpl; [reflexivity|].
  unfold team.getitem at 1. rewrite (Hd a) by apply list_elem_of_here. simpl.
  apply IH. intros a' Ha'. apply Hd. now apply list_elem_of_further.
Qed.

Lemma rank_film_well_formed (data : list row) (g : string + list string)
    (d : gmap string float) (answer : list ranked) (film : row) :
  well_formed py_float film = true ->
  (forall a, a ∈ actors_of film -> d !! a = Some (team_index data a)) ->
  team.rank_film py_float g d answer film =
  Ok (if team.is_in_genres (genres_of film) g
      then answer ++ [ranked_of py_float sum_left credited data film] else answer).
Proof.
  intros [Hitem Hrat]%well_formed_fields Hd. unfold team.rank_film.
  rewrite !Hitem by lia. cbn [bind].
  fold (genres_of film). fold (actors_of film).
  destruct (team.is_in_genres (genres_of film) g); [|reflexivity].
  rewrite (average_loop d (team_index data)) by assumption. cbn [bind].
  unfold py_div, actors_of at 1. rewrite len_split_pos. cbn [bind].
  rewrite Hrat. cbn [bind]. do 3 f_equal.
  unfold ranked_of, actor_average, mean, sum_left, title_of, len.
  now rewrite length_map.
Qed.

Lemma rank_loop (data : list row) (g : string + list string) (d : gmap string float)
    (films : list row) (answer : list ranked) :
  forallb (well_formed py_float) films = true ->
  (forall r a, In r films -> a ∈ actors_of r -> d !! a = Some (team_index data a)) ->
  for_each (team.rank_film py_float g d) films answer =
  Ok (answer ++ map (ranked_of py_float sum_left credited data)
                    (List.filter (fun r => team.is_in_genres (genres_of r) g) films)).
Proof.
  revert answer. induction films as [|film films IH]; intros answer Hwf Hd; simpl.
  - now rewrite app_nil_r.
  - apply andb_true_iff in Hwf as [Hfilm Hwf].
    rewrite (rank_film_well_formed data) by (auto; intros; apply (Hd film); simpl; auto).
    cbn [bind]. rewrite IH by (auto; intros; eapply Hd; simpl; eauto).
    destruct (team.is_in_genres (genres_of film) g); [|reflexivity].
    simpl. now rewrite <- app_assoc.
Qed.

Lemma credited_in_data (data : list row) (r : row) (a : string) :
  In r data -> a ∈ actors_of r -> existsb (credited a) data = true.
Proof.
  intros Hin Ha. apply existsb_exists. exists r. split; [assumption|].
  unfold credited. now apply bool_decide_eq_true.
Qed.

(** [top_n] of [teamproject.py] returns exactly when every row of [data]
    can be ranked, and then it returns the ranking of the films that
    pass, cut at the limit. *)
Lemma team_top_n_Ok (data : list row) (genre : string) (n : Z)
    (res : list (string * float)) :
  team.top_n py_float data genre n = Ok res <->
  forallb (well_formed py_float) data = true /\
  res = team_limit n (map entry_of (team_ranking py_float data genre)).
Proof.
  unfold team.top_n, team_ranking, ranking, team_limit.
  split.
  - intros H. returned H. pose proof (rated_well_formed _ _ _ _ Hv) as Hwf.
    rewrite (rank_loop data) in H; auto.
    + cbn [bind app] in H. injection H as <-. auto.
    + intros r a Hin Ha. rewrite (actors_rating_lookup _ _ _ a Hv).
      now rewrite (credited_in_data data r a).
  - intros [Hwf ->].
    destruct (rated_total py_float data ∅ Hwf) as [d Hd].
    unfold team.actors_rating_of. rewrite Hd. cbn [bind].
    rewrite (rank_loop data); auto.
    intros r a Hin Ha. rewrite (actors_rating_lookup py_float data d a Hd).
    now rewrite (credited_in_data data r a).
Qed.
End TeamRanking.

(** ** Comprehensions *)

Lemma comprehension_Ok {A B : Type} (p : A -> result bool) (f : A -> result B)
    (pb : A -> bool) (g : A -> B) (l : list A) (ys : list B) :
  (forall x b, p x = Ok b -> b = pb x) ->
  (forall x y, f x = Ok y -> y = g x) ->
  comprehension p f l = Ok ys -> ys = map g (List.filter pb l).
Proof.
  intros Hp Hf. revert ys. induction l as [|x l IH]; intros ys; simpl.
  - now intros [= <-].
  - intros H. returned H. apply Hp in Hv as ->.
    destruct (pb x); [|now apply IH].
    returned H. returned H. injection H as <-.
    apply Hf in Hv as ->. simpl. f_equal. now apply IH.
Qed.

Lemma comprehension_total {A B : Type} (p : A -> result bool) (f : A -> result B)
    (pb : A -> bool) (g : A -> B) (l : list A) :
  (forall x, In x l -> p x = Ok (pb x)) ->
  (forall x, In x l -> pb x = true -> f x = Ok (g x)) ->
  comprehension p f l = Ok (map g (List.filter pb l)).
Proof.
  induction l as [|x l IH]; intros Hp Hf; simpl; [reflexivity|].
  rewrite Hp by now left. cbn [bind].
  destruct (pb x) eqn:E.
  - rewrite Hf by (auto; now left). cbn [bind].
    rewrite IH; [reflexivity | intros; apply Hp; now right
                | intros; apply Hf; auto; now right].
  - apply IH; intros; [apply Hp | apply Hf]; auto; now right.
Qed.

Lemma comprehension_ext_in {A B : Type} (p p' : A -> result bool) (f : A -> result B)
    (l : list A) :
  (forall x, In x l -> p x = p' x) -> comprehension p f l = comprehension p' f l.
Proof.
  induction l as [|x l IH]; intros Hp; simpl; [reflexivity|].
  rewrite (Hp x) by now left.
  rewrite IH by (intros; apply Hp; now right). reflexivity.
Qed.

Lemma filter_true {A : Type} (l : list A) : List.filter (fun _ => true) l = l.
Proof. induction l as [|x l IH]; simpl; congruence. Qed.

(** ** gptproject.py: [top_n] *)

Section GptRanking.
Variable py_float : string -> option float.
Variable py_sum : list float -> float.

Abbreviation gpt_index := (actor_index py_float occurs).

Lemma get_highest_Ok (actor : string) (data : list row) (x : float) :
  gpt.get_highest_rating_for_actor py_float actor data = Ok x -> x = gpt_index data actor.
Proof.
  unfold gpt.get_highest_rating_for_actor. intros H. returned H.
  apply (comprehension_Ok _ _ (occurs actor) (rating_of py_float)) in Hv as ->.
  - unfold actor_index. destruct (map _ _); [discriminate|]. now injection H as <-.
  - intros r b Hb. returned Hb. injection Hb as <-. apply item_field in Hv0 as <-.
    reflexivity.
  - intros r y Hy. returned Hy. apply item_field in Hv0 as <-.
    apply convert_Ok in Hy. unfold rating_of. now rewrite Hy.
Qed.

Lemma get_highest_total (actor : string) (data : list row) :
  forallb (well_formed py_float) data = true ->
  existsb (occurs actor) data = true ->
  gpt.get_highest_rating_for_actor py_float actor data = Ok (gpt_index data actor).
Proof.
  intros Hwf Hex. unfold gpt.get_highest_rating_for_actor.
  rewrite forallb_forall in Hwf.
  rewrite (comprehension_total _ _ (occurs actor) (rating_of py_float)).
  - cbn [bind]. unfold actor_index. rewrite existsb_filter in Hex.
    destruct (List.filter (occurs actor) data); [discriminate | reflexivity].
  - intros r Hr. apply Hwf, well_formed_fields in Hr as [Hitem _].
    now rewrite Hitem by lia.
  - intros r Hr _. apply Hwf, well_formed_fields in Hr as [Hitem Hrat].
    now rewrite Hitem by lia.
Qed.

Lemma rate_movie_Ok (data : list row) (movie : row) (t : ranked) :
  gpt.rate_movie py_float py_sum data movie = Ok t -> t = ranked_of py_float py_sum occurs data movie.
Proof.
  unfold gpt.rate_movie. intros H. do 5 returned H.
  apply item_field in Hv, Hv0, Hv2. apply convert_Ok in Hv1. subst v v0 v2.
  apply (comprehension_Ok _ _ (fun _ => true) (gpt_index data)) in Hv3.
  - rewrite filter_true in Hv3. subst v3. fold (actors_of movie) in H.
    unfold py_div in H. destruct (len _ =? 0)%Z; [discriminate|]. injection H as <-.
    unfold ranked_of, title_of, rating_of, actor_average, mean. now rewrite Hv1.
  - now intros _ b [= <-].
  - intros a x. apply get_highest_Ok.
Qed.

Lemma rate_movie_total (data : list row) (movie : row) :
  forallb (well_formed py_float) data = true -> In movie data ->
  gpt.rate_movie py_float py_sum data movie = Ok (ranked_of py_float py_sum occurs data movie).
Proof.
  intros Hwf Hin. unfold gpt.rate_movie.
  pose proof Hwf as Hall. rewrite forallb_forall in Hall.
  destruct (well_formed_fields py_float movie (Hall _ Hin)) as [Hitem Hrat].
  rewrite !Hitem by lia. cbn [bind]. rewrite Hrat. cbn [bind].
  fold (actors_of movie).
  rewrite (comprehension_total _ _ (fun _ => true) (gpt_index data)).
  - cbn [bind]. rewrite filter_true. unfold py_div.
    replace (len (map (gpt_index data) (actors_of movie)) =? 0)%Z with false.
    + reflexivity.
    + unfold len. rewrite length_map. symmetry. apply (len_split_pos ", ").
  - reflexivity.
  - intros a Ha _. apply get_highest_total; [assumption|].
    apply existsb_exists. exists movie. split; [assumption|].
    apply credited_occurs. unfold credited. apply bool_decide_eq_true.
    now apply list_elem_of_In.
Qed.

Lemma in_genre_list_Ok (genre : string) (movie : row) (b : bool) :
  gpt.in_genre_list (gpt.genre_list_of genre) movie = Ok b -> b = gpt_passes genre movie.
Proof.
  unfold gpt.in_genre_list, gpt_passes. destruct (gpt.genre_list_of genre).
  - now intros [= <-].
  - intros H. returned H. injection H as <-. now apply item_field in Hv as <-.
Qed.

Lemma in_genre_list_total (genre : string) (movie : row) :
  well_formed py_float movie = true ->
  gpt.in_genre_list (gpt.genre_list_of genre) movie = Ok (gpt_passes genre movie).
Proof.
  intros [Hitem _]%well_formed_fields. unfold gpt.in_genre_list, gpt_passes.
  destruct (gpt.genre_list_of genre); [reflexivity|]. now rewrite Hitem by lia.
Qed.

(** Whenever [top_n] of [gptproject.py] returns, it returns the ranking
    of the films that pass, cut at the limit. *)
Lemma gpt_top_n_Ok (data : list row) (genre : string) (n : Z)
    (res : list (string * float)) :
  gpt.top_n py_float py_sum data genre n = Ok res ->
  res = map entry_of (gpt_limit n (gpt_ranking py_float py_sum data genre)).
Proof.
  unfold gpt.top_n, gpt_ranking, ranking, gpt_limit. intros H. do 2 returned H.
  injection H as <-.
  apply (comprehension_Ok _ _ (gpt_passes genre) id) in Hv.
  - rewrite map_id in Hv. subst v.
    apply (comprehension_Ok _ _ (fun _ => true) (ranked_of py_float py_sum occurs data)) in Hv0.
    + rewrite filter_true in Hv0. now subst v0.
    + now intros _ b [= <-].
    + intros r t. apply rate_movie_Ok.
  - intros r b. apply in_genre_list_Ok.
  - now intros x y [= <-].
Qed.

(** It returns on every data set whose rows can all be ranked. *)
Lemma gpt_top_n_total (data : list row) (genre : string) (n : Z) :
  forallb (well_formed py_float) data = true ->
  gpt.top_n py_float py_sum data genre n =
  Ok (map entry_of (gpt_limit n (gpt_ranking py_float py_sum data genre))).
Proof.
  intros Hwf. unfold gpt.top_n, gpt_ranking, ranking, gpt_limit.
  pose proof Hwf as Hall. rewrite forallb_forall in Hall.
  rewrite (comprehension_total _ _ (gpt_passes genre) id).
  - cbn [bind]. rewrite map_id.
    rewrite (comprehension_total _ _ (fun _ => true) (ranked_of py_float py_sum occurs data)).
    + cbn [bind]. now rewrite filter_true.
    + reflexivity.
    + intros r [Hr _]%filter_In _. now apply rate_movie_total.
  - intros r Hr. now apply in_genre_list_total, Hall.
  - reflexivity.
Qed.
End GptRanking.

(** ** Sorting *)

Section SortedFacts.
Context {A K : Type} (lt : K -> K -> bool) (key : A -> K).

Lemma insert_run_perm (x : A) (run : list A) :
  Permutation (insert_run lt key x run) (x :: run).
Proof.
  induction run as [|y run IH]; simpl; [reflexivity|].
  destruct (lt (key x) (key y)); [|reflexivity].
  rewrite IH. apply perm_swap.
Qed.

Lemma runs_perm (l run : list A) :
  Permutation (fold_left (fun run x => insert_run lt key x run) l run) (l ++ run).
Proof.
  revert run. induction l as [|x l IH]; intros run; simpl; [reflexivity|].
  rewrite IH, insert_run_perm. symmetry. apply Permutation_middle.
Qed.

(** [sorted] rearranges its argument and does nothing else. *)
Lemma py_sorted_perm (l : list A) : Permutation (py_sorted lt key l) l.
Proof.
  unfold py_sorted. rewrite <- Permutation_rev, runs_perm. now rewrite app_nil_r.
Qed.

Lemma py_sorted_length (l : list A) : List.length (py_sorted lt key l) = List.length l.
Proof. apply Permutation_length, py_sorted_perm. Qed.

(** Keys that do not depend on the way they are computed. *)
Lemma insert_run_ext (key' : A -> K) (x : A) (run : list A) :
  (forall y, key y = key' y) -> insert_run lt key x run = insert_run lt key' x run.
Proof.
  intros Hk. induction run as [|y run IH]; simpl; [reflexivity|].
  now rewrite IH, !Hk.
Qed.

Lemma py_sorted_ext (key' : A -> K) (l : list A) :
  (forall y, key y = key' y) -> py_sorted lt key l = py_sorted lt key' l.
Proof.
  intros Hk. unfold py_sorted. f_equal. generalize (@nil A) as run.
  induction l as [|x l IH]; intros run; simpl; [reflexivity|].
  now rewrite IH, (insert_run_ext key').
Qed.

(** On elements where [<] is asymmetric and its complement transitive,
    the result is sorted: no element is less than one before it. *)
Variable good : A -> Prop.
Hypothesis lt_asym : forall x y,
  good x -> good y -> lt (key x) (key y) = true -> lt (key y) (key x) = false.
Hypothesis not_lt_trans : forall x y z,
  good x -> good y -> good z ->
  lt (key x) (key y) = false -> lt (key y) (key z) = false -> lt (key x) (key z) = false.

Lemma insert_run_sorted (x : A) (run : list A) :
  good x -> Forall good run ->
  StronglySorted (not_below lt key) run -> StronglySorted (not_below lt key) (insert_run lt key x run).
Proof.
  intros Hx. induction run as [|y run IH]; intros Hgood Hs; simpl.
  - repeat constructor.
  - apply Forall_cons in Hgood as [Hy Hgood].
    apply StronglySorted_inv in Hs as [Hs Hall].
    destruct (lt (key x) (key y)) eqn:E.
    + constructor; [auto|].
      rewrite (insert_run_perm x run). constructor; [|assumption].
      now apply lt_asym.
    + constructor; [now constructor|].
      constructor; [assumption|].
      rewrite Forall_forall in Hall, Hgood |- *. intros z Hz.
      apply (not_lt_trans x y z); auto. now apply Hall.
Qed.

Lemma runs_sorted (l run : list A) :
  Forall good l -> Forall good run -> StronglySorted (not_below lt key) run ->
  StronglySorted (not_below lt key) (fold_left (fun run x => insert_run lt key x run) l run).
Proof.
  revert run. induction l as [|x l IH]; intros run Hl Hrun Hs; simpl; [assumption|].
  apply Forall_cons in Hl as [Hx Hl]. apply IH; auto.
  - rewrite (insert_run_perm x run). now constructor.
  - now apply insert_run_sorted.
Qed.

Lemma StronglySorted_rev (R : A -> A -> Prop) (l : list A) :
  StronglySorted R l -> StronglySorted (fun x y => R y x) (rev l).
Proof.
  induction 1 as [|x l Hs IH Hall]; simpl; [constructor|].
  apply StronglySorted_app. split; [|split]; [|assumption|repeat constructor].
  intros x1 x2 Hx1 ->%list_elem_of_singleton.
  rewrite Forall_forall in Hall. apply Hall.
  apply list_elem_of_In, in_rev. now apply list_elem_of_In.
Qed.

Lemma py_sorted_sorted (l : list A) :
  Forall good l -> StronglySorted (fun x y => not_below lt key y x) (py_sorted lt key l).
Proof.
  intros Hl. unfold py_sorted. apply StronglySorted_rev.
  apply runs_sorted; auto; constructor.
Qed.
End SortedFacts.

Lemma StronglySorted_lookup {A : Type} (R : A -> A -> Prop) (l : list A) (i j : nat) (x y : A) :
  StronglySorted R l -> (i < j)%nat -> l !! i = Some x -> l !! j = Some y -> R x y.
Proof.
  intros Hs. revert i j. induction Hs as [|z l Hs IH Hall]; intros i j Hij Hi Hj.
  - discriminate.
  - destruct j as [|j]; [lia|]. simpl in Hj. destruct i as [|i].
    + injection Hi as ->. rewrite Forall_forall in Hall. apply Hall.
      eapply list_elem_of_lookup_2; eauto.
    + simpl in Hi. apply (IH i j); auto. lia.
Qed.

Lemma lookup_map {A B : Type} (f : A -> B) (l : list A) (i : nat) :
  map f l !! i = option_map f (l !! i).
Proof.
  revert i. induction l as [|x l IH]; intros [|i]; simpl; auto.
Qed.

Lemma StronglySorted_firstn {A : Type} (R : A -> A -> Prop) (l : list A) (k : nat) :
  StronglySorted R l -> StronglySorted R (firstn k l).
Proof.
  intros Hs. rewrite <- (firstn_skipn k l) in Hs.
  now apply StronglySorted_app_1_l in Hs.
Qed.

Lemma StronglySorted_map {A B : Type} (R : B -> B -> Prop) (f : A -> B) (l : list A) :
  StronglySorted (fun x y => R (f x) (f y)) l -> StronglySorted R (map f l).
Proof.
  induction 1 as [|x l Hs IH Hall]; simpl; constructor; auto.
  now apply List.Forall_map.
Qed.

(** ** The order of floats *)

Lemma lex_Lt (a b : Z * Z * Z) : lex a b = Lt <-> lex_lt a b.
Proof.
  destruct a as [[a1 a2] a3], b as [[b1 b2] b3]. simpl.
  destruct (Z.compare_spec a1 b1), (Z.compare_spec a2 b2), (Z.compare_spec a3 b3);
    split; intros Hlex; try discriminate; try reflexivity; lia.
Qed.

Lemma lex_Eq (a b : Z * Z * Z) : lex a b = Eq <-> a = b.
Proof.
  destruct a as [[a1 a2] a3], b as [[b1 b2] b3]. simpl.
  destruct (Z.compare_spec a1 b1), (Z.compare_spec a2 b2), (Z.compare_spec a3 b3);
    split; intros Hlex; try discriminate; try reflexivity; try congruence;
    injection Hlex; lia.
Qed.

Lemma lex_Gt (a b : Z * Z * Z) : lex a b = Gt <-> lex_lt b a.
Proof.
  destruct a as [[a1 a2] a3], b as [[b1 b2] b3]. simpl.
  destruct (Z.compare_spec a1 b1), (Z.compare_spec a2 b2), (Z.compare_spec a3 b3);
    split; intros Hlex; try discriminate; try reflexivity; lia.
Qed.

Lemma SFcompare_code (x y : spec_float) :
  x <> S754_nan -> y <> S754_nan -> SFcompare x y = Some (lex (code x) (code y)).
Proof.
  intros Hx Hy.
  destruct x as [sx|sx| |sx mx ex], y as [sy|sy| |sy my ey]; try congruence;
    destruct sx, sy; try reflexivity; simpl; f_equal.
  rewrite Z.compare_opp, (Z.compare_antisym ex ey).
  destruct (ex ?= ey)%Z; reflexivity.
Qed.

Lemma is_nan_false (x : float) : is_nan x = false <-> Prim2SF x <> S754_nan.
Proof.
  unfold is_nan. rewrite FloatAxioms.eqb_spec. unfold SFeqb.
  destruct (Prim2SF x) as [s|s| |s m e] eqn:E.
  - split; [discriminate | reflexivity].
  - split; [discriminate | now destruct s].
  - split; [discriminate | congruence].
  - split; [discriminate|]. intros _.
    rewrite SFcompare_code by discriminate.
    now rewrite (proj2 (lex_Eq _ _) eq_refl).
Qed.

Section NotNan.
Variables x y : float.
Hypothesis Hx : is_nan x = false.
Hypothesis Hy : is_nan y = false.

Lemma ltb_code : PrimFloat.ltb x y = true <-> lex_lt (fcode x) (fcode y).
Proof.
  rewrite FloatAxioms.ltb_spec. unfold SFltb, fcode.
  rewrite SFcompare_code by now apply is_nan_false.
  rewrite <- lex_Lt. destruct (lex _ _); split; congruence.
Qed.

Lemma eqb_code : PrimFloat.eqb x y = true <-> fcode x = fcode y.
Proof.
  rewrite FloatAxioms.eqb_spec. unfold SFeqb, fcode.
  rewrite SFcompare_code by now apply is_nan_false.
  rewrite <- lex_Eq. destruct (lex _ _); split; congruence.
Qed.
End NotNan.

Lemma lex_lt_total (a b : Z * Z * Z) : lex_lt a b \/ a = b \/ lex_lt b a.
Proof.
  destruct a as [[a1 a2] a3], b as [[b1 b2] b3]. simpl.
  destruct (Z.lt_total a1 b1) as [?|[->|?]]; [lia| |lia].
  destruct (Z.lt_total a2 b2) as [?|[->|?]]; [lia| |lia].
  destruct (Z.lt_total a3 b3) as [?|[->|?]]; [lia| |lia].
  right. left. reflexivity.
Qed.

Lemma lex_lt_trans (a b c : Z * Z * Z) : lex_lt a b -> lex_lt b c -> lex_lt a c.
Proof.
  destruct a as [[a1 a2] a3], b as [[b1 b2] b3], c as [[c1 c2] c3]. simpl. lia.
Qed.

Lemma lex_lt_irrefl (a : Z * Z * Z) : ~ lex_lt a a.
Proof. destruct a as [[a1 a2] a3]. simpl. lia. Qed.

Lemma code_opp (x : spec_float) : code (SFopp x) = opp3 (code x).
Proof.
  destruct x as [s|s| |s m e]; try destruct s; simpl;
    rewrite ?Z.opp_involutive; reflexivity.
Qed.

Lemma lex_lt_opp3 (a b : Z * Z * Z) : lex_lt (opp3 a) (opp3 b) <-> lex_lt b a.
Proof.
  destruct a as [[a1 a2] a3], b as [[b1 b2] b3]. simpl. lia.
Qed.

Lemma opp3_inj (a b : Z * Z * Z) : opp3 a = opp3 b <-> a = b.
Proof.
  destruct a as [[a1 a2] a3], b as [[b1 b2] b3]. simpl.
  split; intros [= H1 H2 H3].
  - assert (a1 = b1 /\ a2 = b2 /\ a3 = b3) as (-> & -> & ->) by lia. reflexivity.
  - now subst.
Qed.

Lemma is_nan_opp (x : float) : is_nan (PrimFloat.opp x) = is_nan x.
Proof.
  destruct (is_nan x) eqn:E.
  - apply not_false_iff_true. apply not_false_iff_true in E.
    rewrite is_nan_false in *. rewrite opp_spec.
    intros H. apply E. intros Hx. apply H. now destruct (Prim2SF x).
  - apply is_nan_false. apply is_nan_false in E. rewrite opp_spec.
    now destruct (Prim2SF x).
Qed.

Lemma fcode_opp (x : float) : fcode (PrimFloat.opp x) = opp3 (fcode x).
Proof. unfold fcode. now rewrite opp_spec, code_opp. Qed.

(** Dividing the negation is negating the quotient: the rounding of
    binary64 does not look at the sign. *)
Lemma binary_round_aux_opp (s : bool) (m e : Z) (l : location) :
  binary_round_aux prec emax (negb s) m e l = SFopp (binary_round_aux prec emax s m e l).
Proof.
  unfold binary_round_aux.
  destruct (shr_fexp prec emax m e l) as [mrs e'].
  destruct (shr_fexp prec emax _ e' loc_Exact) as [mrs' e''].
  destruct (shr_m mrs'); [reflexivity| |reflexivity].
  now destruct (e'' <=? emax - prec)%Z.
Qed.

Lemma SFdiv_opp (x y : spec_float) :
  SFdiv prec emax (SFopp x) y = SFopp (SFdiv prec emax x y).
Proof.
  destruct x as [sx|sx| |sx mx ex], y as [sy|sy| |sy my ey]; simpl;
    try reflexivity; try (now destruct sx, sy).
  destruct (SFdiv_core_binary prec emax (Z.pos mx) ex (Z.pos my) ey) as [[mz ez] lz].
  rewrite <- binary_round_aux_opp. now destruct sx, sy.
Qed.

Lemma div_opp (x y : float) :
  PrimFloat.div (PrimFloat.opp x) y = PrimFloat.opp (PrimFloat.div x y).
Proof.
  apply Prim2SF_inj. rewrite div_spec, !opp_spec, div_spec. apply SFdiv_opp.
Qed.

(** Among floats that are not NaN, [max] is the maximum. *)
Lemma ltb_irrefl (x : float) : PrimFloat.ltb x x = false.
Proof.
  destruct (is_nan x) eqn:E.
  - unfold is_nan in E. apply negb_true_iff in E.
    rewrite FloatAxioms.eqb_spec in E. rewrite FloatAxioms.ltb_spec.
    unfold SFeqb, SFltb in *. destruct (Prim2SF x) as [s|s| |s m e]; try reflexivity;
      try (now destruct s).
    rewrite SFcompare_code in * by discriminate.
    now rewrite (proj2 (lex_Eq _ _) eq_refl) in E.
  - apply not_true_is_false. intros H%ltb_code; auto. now apply lex_lt_irrefl in H.
Qed.

Lemma not_ltb_trans (x y z : float) :
  is_nan x = false -> is_nan y = false -> is_nan z = false ->
  PrimFloat.ltb x y = false -> PrimFloat.ltb y z = false -> PrimFloat.ltb x z = false.
Proof.
  intros Hx Hy Hz Hxy Hyz. apply not_true_is_false. intros Hxz.
  apply not_true_iff_false in Hxy, Hyz.
  rewrite ltb_code in Hxy, Hyz, Hxz by assumption.
  destruct (lex_lt_total (fcode x) (fcode y)) as [H | [H | H]]; [tauto| |].
  - apply Hyz. now rewrite <- H.
  - apply Hyz. eapply lex_lt_trans; eauto.
Qed.

Lemma ltb_asym (x y : float) :
  is_nan x = false -> is_nan y = false ->
  PrimFloat.ltb x y = true -> PrimFloat.ltb y x = false.
Proof.
  intros Hx Hy H%ltb_code; auto. apply not_true_is_false. intros H'%ltb_code; auto.
  apply (lex_lt_irrefl (fcode x)). eapply lex_lt_trans; eauto.
Qed.

Lemma fold_py_max_in (l : list float) (x : float) : In (fold_left py_max l x) (x :: l).
Proof.
  revert x. induction l as [|z l IH]; intros x; simpl; [now left|].
  destruct (IH (py_max x z)) as [H | H]; [|auto].
  rewrite <- H. unfold py_max. destruct (PrimFloat.ltb x z); auto.
Qed.

Lemma fold_py_max_greatest (l : list float) (x : float) :
  Forall (fun y => is_nan y = false) (x :: l) ->
  Forall (fun y => PrimFloat.ltb (fold_left py_max l x) y = false) (x :: l).
Proof.
  revert x. induction l as [|z l IH]; intros x Hnan.
  - repeat constructor. apply ltb_irrefl.
  - apply Forall_cons in Hnan as [Hx Hnan]. pose proof Hnan as Hzl.
    apply Forall_cons in Hzl as [Hz Hl].
    assert (is_nan (py_max x z) = false) as Hm
      by (unfold py_max; now destruct (PrimFloat.ltb x z)).
    specialize (IH (py_max x z) (proj2 (Forall_cons _ _ _) (conj Hm Hl))).
    apply Forall_cons in IH as [HM IH]. cbn [fold_left].
    assert (is_nan (fold_left py_max l (py_max x z)) = false) as HMn.
    { assert (Forall (fun y => is_nan y = false) (py_max x z :: l)) as Hall
        by now constructor.
      rewrite Forall_forall in Hall. apply Hall, list_elem_of_In, fold_py_max_in. }
    assert (PrimFloat.ltb (py_max x z) x = false /\ PrimFloat.ltb (py_max x z) z = false)
      as [Hmx Hmz].
    { unfold py_max. destruct (PrimFloat.ltb x z) eqn:E.
      - split; [now apply ltb_asym | apply ltb_irrefl].
      - split; [apply ltb_irrefl | assumption]. }
    repeat constructor; [| |assumption].
    + now apply (not_ltb_trans _ (py_max x z)).
    + now apply (not_ltb_trans _ (py_max x z)).
Qed.

(** The index value of an actor is one of the ratings of the films of
    the actor, and none of them is greater. *)
Lemma max_of_greatest (l : list float) :
  l <> [] -> Forall (fun y => is_nan y = false) l ->
  In (max_of l) l /\ Forall (fun y => PrimFloat.ltb (max_of l) y = false) l.
Proof.
  destruct l as [|x l]; [congruence|]. intros _ Hnan. simpl. split.
  - apply fold_py_max_in.
  - now apply fold_py_max_greatest.
Qed.

(** ** The order of titles *)

Lemma ascii_compare_refl (a : ascii) : Ascii.compare a a = Eq.
Proof. apply N.compare_refl. Qed.

Lemma ascii_compare_trans (a b c : ascii) :
  Ascii.compare a b = Lt -> Ascii.compare b c = Lt -> Ascii.compare a c = Lt.
Proof.
  unfold Ascii.compare. rewrite !N.compare_lt_iff. apply N.lt_trans.
Qed.

Lemma string_compare_refl (s : string) : String.compare s s = Eq.
Proof.
  induction s as [|a s IH]; simpl; [reflexivity|]. now rewrite ascii_compare_refl.
Qed.

Lemma string_compare_trans (s t u : string) :
  String.compare s t = Lt -> String.compare t u = Lt -> String.compare s u = Lt.
Proof.
  revert t u. induction s as [|a s IH]; intros [|b t] [|c u]; simpl; try congruence.
  destruct (Ascii.compare a b) eqn:Eab; try discriminate;
    destruct (Ascii.compare b c) eqn:Ebc; try discriminate.
  - apply Ascii.compare_eq_iff in Eab as ->. rewrite Ebc. apply IH.
  - apply Ascii.compare_eq_iff in Eab as ->. now rewrite Ebc.
  - apply Ascii.compare_eq_iff in Ebc as ->. now rewrite Eab.
  - now rewrite (ascii_compare_trans a b c).
Qed.

Lemma string_compare_total (s t : string) :
  String.compare s t = Lt \/ s = t \/ String.compare t s = Lt.
Proof.
  destruct (String.compare s t) eqn:E.
  - right. left. now apply String.compare_eq_iff.
  - now left.
  - right. right. rewrite String.compare_antisym, E. reflexivity.
Qed.

(** ** The order of sort keys *)

Lemma key_lt_below (a b : float * string) :
  is_nan (fst a) = false -> is_nan (fst b) = false ->
  key_lt a b = true <-> key_below a b.
Proof.
  intros Ha Hb. unfold key_lt, key_below.
  destruct (PrimFloat.eqb (fst a) (fst b)) eqn:E.
  - apply (eqb_code _ _ Ha Hb) in E. rewrite E. unfold String.ltb.
    split.
    + intros H. right. split; [reflexivity|]. now destruct (String.compare _ _).
    + intros [H|[_ ->]]; [now apply lex_lt_irrefl in H | reflexivity].
  - rewrite (ltb_code _ _ Ha Hb). split; [now left|].
    intros [H|[H _]]; [assumption|].
    apply (eqb_code _ _ Ha Hb) in H. congruence.
Qed.

Lemma key_below_trans (a b c : float * string) :
  key_below a b -> key_below b c -> key_below a c.
Proof.
  unfold key_below. intros [H1|[E1 H1]] [H2|[E2 H2]].
  - left. eapply lex_lt_trans; eauto.
  - left. now rewrite <- E2.
  - left. now rewrite E1.
  - right. split; [congruence|]. eapply string_compare_trans; eauto.
Qed.

Lemma key_below_irrefl (a : float * string) : ~ key_below a a.
Proof.
  intros [H|[_ H]]; [now apply lex_lt_irrefl in H|].
  rewrite string_compare_refl in H. discriminate.
Qed.

Lemma key_below_total (a b : float * string) :
  key_below a b \/ (fcode (fst a) = fcode (fst b) /\ snd a = snd b) \/ key_below b a.
Proof.
  unfold key_below.
  destruct (lex_lt_total (fcode (fst a)) (fcode (fst b))) as [H|[H|H]]; auto.
  destruct (string_compare_total (snd a) (snd b)) as [Hs|[Hs|Hs]]; auto 6.
Qed.

Section KeyOrder.
Variables a b c : float * string.
Hypothesis Ha : is_nan (fst a) = false.
Hypothesis Hb : is_nan (fst b) = false.
Hypothesis Hc : is_nan (fst c) = false.

Lemma key_lt_asym : key_lt a b = true -> key_lt b a = false.
Proof.
  intros H%key_lt_below; auto. apply not_true_is_false.
  intros H'%key_lt_below; auto.
  apply (key_below_irrefl a). eapply key_below_trans; eauto.
Qed.

Lemma key_not_lt_trans : key_lt a b = false -> key_lt b c = false -> key_lt a c = false.
Proof.
  intros Hab Hbc. apply not_true_is_false. intros Hac%key_lt_below; auto.
  apply not_true_iff_false in Hab, Hbc.
  rewrite key_lt_below in Hab, Hbc by auto.
  destruct (key_below_total a b) as [H|[[E1 E2]|H]]; [tauto| |].
  - apply Hbc. unfold key_below in *. rewrite <- E1, <- E2. exact Hac.
  - apply Hbc. eapply key_below_trans; eauto.
Qed.
End KeyOrder.

(** ** The order of a result *)

Lemma sort_key_entry (t : ranked) :
  gpt.sort_key t = (PrimFloat.opp (snd (entry_of t)), fst (entry_of t)).
Proof. destruct t as [[title mr] ar]. reflexivity. Qed.

(** The two sources sort by the same key. *)
Lemma sorting_lambda_sort_key (t : ranked) : team.sorting_lambda t = gpt.sort_key t.
Proof.
  destruct t as [[title mr] ar]. unfold team.sorting_lambda, gpt.sort_key.
  now rewrite div_opp.
Qed.

Lemma not_below_ranks_before (x y : ranked) :
  is_nan (snd (entry_of x)) = false -> is_nan (snd (entry_of y)) = false ->
  key_lt (gpt.sort_key y) (gpt.sort_key x) = false ->
  ranks_before (entry_of x) (entry_of y).
Proof.
  intros Hx Hy H. apply not_true_iff_false in H.
  rewrite key_lt_below, !sort_key_entry in H
    by (rewrite sort_key_entry; simpl; now rewrite is_nan_opp).
  unfold key_below in H. simpl in H. rewrite !fcode_opp in H.
  rewrite lex_lt_opp3, opp3_inj in H.
  split.
  - apply not_true_is_false. intros Hlt%ltb_code; auto.
  - intros Heq%eqb_code; auto. unfold String.leb.
    rewrite String.compare_antisym.
    destruct (String.compare (fst (entry_of y)) (fst (entry_of x))) eqn:E;
      try reflexivity.
    exfalso. apply H. right. auto.
Qed.

Lemma ranked_in_order (l : list ranked) (k : nat) :
  Forall (fun t => is_nan (snd (entry_of t)) = false) l ->
  in_rank_order (map entry_of (firstn k (py_sorted key_lt gpt.sort_key l))).
Proof.
  intros Hl.
  set (good := fun t : ranked => is_nan (snd (entry_of t)) = false) in *.
  assert (Forall good (py_sorted key_lt gpt.sort_key l)) as Hgood.
  { eapply Permutation_Forall; [|exact Hl]. symmetry. apply py_sorted_perm. }
  assert (StronglySorted (fun x y => not_below key_lt gpt.sort_key y x)
            (py_sorted key_lt gpt.sort_key l)) as Hs.
  { apply (py_sorted_sorted key_lt gpt.sort_key good); [| |exact Hl].
    - intros x y Hx Hy. apply key_lt_asym;
        rewrite sort_key_entry; simpl; now rewrite is_nan_opp.
    - intros x y z Hx Hy Hz. apply key_not_lt_trans;
        rewrite sort_key_entry; simpl; now rewrite is_nan_opp. }
  apply (StronglySorted_firstn _ _ k) in Hs.
  assert (Forall good (firstn k (py_sorted key_lt gpt.sort_key l))) as Hgk.
  { rewrite Forall_forall in Hgood |- *. intros t Ht. apply Hgood.
    rewrite <- (firstn_skipn k (py_sorted key_lt gpt.sort_key l)).
    apply elem_of_app. now left. }
  intros i j e1 e2 Hij Hi Hj.
  rewrite lookup_map in Hi, Hj.
  destruct (firstn k _ !! i) as [x|] eqn:Ei; [|discriminate].
  destruct (firstn k _ !! j) as [y|] eqn:Ej; [|discriminate].
  injection Hi as <-. injection Hj as <-.
  rewrite Forall_forall in Hgk.
  apply not_below_ranks_before.
  - apply Hgk. eapply list_elem_of_lookup_2; eauto.
  - apply Hgk. eapply list_elem_of_lookup_2; eauto.
  - apply (StronglySorted_lookup _ _ i j x y Hs Hij Ei Ej).
Qed.

(** ** Stripping a line and splitting it

    [strip] touches the first and the last field of a line only, since a
    separator is not white space. *)

Section SplitChar.
Variable d : ascii.
Hypothesis d_not_space : is_space d = false.

Abbreviation fields_of := (split_from (String d EmptyString) 0).

Lemma fields_of_cons (c : ascii) (s : string) :
  fields_of (String c s) =
  if ascii_dec d c then EmptyString :: fields_of s else on_head (String c) (fields_of s).
Proof.
  cbn [split_from String.prefix String.length Nat.sub].
  destruct (ascii_dec d c); [now rewrite prefix_empty|].
  destruct (fields_of s) eqn:E; [|reflexivity].
  now destruct (split_from_nonempty _ _ _ E).
Qed.

Lemma fields_of_lstrip (s : string) : fields_of (lstrip s) = on_head lstrip (fields_of s).
Proof.
  induction s as [|c s IH]; [reflexivity|].
  cbn [lstrip]. destruct (is_space c) eqn:Ec.
  - rewrite IH, fields_of_cons. destruct (ascii_dec d c); [congruence|].
    destruct (fields_of s); [reflexivity|]. simpl. now rewrite Ec.
  - rewrite fields_of_cons. destruct (ascii_dec d c); [reflexivity|].
    destruct (fields_of s); [reflexivity|]. simpl. now rewrite Ec.
Qed.

Lemma on_last_single {A : Type} (f : A -> A) (l : list A) (x : A) :
  on_last f l = [x] -> exists y, l = [y] /\ f y = x.
Proof.
  destruct l as [|y [|z l]]; simpl; [discriminate| |].
  - intros [= <-]. eauto.
  - destruct l; discriminate.
Qed.

Lemma rstrip_cons (c : ascii) (s : string) :
  rstrip s <> EmptyString -> rstrip (String c s) = String c (rstrip s).
Proof. cbn [rstrip]. now destruct (rstrip s). Qed.

Lemma fields_of_rstrip (s : string) : fields_of (rstrip s) = on_last rstrip (fields_of s).
Proof.
  induction s as [|c s IH]; [reflexivity|].
  destruct (string_dec (rstrip s) EmptyString) as [Er|Er].
  - rewrite Er in IH. symmetry in IH. apply on_last_single in IH as (f & Hf & Hr).
    pose proof (split_from_single _ _ _ Hf) as ->.
    rewrite (fields_of_cons c s), Hf. cbn [rstrip]. rewrite Er.
    destruct (is_space c) eqn:Ec.
    + destruct (ascii_dec d c); [congruence|]. simpl. now rewrite Er, Ec.
    + rewrite fields_of_cons. destruct (ascii_dec d c); simpl; now rewrite Er, ?Ec.
  - rewrite rstrip_cons by assumption. rewrite !fields_of_cons, IH.
    destruct (fields_of s) as [|f [|g fs]] eqn:E.
    + now destruct (split_from_nonempty _ _ _ E).
    + pose proof (split_from_single _ _ _ E) as ->.
      destruct (ascii_dec d c); [reflexivity|]. cbn [on_head on_last].
      now rewrite rstrip_cons.
    + destruct (ascii_dec d c); reflexivity.
Qed.

Lemma fields_of_strip (s : string) :
  fields_of (strip s) = on_head lstrip (on_last rstrip (fields_of s)).
Proof. unfold strip. now rewrite fields_of_lstrip, fields_of_rstrip. Qed.
End SplitChar.

Lemma nth_error_on_head {A : Type} (f : A -> A) (l : list A) (i : nat) :
  nth_error (on_head f l) (S i) = nth_error l (S i).
Proof. now destruct l. Qed.

Lemma nth_error_on_last {A : Type} (f : A -> A) (l : list A) (i : nat) :
  nth_error (on_last f l) i = None /\ nth_error l i = None \/
  exists x, nth_error l i = Some x /\
            (nth_error (on_last f l) i = Some x \/ nth_error (on_last f l) i = Some (f x)).
Proof.
  revert i. induction l as [|x [|y l] IH]; intros i.
  - left. now destruct i.
  - destruct i as [|i]; simpl; [right; eauto|]. left. now destruct i.
  - destruct i as [|i]; [right; simpl; eauto|]. apply (IH i).
Qed.

Lemma length_on_head {A : Type} (f : A -> A) (l : list A) :
  List.length (on_head f l) = List.length l.
Proof. now destruct l. Qed.

Lemma length_on_last {A : Type} (f : A -> A) (l : list A) :
  List.length (on_last f l) = List.length l.
Proof.
  induction l as [|x l IH]; [reflexivity|].
  destruct l as [|y l]; [reflexivity|]. cbn [on_last List.length] in *. now rewrite IH.
Qed.

(** Stripping a line changes no field count. *)
Lemma record_of_length (line : string) :
  List.length (record_of line) = List.length (py_split ";" line).
Proof.
  unfold record_of, py_split. rewrite fields_of_strip by reflexivity.
  now rewrite length_on_head, length_on_last.
Qed.

Lemma nth_error_on_last_inner {A : Type} (f : A -> A) (l : list A) (i : nat) :
  (S i < List.length l)%nat -> nth_error (on_last f l) i = nth_error l i.
Proof.
  revert i. induction l as [|x [|y l] IH]; intros i Hi.
  - simpl in Hi. lia.
  - simpl in Hi. lia.
  - destruct i as [|i]; [reflexivity|]. apply (IH i). simpl in Hi |- *. lia.
Qed.

Lemma nth_error_on_last_end {A : Type} (f : A -> A) (l : list A) (i : nat) :
  S i = List.length l -> nth_error (on_last f l) i = option_map f (nth_error l i).
Proof.
  revert i. induction l as [|x [|y l] IH]; intros i Hi.
  - discriminate.
  - injection Hi as ->. reflexivity.
  - destruct i as [|i]; [discriminate|]. apply (IH i). simpl in Hi |- *. lia.
Qed.

(** A field of a line that is neither its first nor its last is the
    same in the record of the line; the last one is stripped on the
    right. *)
Lemma record_field_inner (line : string) (i : nat) :
  (S (S i) < List.length (py_split ";" line))%nat ->
  nth_error (record_of line) (S i) = nth_error (py_split ";" line) (S i).
Proof.
  intros Hi. unfold record_of, py_split in *. rewrite fields_of_strip by reflexivity.
  now rewrite nth_error_on_head, nth_error_on_last_inner.
Qed.

Lemma record_field_last (line : string) (i : nat) :
  S (S i) = List.length (py_split ";" line) ->
  nth_error (record_of line) (S i) = option_map rstrip (nth_error (py_split ";" line) (S i)).
Proof.
  intros Hi. unfold record_of, py_split in *. rewrite fields_of_strip by reflexivity.
  now rewrite nth_error_on_head, nth_error_on_last_end.
Qed.

(** ** Where an exception comes from *)

Lemma for_each_Raise {A S : Type} (body : S -> A -> result S) (l : list A) (acc : S) (e : exn) :
  for_each body l acc = Raise e -> exists acc' x, In x l /\ body acc' x = Raise e.
Proof.
  revert acc. induction l as [|x l IH]; intros acc; simpl; [discriminate|].
  intros [H | (acc' & Hacc & H)]%bind_Raise.
  - exists acc, x. auto.
  - destruct (IH _ H) as (acc'' & y & Hy & Hbody). exists acc'', y. auto.
Qed.

Lemma comprehension_Raise {A B : Type} (p : A -> result bool) (f : A -> result B)
    (l : list A) (e : exn) :
  comprehension p f l = Raise e ->
  exists x, In x l /\ (p x = Raise e \/ (p x = Ok true /\ f x = Raise e)).
Proof.
  induction l as [|x l IH]; simpl; [discriminate|].
  intros [H | (b & Hb & H)]%bind_Raise.
  - exists x. auto.
  - destruct b.
    + apply bind_Raise in H as [H | (y & Hy & H)]; [exists x; auto|].
      apply bind_Raise in H as [H | (ys & Hys & H)]; [|discriminate].
      destruct (IH H) as (z & Hz & Hr). exists z. auto.
    + destruct (IH H) as (z & Hz & Hr). exists z. auto.
Qed.

Lemma comprehension_Ok_each {A B : Type} (p : A -> result bool) (f : A -> result B)
    (l : list A) (ys : list B) (x : A) :
  comprehension p f l = Ok ys -> In x l -> exists b, p x = Ok b.
Proof.
  revert ys. induction l as [|z l IH]; intros ys; simpl; [tauto|].
  intros H [<- | Hx].
  - returned H. eauto.
  - returned H. destruct v.
    + returned H. returned H. eauto.
    + eauto.
Qed.

(** ** The two [read_file]s *)

Section Loading.
Variable py_int : string -> option Z.

Lemma read_year_Ok (line : string) (y : Z) :
  read_year py_int line = Ok y -> y = year_of py_int (record_of line).
Proof.
  unfold read_year, year_of. intros H. returned H.
  apply item_field in Hv as <-. apply convert_Ok in H. now rewrite H.
Qed.

Lemma read_year_Raise (line : string) (e : exn) :
  read_year py_int line = Raise e -> e = IndexError \/ e = ValueError BadInt.
Proof.
  unfold read_year. intros [H | (v & _ & H)]%bind_Raise.
  - left. eapply item_Raise; eauto.
  - right. now apply convert_Raise in H.
Qed.

Lemma read_year_malformed (line : string) :
  malformed py_int line -> exists e, read_year py_int line = Raise e.
Proof.
  unfold malformed, read_year, item, field. intros [Hlen | Hint].
  - rewrite (proj2 (nth_error_None _ 6)) by lia. simpl. eauto.
  - destruct (nth_error (record_of line) 6) as [f|] eqn:E; simpl; [|eauto].
    rewrite (nth_error_nth _ _ _ E) in Hint. unfold convert. rewrite Hint. eauto.
Qed.

(** The loop of [gptproject.py] is the comprehension it spells out. *)
Lemma gpt_read_loop (year : Z) (lines : list string) (movie_data : list row) :
  for_each
    (fun movie_data line =>
       let row := py_split ";" (strip line) in
       let* field := item row 6 in
       let* movie_year := convert BadInt py_int field in
       Ok (if (year =? 0)%Z || (year <=? movie_year)%Z then movie_data ++ [row]
           else movie_data))
    lines movie_data
  = let* rows := comprehension
                   (fun line => let* y := read_year py_int line in
                                Ok ((year =? 0)%Z || (year <=? y)%Z))
                   (fun line => Ok (record_of line)) lines in
    Ok (movie_data ++ rows).
Proof.
  revert movie_data. induction lines as [|line lines IH]; intros movie_data; simpl.
  - now rewrite app_nil_r.
  - unfold read_year, record_of.
    destruct (item (py_split ";" (strip line)) 6) as [f|e]; [|reflexivity]. simpl.
    destruct (convert BadInt py_int f) as [y|e]; [|reflexivity]. simpl.
    rewrite IH. fold (record_of). fold (read_year py_int).
    destruct ((year =? 0)%Z || (year <=? y)%Z); simpl;
      destruct (comprehension _ _ lines); simpl; try reflexivity.
    now rewrite <- app_assoc.
Qed.

Lemma gpt_read_file_comprehension (lines : list string) (year : Z) :
  gpt.read_file py_int lines year =
  comprehension (fun line => let* y := read_year py_int line in
                             Ok ((year =? 0)%Z || (year <=? y)%Z))
                (fun line => Ok (record_of line)) (tail lines).
Proof.
  unfold gpt.read_file. rewrite gpt_read_loop.
  now destruct (comprehension _ _ (tail lines)).
Qed.

(** [teamproject.py] reads the year off the line as it is. *)
Lemma team_read_file_comprehension (lines : list string) (year : Z) :
  team.read_file py_int lines year =
  comprehension (fun line => let* y := read_year_unstripped py_int line in Ok (year <=? y)%Z)
                (fun line => Ok (record_of line)) (tail lines).
Proof.
  unfold team.read_file. apply comprehension_ext_in. intros line _.
  unfold read_year_unstripped.
  destruct (item (py_split ";" line) 6) as [f|e]; [|reflexivity]. cbn [bind].
  destruct (convert BadInt py_int f) as [y|e]; reflexivity.
Qed.

Lemma read_year_unstripped_Ok (line : string) (y : Z) :
  read_year_unstripped py_int line = Ok y -> y = year_unstripped py_int line.
Proof.
  unfold read_year_unstripped, year_unstripped. intros H. returned H.
  apply item_field in Hv as <-. apply convert_Ok in H. now rewrite H.
Qed.

Lemma read_year_unstripped_Raise (line : string) (e : exn) :
  read_year_unstripped py_int line = Raise e -> e = IndexError \/ e = ValueError BadInt.
Proof.
  unfold read_year_unstripped. intros [H | (v & _ & H)]%bind_Raise.
  - left. eapply item_Raise; eauto.
  - right. now apply convert_Raise in H.
Qed.

Lemma read_year_unstripped_malformed (line : string) :
  malformed_unstripped py_int line -> exists e, read_year_unstripped py_int line = Raise e.
Proof.
  unfold malformed_unstripped, read_year_unstripped, item, field. intros [Hlen | Hint].
  - rewrite (proj2 (nth_error_None _ 6)) by lia. simpl. eauto.
  - destruct (nth_error (py_split ";" line) 6) as [f|] eqn:E; simpl; [|eauto].
    rewrite (nth_error_nth _ _ _ E) in Hint. unfold convert. rewrite Hint. eauto.
Qed.

Lemma read_year_unstripped_total (line : string) :
  ~ malformed_unstripped py_int line ->
  read_year_unstripped py_int line = Ok (year_unstripped py_int line).
Proof.
  unfold malformed_unstripped, read_year_unstripped, year_unstripped. intros H.
  rewrite item_in_range by lia.
  destruct (py_int (field (py_split ";" line) 6)) as [y|] eqn:E; [|tauto].
  cbn [bind]. unfold convert. now rewrite E.
Qed.

Lemma nth_error_ext_nth {A : Type} (l l' : list A) (i : nat) (d : A) :
  nth_error l i = nth_error l' i -> nth i l d = nth i l' d.
Proof.
  intros H. destruct (nth_error l i) as [x|] eqn:E.
  - now rewrite (nth_error_nth _ _ _ E), (nth_error_nth _ _ _ (eq_sym H)).
  - symmetry in H. apply nth_error_None in E, H. now rewrite !nth_overflow.
Qed.

(** The year field of a record is the year field of its line, stripped
    on the right when it is the last field of the line. *)
Lemma year_field_inner (line : string) :
  (8 <= List.length (py_split ";" line))%nat ->
  nth_error (record_of line) 6 = nth_error (py_split ";" line) 6.
Proof. intros H. apply record_field_inner. lia. Qed.

Lemma year_field_last (line : string) :
  List.length (py_split ";" line) = 7%nat ->
  field (record_of line) 6 = rstrip (field (py_split ";" line) 6).
Proof.
  intros H. unfold field. pose proof (record_field_last line 5 (eq_sym H)) as E.
  destruct (nth_error (py_split ";" line) 6) as [f|] eqn:Ef.
  - cbn [option_map] in E. now rewrite (nth_error_nth _ _ _ E), (nth_error_nth _ _ _ Ef).
  - apply nth_error_None in Ef. lia.
Qed.

Lemma year_field_stripped (line : string) :
  field (record_of line) 6 = field (py_split ";" line) 6 \/
  field (record_of line) 6 = rstrip (field (py_split ";" line) 6).
Proof.
  destruct (Nat.lt_trichotomy (List.length (py_split ";" line)) 7) as [Hlt | [Heq | Hgt]].
  - left. unfold field. rewrite !nth_overflow; [reflexivity | lia |].
    rewrite record_of_length. lia.
  - right. now apply year_field_last.
  - left. unfold field. apply nth_error_ext_nth, year_field_inner. lia.
Qed.

(** The two readings of the year agree on a line where [int] says the
    same of the year field before and after the line is stripped. *)
Lemma read_year_agree (line : string) :
  py_int (field (py_split ";" line) 6) = py_int (field (record_of line) 6) ->
  read_year_unstripped py_int line = read_year py_int line.
Proof.
  intros H. unfold read_year_unstripped, read_year.
  destruct (le_lt_dec 7 (List.length (py_split ";" line))) as [Hlen | Hlen].
  - rewrite !item_in_range by (rewrite ?record_of_length; lia). cbn [bind].
    unfold convert. now rewrite H.
  - unfold item. rewrite !(proj2 (nth_error_None _ 6)) by (rewrite ?record_of_length; lia).
    reflexivity.
Qed.

(** [int] can tell the two readings apart on a line of exactly 7
    fields only, where the year is the last field. *)
Lemma year_read_agree (line : string) :
  (List.length (py_split ";" line) = 7%nat ->
   py_int (rstrip (field (py_split ";" line) 6)) = py_int (field (py_split ";" line) 6)) ->
  py_int (field (py_split ";" line) 6) = py_int (field (record_of line) 6).
Proof.
  intros H.
  destruct (Nat.lt_trichotomy (List.length (py_split ";" line)) 7) as [Hlt | [Heq | Hgt]].
  - unfold field. rewrite !nth_overflow; [reflexivity | rewrite record_of_length; lia | lia].
  - now rewrite (year_field_last line Heq), (H Heq).
  - unfold field. f_equal. symmetry. apply nth_error_ext_nth, year_field_inner. lia.
Qed.

Lemma read_year_unstripped_inner (line : string) :
  (8 <= List.length (py_split ";" line))%nat ->
  read_year_unstripped py_int line = read_year py_int line.
Proof.
  intros H. apply read_year_agree. unfold field.
  now rewrite (nth_error_ext_nth _ _ 6 EmptyString (year_field_inner line H)).
Qed.

Lemma reads_stripped_refuses : reads_stripped py_int -> refuses_unstripped py_int.
Proof.
  intros H s Hs. destruct (py_int s) as [y|] eqn:E; [|reflexivity].
  rewrite (H s y E) in Hs. discriminate.
Qed.

Lemma malformed_unstripped_of (line : string) :
  refuses_unstripped py_int -> malformed py_int line -> malformed_unstripped py_int line.
Proof.
  intros Hint [Hlen | Hnone]; [left; now rewrite <- record_of_length|].
  right. destruct (year_field_stripped line) as [E | E]; rewrite E in Hnone; auto.
Qed.

Lemma read_year_of_unstripped (line : string) (y : Z) :
  reads_stripped py_int -> read_year_unstripped py_int line = Ok y ->
  read_year py_int line = Ok y.
Proof.
  intros Hint H. unfold read_year_unstripped, read_year in *. returned H.
  pose proof (item_length _ _ _ Hv) as Hlen. apply item_field in Hv as <-.
  apply convert_Ok in H. rewrite item_in_range by (rewrite record_of_length; lia).
  cbn [bind]. apply convert_Ok.
  destruct (year_field_stripped line) as [E | E]; rewrite E; auto.
Qed.
End Loading.

(** ** The genre filter and the limit *)

Lemma join_single (x : string) : join [x] = x.
Proof. reflexivity. Qed.

(** The filter of [teamproject.py] is the filter of the specification. *)
Lemma team_passes (genre : string) (r : row) :
  team.is_in_genres (genres_of r) (team.genre_arg genre) = passes genre r.
Proof.
  unfold team.genre_arg, passes, py_split, len.
  destruct (split_from "," 0 genre) as [|g [|g' gs]] eqn:E.
  - now destruct (split_from_nonempty _ _ _ E).
  - apply split_from_single in E as ->.
    change (Z.of_nat (List.length [genre]) <=? 1)%Z with true.
    unfold team.is_in_genres. rewrite join_single. cbn [existsb].
    destruct (String.eqb genre ""); [reflexivity|]. now rewrite orb_false_r.
  - replace (Z.of_nat (List.length (g :: g' :: gs)) <=? 1)%Z with false
      by (symmetry; apply Z.leb_gt; simpl List.length; lia).
    destruct (String.eqb_spec genre "") as [->|Hne]; [discriminate|].
    reflexivity.
Qed.

Lemma team_ranking_passes (py_float : string -> option float) (data : list row)
    (genre : string) :
  team_ranking py_float data genre =
  ranking py_float sum_left credited (passes genre) team.sorting_lambda data.
Proof.
  unfold team_ranking, ranking. do 2 f_equal.
  apply filter_ext. intros r. apply team_passes.
Qed.

Lemma slice_to_length {A : Type} (n : Z) (l : list A) :
  (0 < n)%Z -> List.length (slice_to n l) = Nat.min (Z.to_nat n) (List.length l).
Proof.
  intros Hn. unfold slice_to. rewrite (proj2 (Z.leb_le 0 n)) by lia.
  apply length_firstn.
Qed.

(** Either limit keeps an initial part of the list. *)
Lemma team_limit_firstn {A : Type} (n : Z) (l : list A) :
  exists k, team_limit n l = firstn k l.
Proof.
  unfold team_limit, slice_to. destruct (0 <? n)%Z.
  - destruct (0 <=? n)%Z; eauto.
  - exists (List.length l). now rewrite firstn_all.
Qed.

Lemma gpt_limit_firstn {A : Type} (n : Z) (l : list A) :
  exists k, gpt_limit n l = firstn k l.
Proof.
  unfold gpt_limit, slice_to. destruct (n =? 0)%Z.
  - exists (List.length l). now rewrite firstn_all.
  - destruct (0 <=? n)%Z; eauto.
Qed.

Lemma firstn_incl {A : Type} (k : nat) (l : list A) (x : A) : In x (firstn k l) -> In x l.
Proof.
  intros H. rewrite <- (firstn_skipn k l). apply in_or_app. now left.
Qed.

Lemma ranking_length (py_float : string -> option float) (total : list float -> float)
    (cast : string -> row -> bool)
    (pass : row -> bool) (key : ranked -> float * string) (data : list row) :
  List.length (ranking py_float total cast pass key data) = List.length (List.filter pass data).
Proof. unfold ranking. now rewrite py_sorted_length, length_map. Qed.

(** An entry of a ranking is the scored entry of a film that passes. *)
Lemma ranking_entry (py_float : string -> option float) (total : list float -> float)
    (cast : string -> row -> bool)
    (pass : row -> bool) (key : ranked -> float * string) (data : list row)
    (e : string * float) :
  In e (map entry_of (ranking py_float total cast pass key data)) ->
  exists r, In r data /\ pass r = true /\ e = scored py_float total cast data r.
Proof.
  unfold ranking. intros (t & <- & Ht)%in_map_iff.
  apply (Permutation_in _ (py_sorted_perm _ _ _)) in Ht.
  apply in_map_iff in Ht as (r & <- & Hr). apply filter_In in Hr as [Hin Hp].
  exists r. auto.
Qed.

Lemma ranking_perm (py_float : string -> option float) (total : list float -> float)
    (cast : string -> row -> bool)
    (pass : row -> bool) (key : ranked -> float * string) (data : list row) :
  Permutation (map entry_of (ranking py_float total cast pass key data))
              (map (scored py_float total cast data) (List.filter pass data)).
Proof.
  unfold ranking, scored. rewrite (py_sorted_perm key_lt key). now rewrite map_map.
Qed.

Lemma gpt_passes_empty (r : row) : gpt_passes "" r = true.
Proof. reflexivity. Qed.

Lemma passes_empty (r : row) : passes "" r = true.
Proof. reflexivity. Qed.

Lemma not_empty_eqb (s : string) : s <> EmptyString -> String.eqb s EmptyString = false.
Proof. destruct s; [congruence | reflexivity]. Qed.

Lemma app_not_empty (a b : string) : a <> EmptyString -> a +:+ b <> EmptyString.
Proof. destruct a; [congruence | discriminate]. Qed.

(** The filter of [gptproject.py] for a filter text that is not empty. *)
Lemma gpt_passes_tokens (genre : string) (r : row) :
  genre <> EmptyString ->
  gpt_passes genre r
  = existsb (fun g => py_in g (field r 2)) (map strip (py_split "," genre)).
Proof.
  intros H. unfold gpt_passes, gpt.genre_list_of. rewrite not_empty_eqb by assumption.
  destruct (py_split "," genre) as [|g gs] eqn:E; [|reflexivity].
  now apply split_from_nonempty in E.
Qed.

Lemma existsb_ext_in {A : Type} (f g : A -> bool) (l : list A) :
  (forall x, In x l -> f x = g x) -> existsb f l = existsb g l.
Proof.
  induction l as [|x l IH]; intros H; [reflexivity|]. cbn [existsb].
  rewrite (H x (or_introl eq_refl)), IH; auto with datatypes.
Qed.

(** The genre test of [gptproject.py] is the filter of the
    specification on films and filter texts where stripping a filter
    token changes nothing and a token occurs in a genre field only as
    one of its genres. *)
Lemma gpt_passes_plain (genre : string) (data : list row) :
  (forall g, In g (py_split "," genre) -> strip g = g) ->
  (genre <> EmptyString ->
   forall g r, In g (py_split "," genre) -> In r data ->
               py_in g (field r 2) = bool_decide (g ∈ genres_of r)) ->
  forall r, In r data -> gpt_passes genre r = passes genre r.
Proof.
  intros Hstrip Htoken r Hr.
  destruct (string_dec genre EmptyString) as [-> | Hne].
  - now rewrite gpt_passes_empty, passes_empty.
  - rewrite gpt_passes_tokens by assumption. unfold passes.
    rewrite not_empty_eqb by assumption. cbn [orb].
    rewrite (map_ext_in strip id) by exact Hstrip. rewrite map_id.
    apply existsb_ext_in. intros g Hg. now apply Htoken.
Qed.

(** * The claims *)

(** ** C9: the length of a result *)

(** C9 as made fails in [gptproject.py], which strips the tokens of the
    filter before it tests them: with the filter ["Action, Drama"] no
    genre token of the drama is a token of the filter, the second token
    being [" Drama"], and [teamproject.py] returns nothing;
    [gptproject.py] returns the film. *)
Lemma gpt_counts_stripped_tokens :
  List.filter (passes "Action, Drama") [film_D] = [] /\
  team.top_n float_of_decimal [film_D] "Action, Drama" 0 = Ok [] /\
  gpt.top_n float_of_decimal sum_left [film_D] "Action, Drama" 0 = Ok [("D", 9%float)] /\
  List.length [("D", 9%float)]
  <> List.length (List.filter (passes "Action, Drama") [film_D]).
Proof. vm_compute. repeat split; (reflexivity || discriminate). Qed.

(** C9, amended. For a limit [n > 0] the result of [top_n] has
    [min n p] entries, where [p] is the number of films that pass the
    genre filter of the specification, [passes], and for [n = 0] it has
    [p] entries: in [teamproject.py] on every input, and in
    [gptproject.py] when stripping a token of the filter changes
    nothing and a token of the filter occurs in the genre field of a
    film of the data set only as one of its genres. There is such a
    result whenever every row can be ranked. *)
Theorem top_n_length (py_float : string -> option float)
    (py_sum : list float -> float) (data : list row)
    (genre : string) (n : Z) (res : list (string * float)) :
  (team.top_n py_float data genre n = Ok res ->
   let p := List.length (List.filter (passes genre) data) in
   ((0 < n)%Z -> List.length res = Nat.min (Z.to_nat n) p) /\
   (n = 0%Z -> List.length res = p)) /\
  ((forall g, In g (py_split "," genre) -> strip g = g) ->
   (genre <> EmptyString ->
    forall g r, In g (py_split "," genre) -> In r data ->
                py_in g (field r 2) = bool_decide (g ∈ genres_of r)) ->
   gpt.top_n py_float py_sum data genre n = Ok res ->
   let p := List.length (List.filter (passes genre) data) in
   ((0 < n)%Z -> List.length res = Nat.min (Z.to_nat n) p) /\
   (n = 0%Z -> List.length res = p)) /\
  (forallb (well_formed py_float) data = true ->
   (exists r, team.top_n py_float data genre n = Ok r) /\
   (exists r, gpt.top_n py_float py_sum data genre n = Ok r)).
Proof.
  split; [|split]; [| |intros Hwf; split; eexists;
                       [apply team_top_n_Ok; eauto | now apply gpt_top_n_total]].
  - intros [_ ->]%team_top_n_Ok p. rewrite team_ranking_passes.
    unfold team_limit. split.
    + intros Hn. rewrite (proj2 (Z.ltb_lt 0 n)) by lia.
      now rewrite slice_to_length, length_map, ranking_length.
    + intros ->. simpl. now rewrite length_map, ranking_length.
  - intros Hstrip Htoken ->%gpt_top_n_Ok p. unfold gpt_limit, gpt_ranking.
    rewrite length_map. subst p.
    rewrite <- (filter_ext_in _ _ data (gpt_passes_plain genre data Hstrip Htoken)).
    split.
    + intros Hn. rewrite (proj2 (Z.eqb_neq n 0)) by lia.
      now rewrite slice_to_length, ranking_length.
    + intros ->. simpl. now rewrite ranking_length.
Qed.

(** The literal scenario of the specification, cut at one entry. *)
Lemma top_n_length_witness :
  team.top_n float_of_decimal [film_A; film_B] "Action" 1 = Ok [("A", 8%float)] /\
  gpt.top_n float_of_decimal sum_left [film_A; film_B] "Action" 1 = Ok [("A", 8%float)] /\
  List.length [("A", 8%float)]
  = Nat.min (Z.to_nat 1) (List.length (List.filter (passes "Action") [film_A; film_B])).
Proof.
  assert (team.top_n float_of_decimal [film_A; film_B] "Action" 1 = Ok [("A", 8%float)])
    as Ht by (vm_compute; reflexivity).
  assert (gpt.top_n float_of_decimal sum_left [film_A; film_B] "Action" 1
          = Ok [("A", 8%float)]) as Hg by (vm_compute; reflexivity).
  split; [exact Ht|]. split; [exact Hg|].
  destruct (top_n_length float_of_decimal sum_left [film_A; film_B] "Action" 1
              [("A", 8%float)]) as (_ & Hgpt & _).
  apply (proj1 (Hgpt ltac:(intros g [<- | []]; vm_compute; reflexivity)
                     ltac:(intros _ g r [<- | []] [<- | [<- | []]]; vm_compute; reflexivity)
                     Hg)).
  lia.
Defined.

(** ** C6: what [top_n] can raise *)

Section Raising.
Variable py_float : string -> option float.
Variable py_sum : list float -> float.

Lemma rate_film_Raise (d : gmap string float) (film : row) (e : exn) :
  team.rate_film py_float d film = Raise e -> e = IndexError \/ e = ValueError BadFloat.
Proof.
  unfold team.rate_film.
  intros [H | (f5 & _ & H)]%bind_Raise; [left; eapply item_Raise; eauto|].
  apply bind_Raise in H as [H | (f8 & _ & H)]; [left; eapply item_Raise; eauto|].
  apply bind_Raise in H as [H | (rating & _ & H)]; [|discriminate].
  right. now apply convert_Raise in H.
Qed.

(** Every name of every actor field of [data] is a key of the index. *)
Lemma getitem_Ok (data : list row) (d : gmap string float) (r : row) (a : string) :
  team.actors_rating_of py_float data = Ok d -> In r data -> a ∈ actors_of r ->
  team.getitem d a = Ok (actor_index py_float credited data a).
Proof.
  intros Hd Hr Ha. unfold team.getitem.
  rewrite (actors_rating_lookup py_float data d a Hd).
  now rewrite (credited_in_data data r a).
Qed.

Lemma team_top_n_Raise (data : list row) (genre : string) (n : Z) (e : exn) :
  team.top_n py_float data genre n = Raise e -> e = IndexError \/ e = ValueError BadFloat.
Proof.
  unfold team.top_n. intros [H | (d & Hd & H)]%bind_Raise.
  - apply for_each_Raise in H as (d & film & _ & H). eapply rate_film_Raise; eauto.
  - exfalso. pose proof (rated_well_formed _ _ _ _ Hd) as Hwf.
    rewrite (rank_loop py_float data) in H; auto; [discriminate|].
    intros r a Hin Ha. rewrite (actors_rating_lookup _ _ _ a Hd).
    now rewrite (credited_in_data data r a).
Qed.

Lemma get_highest_Raise (data : list row) (r : row) (a : string) (e : exn) :
  In r data -> a ∈ actors_of r ->
  gpt.get_highest_rating_for_actor py_float a data = Raise e ->
  e = IndexError \/ e = ValueError BadFloat.
Proof.
  intros Hr Ha. unfold gpt.get_highest_rating_for_actor.
  intros [H | (ratings & Hratings & H)]%bind_Raise.
  - apply comprehension_Raise in H as (m & _ & [H | [_ H]]).
    + apply bind_Raise in H as [H | (f5 & _ & H)]; [|discriminate].
      left. eapply item_Raise; eauto.
    + apply bind_Raise in H as [H | (f8 & _ & H)].
      * left. eapply item_Raise; eauto.
      * right. now apply convert_Raise in H.
  - exfalso.
    apply (comprehension_Ok _ _ (occurs a) (rating_of py_float)) in Hratings.
    + assert (In r (List.filter (occurs a) data)) as Hf.
      { apply filter_In. split; [assumption|]. apply credited_occurs.
        unfold credited. now apply bool_decide_eq_true. }
      subst ratings. destruct (List.filter (occurs a) data); [destruct Hf | discriminate].
    + intros m b Hb. returned Hb. injection Hb as <-. now apply item_field in Hv as <-.
    + intros m y Hy. returned Hy. apply item_field in Hv as <-.
      apply convert_Ok in Hy. unfold rating_of. now rewrite Hy.
Qed.

Lemma rate_movie_Raise (data : list row) (movie : row) (e : exn) :
  In movie data -> gpt.rate_movie py_float py_sum data movie = Raise e ->
  e = IndexError \/ e = ValueError BadFloat.
Proof.
  intros Hin. unfold gpt.rate_movie.
  intros [H | (title & _ & H)]%bind_Raise; [left; eapply item_Raise; eauto|].
  apply bind_Raise in H as [H | (f8 & _ & H)]; [left; eapply item_Raise; eauto|].
  apply bind_Raise in H as [H | (x & _ & H)]; [right; now apply convert_Raise in H|].
  apply bind_Raise in H as [H | (f5 & Hf5 & H)]; [left; eapply item_Raise; eauto|].
  apply item_field in Hf5 as <-. fold (actors_of movie) in H.
  apply bind_Raise in H as [H | (ars & Hars & H)].
  - apply comprehension_Raise in H as (a & Ha & [H | [_ H]]); [discriminate|].
    apply (get_highest_Raise data movie a); auto. now apply list_elem_of_In.
  - exfalso. apply bind_Raise in H as [H | (v & _ & H)]; [|discriminate].
    apply (comprehension_Ok _ _ (fun _ => true) (actor_index py_float occurs data))
      in Hars; [|now intros _ b [= <-] | intros a' x'; apply get_highest_Ok].
    subst ars. unfold py_div, len in H.
    rewrite filter_true, length_map in H.
    fold (len (actors_of movie)) in H. unfold actors_of in H.
    now rewrite len_split_pos in H.
Qed.

Lemma gpt_top_n_Raise (data : list row) (genre : string) (n : Z) (e : exn) :
  gpt.top_n py_float py_sum data genre n = Raise e -> e = IndexError \/ e = ValueError BadFloat.
Proof.
  unfold gpt.top_n. intros [H | (filtered & Hf & H)]%bind_Raise.
  - apply comprehension_Raise in H as (m & _ & [H | [_ H]]); [|discriminate].
    unfold gpt.in_genre_list in H. destruct (gpt.genre_list_of genre); [discriminate|].
    apply bind_Raise in H as [H | (f2 & _ & H)]; [|discriminate].
    left. eapply item_Raise; eauto.
  - apply bind_Raise in H as [H | (rs & _ & H)]; [|discriminate].
    apply comprehension_Raise in H as (m & Hm & [H | [_ H]]); [discriminate|].
    apply (rate_movie_Raise data m); [|assumption].
    apply (comprehension_Ok _ _ (gpt_passes genre) id) in Hf.
    + subst filtered. rewrite map_id in Hm. now apply filter_In in Hm.
    + intros r b. apply in_genre_list_Ok.
    + now intros x y [= <-].
Qed.
End Raising.

(** C6. The actor average of [top_n] is total. Whatever the actor field
    is, also the empty one, splitting it on [", "] yields at least one
    name, so [len(actors)] is not zero; every name of every actor field
    of the data set is a key of the index [actors_rating] built from that
    data set; and a call of [top_n] in either source that raises, raises
    an [IndexError] (a row too short) or the [ValueError] of [float]:
    never a [KeyError], a [ZeroDivisionError] or the [ValueError] of
    [max] on an empty sequence. *)
Theorem actor_average_total (py_float : string -> option float)
    (py_sum : list float -> float) (data : list row)
    (genre : string) (n : Z) :
  (forall r : row, (1 <= List.length (actors_of r))%nat) /\
  (forall (d : gmap string float) (r : row) (a : string),
     team.actors_rating_of py_float data = Ok d -> In r data -> a ∈ actors_of r ->
     exists x, team.getitem d a = Ok x) /\
  (forall e : exn,
     team.top_n py_float data genre n = Raise e \/ gpt.top_n py_float py_sum data genre n = Raise e ->
     e = IndexError \/ e = ValueError BadFloat).
Proof.
  split; [|split].
  - intros r. apply py_split_nonempty.
  - intros d r a Hd Hr Ha. eexists. eapply getitem_Ok; eauto.
  - intros e [H | H].
    + eapply team_top_n_Raise; eauto.
    + eapply gpt_top_n_Raise; eauto.
Qed.

Lemma actor_average_total_witness :
  team.top_n float_of_decimal [film_E; film_short] "" 0 = Raise IndexError /\
  (IndexError = IndexError \/ IndexError = ValueError BadFloat).
Proof.
  assert (team.top_n float_of_decimal [film_E; film_short] "" 0 = Raise IndexError) as H
    by (vm_compute; reflexivity).
  split; [exact H|].
  exact (proj2 (proj2 (actor_average_total float_of_decimal sum_left [film_E; film_short] "" 0))
               IndexError (or_introl H)).
Defined.

(** ** C4: the actor index does not depend on the genre filter *)

(** C4. In either source the actor ratings come from the whole data set,
    before the genre filter. Every entry of a result of [top_n] under a
    genre filter is [(title, score)] of a film [r] that passes it, with
    the score [scored ... data r] whose actor index ranges over all of
    [data], films the filter excludes included, and that very entry is an
    entry of the result with the empty filter and no limit; without a
    limit the result holds that entry for each film that passes, and with
    the empty filter for each film of [data]. *)
Theorem actor_index_before_filter (py_float : string -> option float)
    (py_sum : list float -> float) (data : list row)
    (genre : string) (n : Z) (res all : list (string * float)) :
  (team.top_n py_float data genre n = Ok res ->
   team.top_n py_float data "" 0 = Ok all ->
   (forall e, In e res ->
      exists r, In r data /\ passes genre r = true /\
                e = scored py_float sum_left credited data r /\
                In (scored py_float sum_left credited data r) all) /\
   (n = 0%Z ->
    Permutation res (map (scored py_float sum_left credited data)
                         (List.filter (passes genre) data))) /\
   Permutation all (map (scored py_float sum_left credited data) data)) /\
  (gpt.top_n py_float py_sum data genre n = Ok res ->
   gpt.top_n py_float py_sum data "" 0 = Ok all ->
   (forall e, In e res ->
      exists r, In r data /\ gpt_passes genre r = true /\
                e = scored py_float py_sum occurs data r /\
                In (scored py_float py_sum occurs data r) all) /\
   (n = 0%Z ->
    Permutation res (map (scored py_float py_sum occurs data)
                         (List.filter (gpt_passes genre) data))) /\
   Permutation all (map (scored py_float py_sum occurs data) data)).
Proof.
  split.
  - intros [_ ->]%team_top_n_Ok [_ ->]%team_top_n_Ok.
    change (team_limit 0 ?l) with l. rewrite !team_ranking_passes.
    assert (Permutation
              (map entry_of (ranking py_float sum_left credited (passes "")
                                     team.sorting_lambda data))
              (map (scored py_float sum_left credited data) data)) as Hall.
    { rewrite ranking_perm. now rewrite (filter_ext _ (fun _ => true)), filter_true. }
    split; [|split; [|exact Hall]].
    + intros e He.
      destruct (team_limit_firstn n (map entry_of
                  (ranking py_float sum_left credited (passes genre)
                           team.sorting_lambda data))) as [k Hk].
      rewrite Hk in He. apply firstn_incl in He.
      apply ranking_entry in He as (r & Hr & Hp & ->).
      exists r. repeat split; auto.
      eapply Permutation_in; [symmetry; exact Hall|]. now apply in_map.
    + intros ->. apply ranking_perm.
  - intros ->%gpt_top_n_Ok ->%gpt_top_n_Ok.
    change (gpt_limit 0 ?l) with l. unfold gpt_ranking.
    assert (Permutation
              (map entry_of (ranking py_float py_sum occurs (gpt_passes "")
                                     gpt.sort_key data))
              (map (scored py_float py_sum occurs data) data)) as Hall.
    { rewrite ranking_perm. now rewrite (filter_ext _ (fun _ => true)), filter_true. }
    split; [|split; [|exact Hall]].
    + intros e He.
      destruct (gpt_limit_firstn n (ranking py_float py_sum occurs (gpt_passes genre)
                                            gpt.sort_key data)) as [k Hk].
      rewrite Hk in He.
      apply in_map_iff in He as (t & <- & Ht). apply firstn_incl in Ht.
      apply (in_map entry_of) in Ht.
      apply ranking_entry in Ht as (r & Hr & Hp & ->).
      exists r. repeat split; auto.
      eapply Permutation_in; [symmetry; exact Hall|]. now apply in_map.
    + intros ->. apply ranking_perm.
Qed.

(** The drama [film_D] is filtered out and still lifts the score of
    [film_B], whose actor it shares. *)
Lemma actor_index_before_filter_witness :
  team.top_n float_of_decimal [film_D; film_B] "Action" 0 = Ok [("B", 7.5%float)] /\
  team.top_n float_of_decimal [film_D; film_B] "" 0
    = Ok [("D", 9%float); ("B", 7.5%float)] /\
  exists r, In r [film_D; film_B] /\ passes "Action" r = true /\
            ("B", 7.5%float) = scored float_of_decimal sum_left credited [film_D; film_B] r /\
            In (scored float_of_decimal sum_left credited [film_D; film_B] r)
               [("D", 9%float); ("B", 7.5%float)].
Proof.
  assert (team.top_n float_of_decimal [film_D; film_B] "Action" 0 = Ok [("B", 7.5%float)])
    as H1 by (vm_compute; reflexivity).
  assert (team.top_n float_of_decimal [film_D; film_B] "" 0
          = Ok [("D", 9%float); ("B", 7.5%float)]) as H2 by (vm_compute; reflexivity).
  split; [exact H1|]. split; [exact H2|].
  exact (proj1 (proj1 (actor_index_before_filter float_of_decimal sum_left
                         [film_D; film_B] "Action" 0
                         [("B", 7.5%float)] [("D", 9%float); ("B", 7.5%float)])
                      H1 H2) ("B", 7.5%float) (or_introl eq_refl)).
Defined.

(** ** C3: which films pass the genre filter *)

(** In [teamproject.py] the films of a result without limit are the
    films that pass the filter of the specification. *)
Lemma team_top_n_filters (py_float : string -> option float) (data : list row)
    (genre : string) (res : list (string * float)) :
  team.top_n py_float data genre 0 = Ok res ->
  Permutation res (map (scored py_float sum_left credited data) (List.filter (passes genre) data)).
Proof.
  intros [_ ->]%team_top_n_Ok. change (team_limit 0 ?l) with l.
  rewrite team_ranking_passes. apply ranking_perm.
Qed.

(** C3, at the input where [gptproject.py] departs from it. The filter
    [Sci] has the one token [Sci], which is not a genre token of
    [film_S] (its only genre token is [Sci-Fi]): the film does not pass
    the filter of the claim, and [teamproject.py] leaves it out, but
    [gptproject.py] tests [g in movie[2]] on the genre text and returns
    it. *)
Theorem gpt_genre_filter_is_substring :
  passes "Sci" film_S = false /\
  team.top_n float_of_decimal [film_S] "Sci" 0 = Ok [] /\
  gpt.top_n float_of_decimal sum_left [film_S] "Sci" 0 = Ok [("S", 7%float)].
Proof. vm_compute. auto. Qed.

(** ** C1: the combined score *)

(** In [teamproject.py] every entry of a result is the scored entry of a
    film of the data set, the actor index being the best rating among
    the films that credit the actor by name. *)
Lemma team_top_n_scores (py_float : string -> option float) (data : list row)
    (genre : string) (n : Z) (res : list (string * float)) :
  team.top_n py_float data genre n = Ok res ->
  forall e, In e res -> exists r, In r data /\ e = scored py_float sum_left credited data r.
Proof.
  intros [_ ->]%team_top_n_Ok e He.
  destruct (team_limit_firstn n (map entry_of (team_ranking py_float data genre)))
    as [k Hk].
  rewrite Hk in He. apply firstn_incl in He.
  apply ranking_entry in He as (r & Hr & _ & ->). eauto.
Qed.

(** C1, at the input where [gptproject.py] departs from it. [Al] is
    credited in [film_Al] only, whose rating is 5.0, so the claim gives
    the film the score (5.0 + 5.0) / 2 = 5.0, and [teamproject.py]
    returns that; [gptproject.py] tests [actor in movie[5]] on the actor
    text, finds [Al] in [Alan], takes 9.0 for [Al] and returns
    (5.0 + 9.0) / 2 = 7.0. *)
Theorem gpt_actor_rating_is_substring :
  scored float_of_decimal sum_left credited [film_Al; film_Alan] film_Al = ("A", 5%float) /\
  team.top_n float_of_decimal [film_Al; film_Alan] "" 0
    = Ok [("B", 9%float); ("A", 5%float)] /\
  gpt.top_n float_of_decimal sum_left [film_Al; film_Alan] "" 0
    = Ok [("B", 9%float); ("A", 7%float)].
Proof. vm_compute. auto. Qed.

(** ** C5: a film without actors *)

(** C5 as made fails here: [film_E] has an empty actor field, and
    both sources rank it. The field splits into the one name [""], whose
    index entry is the film's own rating. *)
Lemma empty_actor_field_is_ranked :
  field film_E 5 = "" /\
  actors_of film_E = [""] /\
  team.top_n float_of_decimal [film_E] "" 0 = Ok [("E", 8%float)] /\
  gpt.top_n float_of_decimal sum_left [film_E] "" 0 = Ok [("E", 8%float)].
Proof. vm_compute. auto. Qed.

(** C5, amended. No actor field parses to zero actors: an empty field
    parses to the single name [""] and every field to at least one
    name. So [top_n] has no failure for a film without actors: in either
    source it returns on every data set whose rows all reach index 8 and
    hold a rating that [float] accepts, and when it raises, it does not
    raise [ZeroDivisionError]. *)
Theorem no_empty_actor_group (py_float : string -> option float)
    (py_sum : list float -> float) (data : list row)
    (genre : string) (n : Z) :
  (forall r : row, field r 5 = "" -> actors_of r = [""]) /\
  (forall r : row, actors_of r <> []) /\
  (forallb (well_formed py_float) data = true ->
   (exists res, team.top_n py_float data genre n = Ok res) /\
   (exists res, gpt.top_n py_float py_sum data genre n = Ok res)) /\
  (forall e : exn,
     team.top_n py_float data genre n = Raise e \/ gpt.top_n py_float py_sum data genre n = Raise e ->
     e <> ZeroDivisionError).
Proof.
  repeat split.
  - intros r Hr. unfold actors_of. now rewrite Hr.
  - intros r. apply split_from_nonempty.
  - eexists. apply team_top_n_Ok. eauto.
  - eexists. now apply gpt_top_n_total.
  - intros e [H%team_top_n_Raise | H%gpt_top_n_Raise] ->; destruct H; discriminate.
Qed.

Lemma no_empty_actor_group_witness :
  forallb (well_formed float_of_decimal) [film_E; film_A] = true /\
  (exists res, team.top_n float_of_decimal [film_E; film_A] "" 0 = Ok res) /\
  (exists res, gpt.top_n float_of_decimal sum_left [film_E; film_A] "" 0 = Ok res).
Proof.
  assert (forallb (well_formed float_of_decimal) [film_E; film_A] = true) as H
    by (vm_compute; reflexivity).
  split; [exact H|].
  exact (proj1 (proj2 (proj2 (no_empty_actor_group float_of_decimal sum_left [film_E; film_A] "" 0)))
               H).
Defined.

(** ** C7 and C10: [read_file] *)

Lemma filter_map_commute {A B : Type} (f : A -> B) (p : B -> bool) (l : list A) :
  map f (List.filter (fun x => p (f x)) l) = List.filter p (map f l).
Proof.
  induction l as [|x l IH]; simpl; [reflexivity|].
  destruct (p (f x)); simpl; now rewrite IH.
Qed.

Section LoadingFacts.
Variable py_int : string -> option Z.

(** [read_file] of [gptproject.py] returns the records of the lines after
    the header whose year is at least [year], all of them when [year]
    is 0, in the order of the file. *)
Lemma gpt_read_file_Ok (lines : list string) (year : Z) (rows : list row) :
  gpt.read_file py_int lines year = Ok rows ->
  rows = List.filter (fun r => (year =? 0)%Z || (year <=? year_of py_int r)%Z)
                     (map record_of (tail lines)).
Proof.
  rewrite gpt_read_file_comprehension. intros H.
  apply (comprehension_Ok _ _
           (fun line => (year =? 0)%Z || (year <=? year_of py_int (record_of line))%Z)
           record_of) in H.
  - now rewrite H, (filter_map_commute record_of
                      (fun r => (year =? 0)%Z || (year <=? year_of py_int r)%Z)).
  - intros line b Hb. returned Hb. injection Hb as <-.
    now rewrite (read_year_Ok _ _ _ Hv).
  - now intros line r [= <-].
Qed.

(** [read_file] of [teamproject.py] compares every year with [year],
    also when [year] is 0; the year is the one it reads from the line
    before the line is stripped. *)
Lemma team_read_file_Ok (lines : list string) (year : Z) (rows : list row) :
  team.read_file py_int lines year = Ok rows ->
  rows = map record_of
             (List.filter (fun line => (year <=? year_unstripped py_int line)%Z) (tail lines)).
Proof.
  rewrite team_read_file_comprehension. intros H.
  apply (comprehension_Ok _ _
           (fun line => (year <=? year_unstripped py_int line)%Z) record_of) in H.
  - exact H.
  - intros line b Hb. returned Hb. injection Hb as <-.
    now rewrite (read_year_unstripped_Ok _ _ _ Hv).
  - now intros line r [= <-].
Qed.

(** A load by either reading of the year stops at a line that the
    reading cannot take. *)
Lemma load_aborts (reader : string -> result Z) (keep : Z -> bool) (lines : list string)
    (line : string) (e0 : exn) :
  (forall l e, reader l = Raise e -> e = IndexError \/ e = ValueError BadInt) ->
  In line lines -> reader line = Raise e0 ->
  exists e,
    comprehension (fun line => let* y := reader line in Ok (keep y))
                  (fun line => Ok (record_of line)) lines = Raise e /\
    (e = IndexError \/ e = ValueError BadInt).
Proof.
  intros Hreader Hin Hbad.
  destruct (comprehension _ _ lines) as [rows|e] eqn:E.
  - destruct (comprehension_Ok_each _ _ _ _ _ E Hin) as [b Hb].
    rewrite Hbad in Hb. discriminate.
  - exists e. split; [reflexivity|].
    apply comprehension_Raise in E as (x & _ & [H | [_ H]]); [|discriminate].
    apply bind_Raise in H as [H | (y & _ & H)]; [|discriminate].
    eapply Hreader; eauto.
Qed.
End LoadingFacts.

(** C7, at the input where [teamproject.py] departs from it. With
    [year = 0] the claim has [read_file] return every record after the
    header, and [gptproject.py] does; [teamproject.py] still compares
    each year with 0 and drops the record whose year is negative. *)
Theorem team_read_file_year_zero :
  gpt.read_file int_of_decimal [header; line_2015; line_bc] 0
    = Ok [record_of line_2015; record_of line_bc] /\
  team.read_file int_of_decimal [header; line_2015; line_bc] 0
    = Ok [record_of line_2015] /\
  year_of int_of_decimal (record_of line_bc) = (-44)%Z.
Proof. vm_compute. auto. Qed.

Lemma rstrip_rstrip (s : string) : rstrip (rstrip s) = rstrip s.
Proof.
  induction s as [|c s IH]; [reflexivity|].
  cbn [rstrip]. destruct (rstrip s) as [|a r] eqn:E.
  - destruct (is_space c) eqn:Ec; [reflexivity|]. cbn [rstrip]. now rewrite Ec.
  - cbn [rstrip] in IH |- *. cbn [rstrip]. now rewrite IH.
Qed.

(** *** The stand-in [int_of_decimal] and trailing white space *)

Lemma rtrim_rtrim (s : string) : rtrim (rtrim s) = rtrim s.
Proof.
  induction s as [|c s IH]; [reflexivity|].
  cbn [rtrim]. destruct (rtrim s) as [|a r] eqn:E.
  - destruct (is_blank c) eqn:Ec; [reflexivity|]. cbn [rtrim]. now rewrite Ec.
  - cbn [rtrim] in IH |- *. cbn [rtrim]. now rewrite IH.
Qed.

Lemma is_blank_space (c : ascii) : is_blank c = true -> is_space c = true.
Proof. destruct c as [[] [] [] [] [] [] [] []]; vm_compute; congruence. Qed.

Lemma digit_not_space (c : ascii) (d : Z) : digit_of c = Some d -> is_space c = false.
Proof. destruct c as [[] [] [] [] [] [] [] []]; vm_compute; congruence. Qed.

(** Where the text left by [rtrim] does not end in white space, [rstrip]
    leaves the same text. *)
Lemma rstrip_rtrim (s : string) : last_is_space (rtrim s) = false -> rstrip s = rtrim s.
Proof.
  induction s as [|c s IH]; [reflexivity|].
  cbn [rtrim rstrip]. destruct (rtrim s) as [|a r] eqn:E.
  - rewrite IH by reflexivity. destruct (is_blank c) eqn:Ec.
    + now rewrite (is_blank_space c Ec).
    + cbn [last_is_space]. now intros ->.
  - intros H. rewrite IH; [reflexivity|]. exact H.
Qed.

Lemma last_is_space_ltrim (s : string) :
  ltrim s <> EmptyString -> last_is_space s = last_is_space (ltrim s).
Proof.
  induction s as [|c s IH]; [reflexivity|]. cbn [ltrim].
  destruct (is_blank c); [|reflexivity].
  intros H. rewrite <- (IH H). destruct s; [now destruct H | reflexivity].
Qed.

Lemma digits_end (s : string) (acc z : Z) :
  digits_from acc s = Some z -> last_is_space s = false.
Proof.
  revert acc. induction s as [|c s IH]; intros acc; [reflexivity|].
  cbn [digits_from]. destruct (digit_of c) as [d|] eqn:Ed; [|discriminate].
  intros H. destruct s as [|c' s'].
  - cbn [last_is_space]. now apply (digit_not_space c d).
  - exact (IH _ H).
Qed.

Lemma int_of_decimal_end (t : string) (y : Z) :
  (let '(neg, body) := signed t in
   match unsigned_of body with
   | Some z => Some (if neg then (- z)%Z else z)
   | None => None
   end) = Some y ->
  t <> EmptyString /\ last_is_space t = false.
Proof.
  assert (forall body, unsigned_of body <> None ->
                       body <> EmptyString /\ last_is_space body = false) as Hbody.
  { intros body H. destruct body as [|c b]; [now destruct H|]. split; [discriminate|].
    unfold unsigned_of in H. destruct (digits_from 0 (String c b)) as [z|] eqn:E;
      [|now destruct H]. exact (digits_end _ _ _ E). }
  assert (forall c body, unsigned_of body <> None ->
                         String c body <> EmptyString /\
                         last_is_space (String c body) = false) as Hsign.
  { intros c body H. destruct (Hbody body H) as [Hne Hlast]. split; [discriminate|].
    destruct body; [now destruct Hne | exact Hlast]. }
  unfold signed. intros H.
  destruct t as [|c b]; [discriminate|].
  destruct (ascii_dec c "-") as [-> | Hm]; [|destruct (ascii_dec c "+") as [-> | Hp]].
  - apply Hsign. destruct (unsigned_of b); [discriminate | discriminate].
  - apply Hsign. destruct (unsigned_of b); [discriminate | discriminate].
  - apply Hbody.
    assert ((let '(neg, body) := (false, String c b) in
             match unsigned_of body with
             | Some z => Some (if neg then (- z)%Z else z)
             | None => None
             end) = Some y) as H'.
    { revert H. destruct c as [[] [] [] [] [] [] [] []]; try exact (fun H => H);
        now (exfalso; (apply Hm || apply Hp)). }
    cbn beta iota in H'. destruct (unsigned_of (String c b)); [discriminate | discriminate].
Qed.

(** The stand-in reads a text it accepts the same once the text is
    stripped on the right, as [int] does. *)
Lemma int_of_decimal_reads_stripped : reads_stripped int_of_decimal.
Proof.
  intros s y H. unfold int_of_decimal in H |- *.
  destruct (int_of_decimal_end _ _ H) as [Hne Hlast]. unfold trim in *.
  rewrite <- last_is_space_ltrim in Hlast by assumption.
  now rewrite (rstrip_rtrim s Hlast), rtrim_rtrim.
Qed.

Lemma int_of_decimal_refuses_unstripped : refuses_unstripped int_of_decimal.
Proof. apply reads_stripped_refuses, int_of_decimal_reads_stripped. Qed.

(** C10. [read_file] has no partial result: when some line after the
    header has fewer than 7 fields or a field 6 that [int] refuses, the
    source raises ([IndexError] or the [ValueError] of [int], the
    specification's MalformedRecord) and returns no data set, whatever
    the other lines and the year are. [gptproject.py] reads field 6 of
    the stripped line and [teamproject.py] field 6 of the line as it is;
    each raises on a line malformed by its own reading. A line
    malformed by the reading of [gptproject.py] makes [teamproject.py]
    raise as well, since [int] accepts no text whose right-stripped form
    it refuses. *)
Theorem read_file_aborts (py_int : string -> option Z) (lines : list string) (year : Z)
    (line : string) :
  In line (tail lines) ->
  (malformed py_int line ->
   exists e, gpt.read_file py_int lines year = Raise e /\
             (e = IndexError \/ e = ValueError BadInt)) /\
  (malformed_unstripped py_int line ->
   exists e, team.read_file py_int lines year = Raise e /\
             (e = IndexError \/ e = ValueError BadInt)) /\
  (refuses_unstripped py_int -> malformed py_int line ->
   exists e, team.read_file py_int lines year = Raise e /\
             (e = IndexError \/ e = ValueError BadInt)).
Proof.
  intros Hin.
  assert (malformed_unstripped py_int line ->
          exists e, team.read_file py_int lines year = Raise e /\
                    (e = IndexError \/ e = ValueError BadInt)) as Hteam.
  { intros [e0 Hbad]%read_year_unstripped_malformed.
    rewrite team_read_file_comprehension.
    apply (load_aborts (read_year_unstripped py_int) (fun y => (year <=? y)%Z) _ line e0);
      [apply read_year_unstripped_Raise | assumption | assumption]. }
  split; [|split].
  - intros [e0 Hbad]%read_year_malformed. rewrite gpt_read_file_comprehension.
    apply (load_aborts (read_year py_int) (fun y => (year =? 0)%Z || (year <=? y)%Z)
                       _ line e0);
      [apply read_year_Raise | assumption | assumption].
  - exact Hteam.
  - intros Hint Hbad. now apply Hteam, malformed_unstripped_of.
Qed.

Lemma read_file_aborts_witness :
  malformed int_of_decimal line_bad /\
  (exists e, gpt.read_file int_of_decimal [header; line_2015; line_bad] 0 = Raise e /\
             (e = IndexError \/ e = ValueError BadInt)) /\
  (exists e, team.read_file int_of_decimal [header; line_2015; line_bad] 0 = Raise e /\
             (e = IndexError \/ e = ValueError BadInt)).
Proof.
  assert (malformed int_of_decimal line_bad) as H by (right; vm_compute; reflexivity).
  split; [exact H|].
  destruct (read_file_aborts int_of_decimal [header; line_2015; line_bad] 0 line_bad
              (or_intror (or_introl eq_refl))) as (Hgpt & _ & Hteam).
  split; [exact (Hgpt H) | exact (Hteam int_of_decimal_refuses_unstripped H)].
Defined.

(** ** C8: the order of a result *)

(** C8 as made fails here: the rating text [nan] is a float, every
    comparison with its score is false, and [sorted] leaves the three
    films where they are, the score 1.0 before the score 2.0. *)
Lemma nan_breaks_rank_order :
  team.top_n float_of_decimal [film_1; film_nan; film_2] "" 0
    = Ok [("A", 1%float); ("B", PrimFloat.nan); ("C", 2%float)] /\
  gpt.top_n float_of_decimal sum_left [film_1; film_nan; film_2] "" 0
    = Ok [("A", 1%float); ("B", PrimFloat.nan); ("C", 2%float)] /\
  ~ in_rank_order [("A", 1%float); ("B", PrimFloat.nan); ("C", 2%float)].
Proof.
  split; [vm_compute; reflexivity|]. split; [vm_compute; reflexivity|].
  intros H.
  destruct (H 0%nat 2%nat ("A", 1%float) ("C", 2%float)) as [Hlt _];
    [lia | reflexivity | reflexivity |].
  vm_compute in Hlt. discriminate.
Qed.

Lemma ranking_in_order (py_float : string -> option float) (total : list float -> float)
    (cast : string -> row -> bool)
    (pass : row -> bool) (key : ranked -> float * string) (data : list row) (k : nat) :
  (forall t, key t = gpt.sort_key t) ->
  scores_not_nan (map entry_of (ranking py_float total cast pass key data)) ->
  in_rank_order (map entry_of (firstn k (ranking py_float total cast pass key data))).
Proof.
  unfold ranking, scores_not_nan. intros Hkey Hnan.
  rewrite (py_sorted_ext key_lt key gpt.sort_key) in * by assumption.
  apply ranked_in_order.
  apply List.Forall_map in Hnan.
  eapply Permutation_Forall; [apply (py_sorted_perm key_lt gpt.sort_key) | exact Hnan].
Qed.

(** C8, amended. Provided no film that passes the genre filter has a NaN
    combined score (the result without limit shows them all), the list
    [top_n] returns, in either source and under any limit, is sorted by
    descending combined score, ties broken by ascending title: at
    positions [i < j] the score at [i] is not lower than the score at
    [j], and when the two scores are equal the title at [i] is less than
    or equal to the title at [j]. *)
Theorem top_n_in_rank_order (py_float : string -> option float)
    (py_sum : list float -> float) (data : list row)
    (genre : string) (n : Z) (full res : list (string * float)) :
  (team.top_n py_float data genre 0 = Ok full -> scores_not_nan full ->
   team.top_n py_float data genre n = Ok res -> in_rank_order res) /\
  (gpt.top_n py_float py_sum data genre 0 = Ok full -> scores_not_nan full ->
   gpt.top_n py_float py_sum data genre n = Ok res -> in_rank_order res).
Proof.
  split.
  - intros [_ ->]%team_top_n_Ok Hnan [_ ->]%team_top_n_Ok.
    change (team_limit 0 ?l) with l in Hnan.
    destruct (team_limit_firstn n (map entry_of (team_ranking py_float data genre)))
      as [k ->].
    rewrite firstn_map. apply ranking_in_order; [|assumption].
    apply sorting_lambda_sort_key.
  - intros ->%gpt_top_n_Ok Hnan ->%gpt_top_n_Ok.
    change (gpt_limit 0 ?l) with l in Hnan.
    destruct (gpt_limit_firstn n (gpt_ranking py_float py_sum data genre)) as [k ->].
    now apply ranking_in_order.
Qed.

Lemma top_n_in_rank_order_witness :
  team.top_n float_of_decimal [film_B; film_D; film_A] "" 0
    = Ok [("D", 9%float); ("A", 8.25%float); ("B", 7.5%float)] /\
  scores_not_nan [("D", 9%float); ("A", 8.25%float); ("B", 7.5%float)] /\
  team.top_n float_of_decimal [film_B; film_D; film_A] "" 2
    = Ok [("D", 9%float); ("A", 8.25%float)] /\
  in_rank_order [("D", 9%float); ("A", 8.25%float)].
Proof.
  assert (team.top_n float_of_decimal [film_B; film_D; film_A] "" 0
          = Ok [("D", 9%float); ("A", 8.25%float); ("B", 7.5%float)]) as H0
    by (vm_compute; reflexivity).
  assert (scores_not_nan [("D", 9%float); ("A", 8.25%float); ("B", 7.5%float)]) as Hnan
    by (repeat constructor).
  assert (team.top_n float_of_decimal [film_B; film_D; film_A] "" 2
          = Ok [("D", 9%float); ("A", 8.25%float)]) as Hn by (vm_compute; reflexivity).
  split; [exact H0|]. split; [exact Hnan|]. split; [exact Hn|].
  exact (proj1 (top_n_in_rank_order float_of_decimal sum_left [film_B; film_D; film_A] "" 2
                  [("D", 9%float); ("A", 8.25%float); ("B", 7.5%float)]
                  [("D", 9%float); ("A", 8.25%float)]) H0 Hnan Hn).
Defined.

(** ** C2: the two sources side by side *)

(** C2 as made fails here. A negative limit: [gptproject.py]
    slices with it ([l[:-1]] drops the last film), [teamproject.py]
    returns everything unless [n > 0]. A filter token with a blank:
    [gptproject.py] strips it, [teamproject.py] compares it as it is.
    A line of 7 fields whose year is followed by a separator that
    [str.strip] takes off and [int] does not pass over:
    [gptproject.py] reads the year of the stripped line and returns
    the record, [teamproject.py] reads it off the line as it is and
    raises. *)
Lemma implementations_differ :
  gpt.top_n float_of_decimal sum_left [film_A; film_B] "" (-1) = Ok [("A", 8%float)] /\
  team.top_n float_of_decimal [film_A; film_B] "" (-1)
    = Ok [("A", 8%float); ("B", 7%float)] /\
  gpt.top_n float_of_decimal sum_left [film_A] " Action" 0 = Ok [("A", 8%float)] /\
  team.top_n float_of_decimal [film_A] " Action" 0 = Ok [] /\
  gpt.read_file int_of_decimal [header; line_us] 2000 = Ok [record_of line_us] /\
  team.read_file int_of_decimal [header; line_us] 2000 = Raise (ValueError BadInt).
Proof. vm_compute. repeat split; reflexivity. Qed.

Lemma rankings_agree (py_float : string -> option float) (py_sum : list float -> float)
    (data : list row) (genre : string) :
  (forall l, py_sum l = sum_left l) ->
  (forall r, In r data -> gpt_passes genre r = passes genre r) ->
  (forall r r' a, In r data -> In r' data -> a ∈ actors_of r ->
                  occurs a r' = credited a r') ->
  gpt_ranking py_float py_sum data genre = team_ranking py_float data genre.
Proof.
  intros Hsum Hpass Hcast. rewrite team_ranking_passes. unfold gpt_ranking, ranking.
  rewrite (py_sorted_ext key_lt team.sorting_lambda gpt.sort_key)
    by apply sorting_lambda_sort_key.
  rewrite (filter_ext_in _ _ data Hpass). f_equal.
  apply map_ext_in. intros r [Hr _]%filter_In.
  unfold ranked_of, actor_average, mean. rewrite Hsum.
  replace (map (actor_index py_float occurs data) (actors_of r))
    with (map (actor_index py_float credited data) (actors_of r)); [reflexivity|].
  apply map_ext_in. intros a Ha%list_elem_of_In.
  unfold actor_index. do 2 f_equal.
  apply filter_ext_in. intros r' Hr'. symmetry. now apply (Hcast r r' a).
Qed.

Lemma limits_agree {A B : Type} (f : A -> B) (n : Z) (l : list A) :
  (0 <= n)%Z -> map f (gpt_limit n l) = team_limit n (map f l).
Proof.
  intros Hn. unfold gpt_limit, team_limit, slice_to.
  destruct (Z.eqb_spec n 0) as [->|Hne]; [reflexivity|].
  rewrite (proj2 (Z.ltb_lt 0 n)), (proj2 (Z.leb_le 0 n)) by lia.
  now rewrite firstn_map.
Qed.

(** C2, amended. The two sources are two implementations of the same
    three functions on the inputs on which their designs coincide:
    [write_file] writes the same text for every list; [top_n] returns
    the same list for a limit [n >= 0] on rows that can be ranked,
    whenever on the films of the data set the stripped-substring genre
    test of [gptproject.py] and the exact-token test of
    [teamproject.py] give the same answer, an actor name occurs in an
    actor field only as one of its names, and the runtime's [sum] adds
    from the left as the loop of [teamproject.py] does; [read_file]
    returns the same data set, or raises the same exception, whenever
    the year is not 0 or no year in the file is negative, and on every
    line of exactly 7 fields, where the year is the last field, [int]
    says the same of the year with and without the white space that
    ends the line. *)
Theorem implementations_agree :
  (forall (py_str : float -> string) (top : list (string * float)),
     gpt.write_file py_str top = team.write_file py_str top) /\
  (forall (py_float : string -> option float) (py_sum : list float -> float)
          (data : list row) (genre : string) (n : Z),
     (forall l, py_sum l = sum_left l) ->
     (0 <= n)%Z ->
     forallb (well_formed py_float) data = true ->
     (forall r, In r data -> gpt_passes genre r = passes genre r) ->
     (forall r r' a, In r data -> In r' data -> a ∈ actors_of r ->
                     occurs a r' = credited a r') ->
     gpt.top_n py_float py_sum data genre n = team.top_n py_float data genre n) /\
  (forall (py_int : string -> option Z) (lines : list string) (year : Z),
     (year <> 0%Z \/
      forall line, In line (tail lines) -> (0 <= year_of py_int (record_of line))%Z) ->
     (forall line, In line (tail lines) -> List.length (py_split ";" line) = 7%nat ->
        py_int (rstrip (field (py_split ";" line) 6)) = py_int (field (py_split ";" line) 6)) ->
     gpt.read_file py_int lines year = team.read_file py_int lines year).
Proof.
  split; [|split].
  - reflexivity.
  - intros py_float py_sum data genre n Hsum Hn Hwf Hpass Hcast.
    rewrite gpt_top_n_total by assumption. symmetry. apply team_top_n_Ok.
    split; [assumption|].
    now rewrite (rankings_agree py_float py_sum data genre), limits_agree.
  - intros py_int lines year Hyear Hint.
    rewrite gpt_read_file_comprehension, team_read_file_comprehension.
    apply comprehension_ext_in. intros line Hline.
    rewrite (read_year_agree py_int line (year_read_agree py_int line (Hint line Hline))).
    destruct (read_year py_int line) as [y|e] eqn:E; [|reflexivity].
    simpl. f_equal. apply read_year_Ok in E as ->.
    destruct Hyear as [Hne | Hpos].
    + now rewrite (proj2 (Z.eqb_neq year 0)).
    + destruct (Z.eqb_spec year 0) as [->|Hne]; [|reflexivity].
      symmetry. apply Z.leb_le. now apply Hpos.
Qed.

Lemma implementations_agree_witness :
  gpt.top_n float_of_decimal sum_left [film_A; film_B] "Action" 1
  = team.top_n float_of_decimal [film_A; film_B] "Action" 1 /\
  gpt.read_file int_of_decimal [header; line_2015; line_bc] 2000
  = team.read_file int_of_decimal [header; line_2015; line_bc] 2000.
Proof.
  split.
  - apply (proj1 (proj2 implementations_agree) float_of_decimal sum_left
                  [film_A; film_B] "Action" 1%Z).
    + reflexivity.
    + lia.
    + vm_compute. reflexivity.
    + intros r [<- | [<- | []]]; vm_compute; reflexivity.
    + intros r r' a Hr Hr' Ha%list_elem_of_In.
      destruct Hr' as [<- | [<- | []]];
        destruct Hr as [<- | [<- | []]]; vm_compute in Ha;
        repeat (destruct Ha as [<- | Ha]; [vm_compute; reflexivity|]); destruct Ha.
  - apply (proj2 (proj2 implementations_agree) int_of_decimal).
    + left. lia.
    + intros line [<- | [<- | []]] Hlen; vm_compute in Hlen; discriminate.
Defined.

(** * Further properties of the sources *)

(** ** Splitting and joining *)

Lemma string_length_app (a b : string) :
  String.length (a +:+ b) = (String.length a + String.length b)%nat.
Proof. induction a as [|c a IH]; simpl; [reflexivity | now rewrite IH]. Qed.

Lemma prefix_app (a s : string) :
  String.prefix a s = true -> exists rest, s = a +:+ rest.
Proof.
  revert s. induction a as [|c a IH]; intros s; [exists s; reflexivity|].
  destruct s as [|c' s]; simpl; [discriminate|].
  destruct (ascii_dec c c') as [->|]; [|discriminate].
  intros [rest ->]%IH. now exists rest.
Qed.

(** Passing over the rest of a separator. *)
Lemma split_from_skip (sep u rest : string) :
  split_from sep (String.length u) (u +:+ rest) = split_from sep 0 rest.
Proof. induction u as [|c u IH]; simpl; [reflexivity | exact IH]. Qed.

Lemma concat_cons (sep x : string) (l : list string) :
  l <> [] -> String.concat sep (x :: l) = x +:+ sep +:+ String.concat sep l.
Proof. destruct l; [congruence | reflexivity]. Qed.

Lemma concat_head (sep : string) (c : ascii) (f : string) (fs : list string) :
  String.concat sep (String c f :: fs) = String c (String.concat sep (f :: fs)).
Proof. destruct fs; reflexivity. Qed.

Lemma split_join_bounded (sep : string) (n : nat) (s : string) :
  sep <> EmptyString -> (String.length s <= n)%nat ->
  String.concat sep (py_split sep s) = s.
Proof.
  intros Hsep. unfold py_split. revert s.
  induction n as [|n IH]; intros s Hlen.
  - destruct s; [reflexivity | simpl in Hlen; lia].
  - destruct s as [|c s]; [reflexivity|]. cbn [split_from].
    destruct (String.prefix sep (String c s)) eqn:Ep.
    + destruct sep as [|d sep']; [congruence|].
      apply prefix_app in Ep as [rest Hrest]. injection Hrest as -> ->.
      replace (String.length (String d sep') - 1)%nat with (String.length sep')
        by (simpl; lia).
      rewrite split_from_skip, concat_cons by apply split_from_nonempty.
      rewrite IH; [reflexivity|].
      simpl in Hlen. rewrite string_length_app in Hlen. lia.
    + destruct (split_from sep 0 s) as [|f fs] eqn:E.
      * now destruct (split_from_nonempty _ _ _ E).
      * rewrite concat_head, <- E, IH; [reflexivity | simpl in Hlen; lia].
Qed.

(** [sep.join(s.split(sep))] is [s]. *)
Lemma split_join (sep s : string) :
  sep <> EmptyString -> String.concat sep (py_split sep s) = s.
Proof. intros Hsep. now apply (split_join_bounded sep (String.length s)). Qed.

(** A field of a split on one character holds no separator. *)
Lemma fields_no_sep (d : ascii) (s f : string) :
  In f (py_split (String d EmptyString) s) -> py_in (String d EmptyString) f = false.
Proof.
  unfold py_split. revert f. induction s as [|c s IH]; intros f.
  - intros [<- | []]. reflexivity.
  - rewrite fields_of_cons. destruct (ascii_dec d c) as [-> | Hdc].
    + intros [<- | Hin]; [reflexivity | now apply IH].
    + destruct (split_from (String d EmptyString) 0 s) as [|f0 fs] eqn:E; [intros []|].
      cbn [on_head]. intros [<- | Hin].
      * cbn [py_in String.prefix]. destruct (ascii_dec d c); [contradiction|].
        simpl. apply IH. now left.
      * apply IH. now right.
Qed.

(** A text without the separator is its own only field. *)
Lemma fields_single (d : ascii) (s : string) :
  py_in (String d EmptyString) s = false -> py_split (String d EmptyString) s = [s].
Proof.
  unfold py_split. induction s as [|c s IH]; [reflexivity|].
  cbn [py_in String.prefix]. rewrite fields_of_cons.
  destruct (ascii_dec d c) as [-> | Hdc].
  - now rewrite prefix_empty.
  - simpl. intros H. now rewrite (IH H).
Qed.

(** Splitting a text that was put together around one separator. *)
Lemma fields_app (d : ascii) (a b : string) :
  py_split (String d EmptyString) (a +:+ String d b) =
  py_split (String d EmptyString) a ++ py_split (String d EmptyString) b.
Proof.
  unfold py_split. induction a as [|c a IH].
  - change (EmptyString +:+ String d b) with (String d b). rewrite fields_of_cons.
    destruct (ascii_dec d d); [reflexivity | contradiction].
  - change (String c a +:+ String d b) with (String c (a +:+ String d b)).
    rewrite !fields_of_cons, IH.
    destruct (ascii_dec d c); [reflexivity|].
    destruct (split_from (String d EmptyString) 0 a) as [|f fs] eqn:E; [|reflexivity].
    now apply split_from_nonempty in E.
Qed.

(** ** Comprehensions, element by element *)

Lemma comprehension_Ok_in {A B : Type} (p : A -> result bool) (f : A -> result B)
    (l : list A) (ys : list B) (y : B) :
  comprehension p f l = Ok ys -> In y ys ->
  exists x, In x l /\ p x = Ok true /\ f x = Ok y.
Proof.
  revert ys. induction l as [|x l IH]; intros ys H Hin; simpl in H.
  - injection H as <-. destruct Hin.
  - returned H. destruct v.
    + returned H. returned H. injection H as <-. destruct Hin as [<- | Hin].
      * exists x. repeat split; [now left | assumption | assumption].
      * destruct (IH _ Hv1 Hin) as (x' & Hx' & Hp & Hf). exists x'. auto with datatypes.
    + destruct (IH _ H Hin) as (x' & Hx' & Hp & Hf). exists x'. auto with datatypes.
Qed.

(** ** [read_file]: the records it returns *)

Section Records_returned.
Variable py_int : string -> option Z.

Lemma read_year_total (line : string) :
  ~ malformed py_int line -> read_year py_int line = Ok (year_of py_int (record_of line)).
Proof.
  unfold malformed, read_year, year_of. intros H.
  rewrite item_in_range by lia.
  destruct (py_int (field (record_of line) 6)) as [y|] eqn:E; [|tauto].
  cbn [bind]. unfold convert. now rewrite E.
Qed.

Lemma read_year_well (line : string) (y : Z) :
  read_year py_int line = Ok y -> ~ malformed py_int line.
Proof.
  intros H [e He]%read_year_malformed. congruence.
Qed.

(** A load returns exactly on the lines it can read, and then returns
    the records of the lines it keeps. *)
Lemma load_total (keep : Z -> bool) (lines : list string) :
  (forall line, In line lines -> ~ malformed py_int line) ->
  comprehension (fun line => let* y := read_year py_int line in Ok (keep y))
                (fun line => Ok (record_of line)) lines
  = Ok (List.filter (fun r => keep (year_of py_int r)) (map record_of lines)).
Proof.
  intros H. rewrite <- (filter_map_commute record_of (fun r => keep (year_of py_int r))).
  apply (comprehension_total _ _ (fun line => keep (year_of py_int (record_of line))) record_of).
  - intros line Hin. now rewrite (read_year_total line (H line Hin)).
  - reflexivity.
Qed.

Lemma load_well (keep : Z -> bool) (lines : list string) (rows : list row) :
  comprehension (fun line => let* y := read_year py_int line in Ok (keep y))
                (fun line => Ok (record_of line)) lines = Ok rows ->
  forall line, In line lines -> ~ malformed py_int line.
Proof.
  intros H line Hin.
  destruct (comprehension_Ok_each _ _ _ _ _ H Hin) as [b Hb].
  returned Hb. now apply (read_year_well line v).
Qed.
(** The same for [teamproject.py], which reads the year off the line
    before it is stripped. *)
Lemma load_total_unstripped (keep : Z -> bool) (lines : list string) :
  (forall line, In line lines -> ~ malformed_unstripped py_int line) ->
  comprehension (fun line => let* y := read_year_unstripped py_int line in Ok (keep y))
                (fun line => Ok (record_of line)) lines
  = Ok (map record_of (List.filter (fun line => keep (year_unstripped py_int line)) lines)).
Proof.
  intros H.
  apply (comprehension_total _ _ (fun line => keep (year_unstripped py_int line)) record_of).
  - intros line Hin. now rewrite (read_year_unstripped_total py_int line (H line Hin)).
  - reflexivity.
Qed.

Lemma load_well_unstripped (keep : Z -> bool) (lines : list string) (rows : list row) :
  comprehension (fun line => let* y := read_year_unstripped py_int line in Ok (keep y))
                (fun line => Ok (record_of line)) lines = Ok rows ->
  forall line, In line lines ->
    ~ malformed_unstripped py_int line /\
    (reads_stripped py_int -> year_of py_int (record_of line) = year_unstripped py_int line).
Proof.
  intros H line Hin.
  destruct (comprehension_Ok_each _ _ _ _ _ H Hin) as [b Hb]. returned Hb. split.
  - intros [e He]%read_year_unstripped_malformed. congruence.
  - intros Hint. pose proof (read_year_of_unstripped py_int line v Hint Hv) as Hy.
    apply read_year_Ok in Hy. apply read_year_unstripped_Ok in Hv. congruence.
Qed.

(** With an eighth field the year is not the last field of the line,
    and the two readings give the same year. *)
Lemma year_unstripped_inner (line : string) :
  (8 <= List.length (py_split ";" line))%nat ->
  year_unstripped py_int line = year_of py_int (record_of line).
Proof.
  intros H. unfold year_unstripped, year_of, field.
  now rewrite (nth_error_ext_nth _ _ 6 EmptyString (year_field_inner line H)).
Qed.
End Records_returned.

Lemma filter_within {A : Type} (p q : A -> bool) (l : list A) :
  (forall x, In x l -> p x = true -> q x = true) ->
  List.filter p (List.filter q l) = List.filter p l.
Proof.
  induction l as [|x l IH]; intros H; [reflexivity|]. cbn [List.filter].
  destruct (q x) eqn:Eq; cbn [List.filter].
  - destruct (p x); rewrite IH; auto with datatypes.
  - destruct (p x) eqn:Ep.
    + rewrite (H x (or_introl eq_refl) Ep) in Eq. discriminate.
    + apply IH. auto with datatypes.
Qed.

(** X1. A record that [read_file] returns is the text of a line: its
    fields joined with [";"] give back the stripped line it was split
    from, a line after the first of the file; it has at least the 7
    fields up to the year, and no field holds a [";"]. This holds in
    both sources. *)
Theorem read_file_records (py_int : string -> option Z) (lines : list string) (year : Z)
    (rows : list row) (r : row) :
  gpt.read_file py_int lines year = Ok rows \/ team.read_file py_int lines year = Ok rows ->
  In r rows ->
  (exists line, In line (tail lines) /\ String.concat ";" r = strip line) /\
  (7 <= List.length r)%nat /\
  (forall f, In f r -> py_in ";" f = false).
Proof.
  intros H Hin.
  assert (exists line, In line (tail lines) /\ r = record_of line /\
                       (7 <= List.length (record_of line))%nat) as (line & Hline & -> & Hlen).
  { destruct H as [H | H].
    - rewrite gpt_read_file_comprehension in H.
      destruct (comprehension_Ok_in _ _ _ _ _ H Hin) as (line & Hline & Hp & [= <-]).
      exists line. repeat split; [assumption|].
      returned Hp. unfold read_year in Hv. returned Hv.
      apply item_length in Hv0. lia.
    - unfold team.read_file in H.
      destruct (comprehension_Ok_in _ _ _ _ _ H Hin) as (line & Hline & Hp & [= <-]).
      exists line. repeat split; [assumption|].
      returned Hp. apply item_length in Hv. rewrite record_of_length. lia. }
  repeat split; [|assumption|].
  - exists line. split; [assumption|]. unfold record_of. now apply split_join.
  - intros f. apply fields_no_sep.
Qed.

Lemma read_file_records_witness :
  gpt.read_file int_of_decimal [header; line_2015; line_bc] 2000 = Ok [record_of line_2015] /\
  String.concat ";" (record_of line_2015) = strip line_2015 /\
  (7 <= List.length (record_of line_2015))%nat.
Proof.
  assert (gpt.read_file int_of_decimal [header; line_2015; line_bc] 2000
          = Ok [record_of line_2015]) as H by (vm_compute; reflexivity).
  split; [exact H|].
  destruct (read_file_records int_of_decimal [header; line_2015; line_bc] 2000
              [record_of line_2015] (record_of line_2015) (or_introl H)
              (or_introl eq_refl)) as [_ [Hlen _]].
  split; [vm_compute; reflexivity | exact Hlen].
Defined.

(** X2. On a file that it can read, [read_file] returns, in the
    order of the file: in [gptproject.py], when every line after the
    first has at least 7 fields and a field 6 that [int] accepts once
    the line is stripped, the records whose year is at least [year],
    and every record when [year] is 0; in [teamproject.py], when [int]
    accepts field 6 of every such line as the line is, before it is
    stripped, the records of the lines whose year, read that way, is at
    least [year], also when [year] is 0. On a line of at least 8
    fields the year read that way is the year of the record. *)
Theorem read_file_loads (py_int : string -> option Z) (lines : list string) (year : Z) :
  ((forall line, In line (tail lines) -> ~ malformed py_int line) ->
   gpt.read_file py_int lines year
   = Ok (List.filter (fun r => (year =? 0)%Z || (year <=? year_of py_int r)%Z)
                     (map record_of (tail lines)))) /\
  ((forall line, In line (tail lines) -> ~ malformed_unstripped py_int line) ->
   team.read_file py_int lines year
   = Ok (map record_of
             (List.filter (fun line => (year <=? year_unstripped py_int line)%Z)
                          (tail lines)))) /\
  (forall line, (8 <= List.length (py_split ";" line))%nat ->
     year_unstripped py_int line = year_of py_int (record_of line)).
Proof.
  split; [|split].
  - intros Hwell. rewrite gpt_read_file_comprehension.
    now apply (load_total py_int (fun y => (year =? 0)%Z || (year <=? y)%Z)).
  - intros Hwell. rewrite team_read_file_comprehension.
    now apply (load_total_unstripped py_int (fun y => (year <=? y)%Z)).
  - apply year_unstripped_inner.
Qed.

Lemma read_file_loads_witness :
  gpt.read_file int_of_decimal [header; line_bc; line_2015] 0
  = Ok [record_of line_bc; record_of line_2015] /\
  team.read_file int_of_decimal [header; line_bc; line_2015] 0
  = Ok [record_of line_2015].
Proof.
  destruct (read_file_loads int_of_decimal [header; line_bc; line_2015] 0)
    as (Hgpt & Hteam & _).
  split.
  - rewrite Hgpt; [vm_compute; reflexivity|].
    intros line [<- | [<- | []]] [Hm | Hm]; vm_compute in Hm; (lia || discriminate).
  - rewrite Hteam; [vm_compute; reflexivity|].
    intros line [<- | [<- | []]] [Hm | Hm]; vm_compute in Hm; (lia || discriminate).
Defined.

(** X3. Loading a file with a later year gives what filtering an earlier
    load gives: when [read_file] returns [rows] for the year [y1], it
    returns for [y2] the records of [rows] whose year is at least [y2];
    in [gptproject.py] for [y2 <> 0] and [y1 = 0] or [y1 <= y2]; in
    [teamproject.py] for [y1 <= y2], given that [int] reads a text it
    accepts the same once the text is stripped on the right. *)
Theorem read_file_later_year (py_int : string -> option Z) (lines : list string)
    (y1 y2 : Z) (rows : list row) :
  (gpt.read_file py_int lines y1 = Ok rows -> y2 <> 0%Z -> (y1 = 0 \/ y1 <= y2)%Z ->
   gpt.read_file py_int lines y2
   = Ok (List.filter (fun r => (y2 <=? year_of py_int r)%Z) rows)) /\
  (reads_stripped py_int ->
   team.read_file py_int lines y1 = Ok rows -> (y1 <= y2)%Z ->
   team.read_file py_int lines y2
   = Ok (List.filter (fun r => (y2 <=? year_of py_int r)%Z) rows)).
Proof.
  split.
  - intros H Hy2 Hy1. rewrite gpt_read_file_comprehension in H |- *.
    pose proof (load_well py_int _ _ _ H) as Hwell.
    rewrite (load_total py_int (fun y => (y1 =? 0)%Z || (y1 <=? y)%Z)) in H by assumption.
    rewrite (load_total py_int (fun y => (y2 =? 0)%Z || (y2 <=? y)%Z)) by assumption.
    injection H as <-. f_equal.
    rewrite filter_within.
    + apply filter_ext. intros r. now rewrite (proj2 (Z.eqb_neq y2 0) Hy2).
    + intros r _ Hr. apply Z.leb_le in Hr. apply orb_true_iff.
      destruct Hy1 as [-> | Hle]; [now left | right; apply Z.leb_le; lia].
  - intros Hint H Hle. rewrite team_read_file_comprehension in H |- *.
    pose proof (load_well_unstripped py_int _ _ _ H) as Hwell.
    rewrite (load_total_unstripped py_int (fun y => (y1 <=? y)%Z)) in H
      by (intros line Hin; apply (Hwell line Hin)).
    rewrite (load_total_unstripped py_int (fun y => (y2 <=? y)%Z))
      by (intros line Hin; apply (Hwell line Hin)).
    injection H as <-. f_equal.
    rewrite <- (filter_map_commute record_of (fun r => (y2 <=? year_of py_int r)%Z)).
    f_equal.
    rewrite (filter_ext_in (fun line => (y2 <=? year_of py_int (record_of line))%Z)
                           (fun line => (y2 <=? year_unstripped py_int line)%Z)).
    + symmetry. apply filter_within.
      intros line _ Hr. apply Z.leb_le. apply Z.leb_le in Hr. lia.
    + intros line [Hin _]%filter_In. now rewrite (proj2 (Hwell line Hin) Hint).
Qed.

Lemma read_file_later_year_witness :
  team.read_file int_of_decimal [header; line_bc; line_2015] (-100)
  = Ok [record_of line_bc; record_of line_2015] /\
  team.read_file int_of_decimal [header; line_bc; line_2015] 2000
  = Ok (List.filter (fun r => (2000 <=? year_of int_of_decimal r)%Z)
                    [record_of line_bc; record_of line_2015]).
Proof.
  assert (team.read_file int_of_decimal [header; line_bc; line_2015] (-100)
          = Ok [record_of line_bc; record_of line_2015]) as H by (vm_compute; reflexivity).
  split; [exact H|].
  apply (proj2 (read_file_later_year int_of_decimal [header; line_bc; line_2015]
                  (-100)%Z 2000%Z _) int_of_decimal_reads_stripped H). lia.
Defined.

(** ** [top_n]: the rows it reads *)

Lemma for_each_app {A S : Type} (body : S -> A -> result S) (l1 l2 : list A) (acc : S) :
  for_each body (l1 ++ l2) acc = let* acc' := for_each body l1 acc in for_each body l2 acc'.
Proof.
  revert acc. induction l1 as [|x l1 IH]; intros acc; [reflexivity|].
  cbn [app for_each]. destruct (body acc x) as [acc'|e]; [|reflexivity]. apply IH.
Qed.

Section Rows_read.
Variable py_float : string -> option float.
Variable py_sum : list float -> float.

(** What the first loop of [teamproject.py] raises on a row it cannot
    rank. *)
Lemma rate_film_bad (d : gmap string float) (film : row) :
  well_formed py_float film = false ->
  team.rate_film py_float d film
  = Raise (if (List.length film <? 9)%nat then IndexError else ValueError BadFloat).
Proof.
  unfold well_formed, team.rate_film. intros H.
  destruct (List.length film <? 9)%nat eqn:Elen.
  - apply Nat.ltb_lt in Elen.
    destruct (item film 5) as [f5|e] eqn:E5.
    + cbn [bind]. unfold item. now rewrite (proj2 (nth_error_None film 8)) by lia.
    + now rewrite (item_Raise _ _ _ E5).
  - apply Nat.ltb_ge in Elen. rewrite !item_in_range by lia. cbn [bind].
    rewrite (proj2 (Nat.leb_le 9 _) Elen) in H. cbn [andb] in H.
    apply bool_decide_eq_false in H. unfold convert.
    destruct (py_float (field film 8)) as [x|]; [|reflexivity].
    exfalso. apply H. now exists x.
Qed.

Lemma in_genre_list_fields (genre : string) (movie : row) :
  (3 <= List.length movie)%nat ->
  gpt.in_genre_list (gpt.genre_list_of genre) movie = Ok (gpt_passes genre movie).
Proof.
  intros Hlen. unfold gpt.in_genre_list, gpt_passes.
  destruct (gpt.genre_list_of genre); [reflexivity|]. now rewrite item_in_range by lia.
Qed.

Lemma get_highest_of_matches (actor : string) (data : list row) :
  (forall r, In r data -> (6 <= List.length r)%nat) ->
  (forall r, In r data -> occurs actor r = true -> well_formed py_float r = true) ->
  gpt.get_highest_rating_for_actor py_float actor data
  = py_max_list (map (rating_of py_float) (List.filter (occurs actor) data)).
Proof.
  intros Hlen Hwf. unfold gpt.get_highest_rating_for_actor.
  rewrite (comprehension_total _ _ (occurs actor) (rating_of py_float)).
  - reflexivity.
  - intros r Hr. now rewrite item_in_range by (specialize (Hlen r Hr); lia).
  - intros r Hr Hocc. destruct (well_formed_fields py_float r (Hwf r Hr Hocc)) as [Hitem Hrat].
    now rewrite Hitem by lia.
Qed.

Lemma rate_movie_of_matches (data : list row) (movie : row) :
  (forall r, In r data -> (6 <= List.length r)%nat) ->
  In movie data -> well_formed py_float movie = true ->
  (forall a r, a ∈ actors_of movie -> In r data -> occurs a r = true ->
               well_formed py_float r = true) ->
  gpt.rate_movie py_float py_sum data movie
  = Ok (ranked_of py_float py_sum occurs data movie).
Proof.
  intros Hlen Hin Hwf Hshare. unfold gpt.rate_movie.
  destruct (well_formed_fields py_float movie Hwf) as [Hitem Hrat].
  rewrite !Hitem by lia. cbn [bind]. rewrite Hrat. cbn [bind].
  fold (actors_of movie).
  rewrite (comprehension_total _ _ (fun _ => true) (actor_index py_float occurs data)).
  - cbn [bind]. rewrite filter_true. unfold py_div.
    replace (len (map (actor_index py_float occurs data) (actors_of movie)) =? 0)%Z
      with false.
    + reflexivity.
    + unfold len. rewrite length_map. symmetry. apply (len_split_pos ", ").
  - reflexivity.
  - intros a Ha _. apply list_elem_of_In in Ha.
    rewrite get_highest_of_matches; [|assumption | intros r0; now apply (Hshare a r0)].
    unfold actor_index.
    assert (existsb (occurs a) data = true) as Hex.
    { apply existsb_exists. exists movie. split; [assumption|].
      apply credited_occurs. unfold credited. now apply bool_decide_eq_true. }
    rewrite existsb_filter in Hex.
    destruct (List.filter (occurs a) data); [discriminate | reflexivity].
Qed.
End Rows_read.

(** X4. [top_n] of [teamproject.py] reads the rating of every row
    before it filters: on a data set whose first row that cannot be
    ranked is [bad] (fewer than 9 fields, or a rating [float] refuses) it
    raises for that row, [IndexError] when [bad] has fewer than 9 fields
    and the [ValueError] of [float] otherwise, whatever the genre filter
    and the limit are and whether or not [bad] passes the filter. *)
Theorem team_top_n_first_bad_row (py_float : string -> option float)
    (good rest : list row) (bad : row) (genre : string) (n : Z) :
  forallb (well_formed py_float) good = true ->
  well_formed py_float bad = false ->
  team.top_n py_float (good ++ bad :: rest) genre n
  = Raise (if (List.length bad <? 9)%nat then IndexError else ValueError BadFloat).
Proof.
  intros Hgood Hbad. unfold team.top_n, team.actors_rating_of.
  rewrite for_each_app.
  destruct (rated_total py_float good ∅ Hgood) as [d Hd]. rewrite Hd.
  cbn [bind for_each]. now rewrite rate_film_bad.
Qed.

Lemma team_top_n_first_bad_row_witness :
  forallb (well_formed float_of_decimal) [film_A] = true /\
  well_formed float_of_decimal film_unrated = false /\
  passes "Action" film_unrated = false /\
  team.top_n float_of_decimal [film_A; film_unrated; film_B] "Action" 1
  = Raise (ValueError BadFloat).
Proof.
  assert (forallb (well_formed float_of_decimal) [film_A] = true) as H1
    by (vm_compute; reflexivity).
  assert (well_formed float_of_decimal film_unrated = false) as H2
    by (vm_compute; reflexivity).
  split; [exact H1|]. split; [exact H2|]. split; [vm_compute; reflexivity|].
  exact (team_top_n_first_bad_row float_of_decimal [film_A] [film_B] film_unrated
           "Action" 1%Z H1 H2).
Defined.

(** X5. [top_n] of [gptproject.py] reads the rating only of the rows
    it needs: when every row has the 6 fields up to the actors, and
    every film that passes the filter, and every row in whose actor
    field a name of such a film occurs, has 9 fields and a rating
    [float] accepts, it returns the ranking of the films that pass, cut
    at the limit; the other rows may hold any rating text. *)
Theorem gpt_top_n_reads_needed_rows (py_float : string -> option float)
    (py_sum : list float -> float) (data : list row) (genre : string) (n : Z) :
  (forall r, In r data -> (6 <= List.length r)%nat) ->
  (forall r, In r data -> gpt_passes genre r = true -> well_formed py_float r = true) ->
  (forall r a r', In r data -> gpt_passes genre r = true -> a ∈ actors_of r ->
                  In r' data -> occurs a r' = true -> well_formed py_float r' = true) ->
  gpt.top_n py_float py_sum data genre n
  = Ok (map entry_of (gpt_limit n (gpt_ranking py_float py_sum data genre))).
Proof.
  intros Hlen Hpass Hshare. unfold gpt.top_n, gpt_ranking, ranking, gpt_limit.
  rewrite (comprehension_total _ _ (gpt_passes genre) id).
  - cbn [bind]. rewrite map_id.
    rewrite (comprehension_total _ _ (fun _ => true) (ranked_of py_float py_sum occurs data)).
    + cbn [bind]. now rewrite filter_true.
    + reflexivity.
    + intros r [Hr Hp]%filter_In _. apply rate_movie_of_matches; auto.
      intros a r' Ha. now apply (Hshare r a r').
  - intros r Hr. apply in_genre_list_fields. specialize (Hlen r Hr). lia.
  - reflexivity.
Qed.

Lemma gpt_top_n_reads_needed_rows_witness :
  well_formed float_of_decimal film_unrated = false /\
  gpt.top_n float_of_decimal sum_left [film_A; film_unrated; film_B] "Action" 1
  = Ok [("A", 8%float)].
Proof.
  split; [vm_compute; reflexivity|].
  rewrite (gpt_top_n_reads_needed_rows float_of_decimal sum_left
             [film_A; film_unrated; film_B] "Action" 1%Z).
  - vm_compute. reflexivity.
  - intros r [<- | [<- | [<- | []]]]; vm_compute; lia.
  - intros r [<- | [<- | [<- | []]]]; vm_compute; congruence.
  - intros r a r' Hr Hp Ha Hr' Hocc.
    destruct Hr' as [<- | [<- | [<- | []]]];
      [vm_compute; reflexivity | | vm_compute; reflexivity].
    exfalso. apply list_elem_of_In in Ha.
    assert (a = "X" \/ a = "Y") as [-> | ->].
    { destruct Hr as [<- | [<- | [<- | []]]].
      - vm_compute in Ha. destruct Ha as [<- | [<- | []]]; auto.
      - vm_compute in Hp. discriminate.
      - vm_compute in Ha. destruct Ha as [<- | []]; auto. }
    + vm_compute in Hocc. discriminate.
    + vm_compute in Hocc. discriminate.
Defined.

(** ** The limit *)

(** X6. A limited result is the start of the unlimited one. When
    [top_n] returns [full] for the limit 0, it returns for [n > 0] the
    first [n] entries of [full], in both sources; for [n < 0]
    [gptproject.py] returns [full] without its last [-n] entries and
    [teamproject.py] the whole of [full]. *)
Theorem top_n_limit_is_prefix (py_float : string -> option float)
    (py_sum : list float -> float) (data : list row) (genre : string) (n : Z)
    (full : list (string * float)) :
  (team.top_n py_float data genre 0 = Ok full ->
   ((0 < n)%Z -> team.top_n py_float data genre n = Ok (firstn (Z.to_nat n) full)) /\
   ((n < 0)%Z -> team.top_n py_float data genre n = Ok full)) /\
  (gpt.top_n py_float py_sum data genre 0 = Ok full ->
   ((0 < n)%Z -> gpt.top_n py_float py_sum data genre n = Ok (firstn (Z.to_nat n) full)) /\
   ((n < 0)%Z -> gpt.top_n py_float py_sum data genre n
                 = Ok (firstn (List.length full - Z.to_nat (- n)) full))).
Proof.
  split.
  - unfold team.top_n. intros H. do 2 returned H. rewrite Hv. cbn [bind]. rewrite Hv0. cbn [bind].
    injection H as <-. split; intros Hn.
    + rewrite (proj2 (Z.ltb_lt 0 n) Hn). unfold slice_to.
      now rewrite (proj2 (Z.leb_le 0 n)) by lia.
    + now rewrite (proj2 (Z.ltb_ge 0 n)) by lia.
  - unfold gpt.top_n. intros H. do 2 returned H. rewrite Hv. cbn [bind]. rewrite Hv0. cbn [bind].
    injection H as <-. split; intros Hn.
    + rewrite (proj2 (Z.eqb_neq n 0)) by lia. unfold slice_to.
      rewrite (proj2 (Z.leb_le 0 n)) by lia. now rewrite firstn_map.
    + rewrite (proj2 (Z.eqb_neq n 0)) by lia. unfold slice_to.
      rewrite (proj2 (Z.leb_gt 0 n)) by lia. now rewrite firstn_map, length_map.
Qed.

Lemma top_n_limit_is_prefix_witness :
  gpt.top_n float_of_decimal sum_left [film_B; film_D; film_A] "" 0
  = Ok [("D", 9%float); ("A", 8.25%float); ("B", 7.5%float)] /\
  gpt.top_n float_of_decimal sum_left [film_B; film_D; film_A] "" (-1)
  = Ok [("D", 9%float); ("A", 8.25%float)] /\
  team.top_n float_of_decimal [film_B; film_D; film_A] "" (-1)
  = Ok [("D", 9%float); ("A", 8.25%float); ("B", 7.5%float)].
Proof.
  assert (gpt.top_n float_of_decimal sum_left [film_B; film_D; film_A] "" 0
          = Ok [("D", 9%float); ("A", 8.25%float); ("B", 7.5%float)]) as Hg
    by (vm_compute; reflexivity).
  assert (team.top_n float_of_decimal [film_B; film_D; film_A] "" 0
          = Ok [("D", 9%float); ("A", 8.25%float); ("B", 7.5%float)]) as Ht
    by (vm_compute; reflexivity).
  split; [exact Hg|].
  destruct (top_n_limit_is_prefix float_of_decimal sum_left [film_B; film_D; film_A] ""
              (-1)%Z [("D", 9%float); ("A", 8.25%float); ("B", 7.5%float)]) as [T G].
  split.
  - apply (proj2 (G Hg)). lia.
  - apply (proj2 (T Ht)). lia.
Defined.

(** ** The genre filter *)

(** X7. A filter of two parts around a comma passes the films either
    part passes: for filter texts [a] and [b] that are not empty, a film
    passes [a + "," + b] exactly when it passes [a] or passes [b], in
    the genre test of [teamproject.py] ([is_in_genres] on the argument
    [top_n] makes of the filter) and in that of [gptproject.py]. *)
Theorem genre_filter_is_union (a b : string) (r : row) :
  a <> EmptyString -> b <> EmptyString ->
  team.is_in_genres (genres_of r) (team.genre_arg (a +:+ "," +:+ b))
  = team.is_in_genres (genres_of r) (team.genre_arg a)
    || team.is_in_genres (genres_of r) (team.genre_arg b) /\
  gpt_passes (a +:+ "," +:+ b) r = gpt_passes a r || gpt_passes b r.
Proof.
  intros Ha Hb.
  change (a +:+ "," +:+ b) with (a +:+ String "," b).
  split.
  - rewrite !team_passes. unfold passes.
    rewrite !not_empty_eqb by (assumption || now apply app_not_empty).
    cbn [orb]. rewrite fields_app. apply existsb_app.
  - rewrite !gpt_passes_tokens by (assumption || now apply app_not_empty).
    rewrite fields_app, map_app. apply existsb_app.
Qed.

Lemma genre_filter_is_union_witness :
  team.is_in_genres (genres_of film_D) (team.genre_arg ("Action" +:+ "," +:+ "Drama"))
  = team.is_in_genres (genres_of film_D) (team.genre_arg "Action")
    || team.is_in_genres (genres_of film_D) (team.genre_arg "Drama") /\
  gpt_passes ("Action" +:+ "," +:+ "Drama") film_D
  = gpt_passes "Action" film_D || gpt_passes "Drama" film_D.
Proof.
  apply (genre_filter_is_union "Action" "Drama" film_D); discriminate.
Defined.

(** X8. In [gptproject.py] a filter with a blank token filters
    nothing: when the filter text is not empty and one of its tokens is
    empty once stripped (as after a trailing comma), every film passes,
    since the empty text occurs in every genre field; [top_n] then
    returns what it returns for the empty filter, on rows it can rank. *)
Theorem gpt_blank_token_passes_all (py_float : string -> option float)
    (py_sum : list float -> float) (data : list row) (genre : string) (n : Z) :
  genre <> EmptyString ->
  In EmptyString (map strip (py_split "," genre)) ->
  (forall r, gpt_passes genre r = true) /\
  (forallb (well_formed py_float) data = true ->
   gpt.top_n py_float py_sum data genre n = gpt.top_n py_float py_sum data "" n).
Proof.
  intros Hg Hblank.
  assert (forall r, gpt_passes genre r = true) as Hall.
  { intros r. rewrite gpt_passes_tokens by assumption.
    apply existsb_exists. exists EmptyString. split; [assumption|].
    apply py_in_prefix, prefix_empty. }
  split; [exact Hall|]. intros Hwf.
  rewrite !gpt_top_n_total by assumption. unfold gpt_ranking, ranking.
  rewrite (filter_ext (gpt_passes genre) (gpt_passes EmptyString)); [reflexivity|].
  intros r. now rewrite Hall, gpt_passes_empty.
Qed.

Lemma gpt_blank_token_passes_all_witness :
  In EmptyString (map strip (py_split "," "Action, ")) /\
  gpt_passes "Action, " film_D = true /\
  gpt.top_n float_of_decimal sum_left [film_D] "Action, " 0
  = gpt.top_n float_of_decimal sum_left [film_D] "" 0.
Proof.
  assert (In EmptyString (map strip (py_split "," "Action, "))) as H
    by (vm_compute; auto).
  split; [exact H|].
  destruct (gpt_blank_token_passes_all float_of_decimal sum_left [film_D] "Action, " 0%Z
              ltac:(discriminate) H) as [Hall Htop].
  split; [apply Hall | apply Htop; vm_compute; reflexivity].
Defined.

(** ** The actor ratings *)

Lemma in_filter_map {A B : Type} (f : A -> B) (p : A -> bool) (l : list A) (y : B) :
  In y (map f (List.filter p l)) <-> exists x, In x l /\ p x = true /\ y = f x.
Proof.
  rewrite in_map_iff. split.
  - intros (x & <- & [Hx Hp]%filter_In). eauto.
  - intros (x & Hx & Hp & ->). exists x. split; [reflexivity|]. now apply filter_In.
Qed.

Lemma existsb_credited (data : list row) (a : string) :
  existsb (credited a) data = true <-> exists r, In r data /\ a ∈ actors_of r.
Proof.
  rewrite existsb_exists. unfold credited.
  split; intros (r & Hr & Ha); exists r; (split; [assumption|]).
  - now apply bool_decide_eq_true in Ha.
  - now apply bool_decide_eq_true.
Qed.

(** The best rating of a list without NaN is one of its ratings, and
    none of them is greater. *)
Lemma actor_index_best (py_float : string -> option float) (cast : string -> row -> bool)
    (data : list row) (a : string) :
  existsb (cast a) data = true ->
  (exists r, In r data /\ cast a r = true /\
             actor_index py_float cast data a = rating_of py_float r) /\
  ((forall r, In r data -> is_nan (rating_of py_float r) = false) ->
   forall r, In r data -> cast a r = true ->
             PrimFloat.ltb (actor_index py_float cast data a) (rating_of py_float r) = false).
Proof.
  intros Hex. unfold actor_index.
  set (l := map (rating_of py_float) (List.filter (cast a) data)).
  assert (l <> []) as Hl.
  { apply existsb_exists in Hex as (r & Hr & Hc). intros El.
    assert (In (rating_of py_float r) l) as Hin
      by (apply in_filter_map; exists r; auto).
    rewrite El in Hin. destruct Hin. }
  split.
  - assert (In (max_of l) l) as Hin.
    { destruct l as [|x l']; [congruence|]. apply fold_py_max_in. }
    apply in_filter_map in Hin as (r & Hr & Hc & E). now exists r.
  - intros Hnan r Hr Hc.
    assert (Forall (fun y => is_nan y = false) l) as Hall.
    { apply List.Forall_forall. intros y (r' & Hr' & _ & ->)%in_filter_map. now apply Hnan. }
    destruct (max_of_greatest l Hl Hall) as [_ Hgreat].
    rewrite List.Forall_forall in Hgreat. apply Hgreat.
    apply in_filter_map. exists r. auto.
Qed.

(** X9. The index [actors_rating] that [top_n] of [teamproject.py]
    builds holds exactly the names that some row of the data set
    credits (the parts of its actor field split on [", "]); the rating
    it holds for a name is the rating of a film that credits it, and
    when no rating of the data set is NaN no film that credits the name
    has a greater rating. *)
Theorem actors_rating_holds_best (py_float : string -> option float) (data : list row)
    (d : gmap string float) :
  team.actors_rating_of py_float data = Ok d ->
  (forall a, is_Some (d !! a) <-> exists r, In r data /\ a ∈ actors_of r) /\
  (forall a x, d !! a = Some x ->
     (exists r, In r data /\ a ∈ actors_of r /\ x = rating_of py_float r) /\
     ((forall r, In r data -> is_nan (rating_of py_float r) = false) ->
      forall r, In r data -> a ∈ actors_of r ->
                PrimFloat.ltb x (rating_of py_float r) = false)).
Proof.
  intros H. split.
  - intros a. rewrite (actors_rating_lookup py_float data d a H), <- existsb_credited.
    destruct (existsb (credited a) data); split;
      (eauto || discriminate || (intros [x Hx]; discriminate)).
  - intros a x Hx. rewrite (actors_rating_lookup py_float data d a H) in Hx.
    destruct (existsb (credited a) data) eqn:Hex; [|discriminate]. injection Hx as <-.
    destruct (actor_index_best py_float credited data a Hex) as [(r & Hr & Hc & E) Hbest].
    split.
    + exists r. repeat split; [assumption | | assumption].
      now apply bool_decide_eq_true in Hc.
    + intros Hnan r' Hr' Ha. apply Hbest; [assumption.. |].
      unfold credited. now apply bool_decide_eq_true.
Qed.

Lemma actors_rating_holds_best_witness :
  exists d, team.actors_rating_of float_of_decimal [film_B; film_D; film_A] = Ok d /\
            d !! "X" = Some 9%float /\ d !! "Z" = None /\
            PrimFloat.ltb 9 (rating_of float_of_decimal film_A) = false.
Proof.
  destruct (team.actors_rating_of float_of_decimal [film_B; film_D; film_A]) as [d|e] eqn:E;
    [|vm_compute in E; discriminate].
  exists d. split; [reflexivity|].
  pose proof (actors_rating_lookup float_of_decimal _ d "X" E) as HX.
  pose proof (actors_rating_lookup float_of_decimal _ d "Z" E) as HZ.
  vm_compute in HX, HZ.
  split; [exact HX|]. split; [exact HZ|].
  destruct (actors_rating_holds_best float_of_decimal _ d E) as [_ Hval].
  apply (proj2 (Hval "X" 9%float HX)).
  - intros r [<- | [<- | [<- | []]]]; vm_compute; reflexivity.
  - simpl. auto.
  - apply list_elem_of_In. vm_compute. auto.
Defined.

(** X10. The edges of [get_highest_rating_for_actor]. For a name that
    occurs in the actor field of no row (rows of at least 6 fields), and
    so on an empty data set, [max] has nothing to take and raises its
    [ValueError]. The empty name occurs in every actor field: on rows
    that can be ranked, and at least one of them, it gets the best
    rating of the whole data set. *)
Theorem get_highest_rating_edges (py_float : string -> option float) (data : list row)
    (actor : string) :
  ((forall r, In r data -> (6 <= List.length r)%nat) ->
   existsb (occurs actor) data = false ->
   gpt.get_highest_rating_for_actor py_float actor data = Raise (ValueError EmptyMax)) /\
  (forallb (well_formed py_float) data = true -> data <> [] ->
   gpt.get_highest_rating_for_actor py_float "" data
   = Ok (max_of (map (rating_of py_float) data))).
Proof.
  split.
  - intros Hlen Hex. rewrite get_highest_of_matches; [|assumption|].
    + rewrite existsb_filter in Hex.
      now destruct (List.filter (occurs actor) data).
    + intros r Hr Hocc. assert (existsb (occurs actor) data = true) as Hex'
        by (apply existsb_exists; eauto).
      congruence.
  - intros Hwf Hdata.
    assert (List.filter (occurs "") data = data) as Hall.
    { rewrite <- (filter_true data) at 2. apply filter_ext. intros r.
      apply py_in_prefix, prefix_empty. }
    rewrite get_highest_total; [|assumption|].
    + unfold actor_index. now rewrite Hall.
    + rewrite existsb_filter, Hall. now destruct data.
Qed.

Lemma get_highest_rating_edges_witness :
  gpt.get_highest_rating_for_actor float_of_decimal "Z" [film_B; film_D]
  = Raise (ValueError EmptyMax) /\
  gpt.get_highest_rating_for_actor float_of_decimal "" [film_B; film_D] = Ok 9%float.
Proof.
  destruct (get_highest_rating_edges float_of_decimal [film_B; film_D] "Z") as [Hnone Hall].
  split.
  - apply Hnone; [|vm_compute; reflexivity].
    intros r [<- | [<- | []]]; vm_compute; lia.
  - rewrite Hall; [vm_compute; reflexivity | vm_compute; reflexivity | discriminate].
Defined.

(** X11. The actor rating of [gptproject.py] is never below that of
    [teamproject.py]: for a name in the index [actors_rating] of a data
    set without NaN ratings, what [get_highest_rating_for_actor] returns
    for it on the same data set is not less than the rating the index
    holds, since every film that credits the name also has it in its
    actor field. *)
Theorem gpt_rating_not_below_team (py_float : string -> option float) (data : list row)
    (d : gmap string float) (a : string) (x y : float) :
  (forall r, In r data -> is_nan (rating_of py_float r) = false) ->
  team.actors_rating_of py_float data = Ok d -> d !! a = Some x ->
  gpt.get_highest_rating_for_actor py_float a data = Ok y ->
  PrimFloat.ltb y x = false.
Proof.
  intros Hnan Hd Hx Hy.
  rewrite (actors_rating_lookup py_float data d a Hd) in Hx.
  destruct (existsb (credited a) data) eqn:Hex; [|discriminate]. injection Hx as <-.
  apply get_highest_Ok in Hy as ->.
  destruct (actor_index_best py_float credited data a Hex) as [(r & Hr & Hc & ->) _].
  apply credited_occurs in Hc.
  assert (existsb (occurs a) data = true) as Hex' by (apply existsb_exists; eauto).
  now apply (proj2 (actor_index_best py_float occurs data a Hex') Hnan).
Qed.

Lemma gpt_rating_not_below_team_witness :
  exists d, team.actors_rating_of float_of_decimal [film_Al; film_Alan] = Ok d /\
            d !! "Al" = Some 5%float /\
            gpt.get_highest_rating_for_actor float_of_decimal "Al" [film_Al; film_Alan]
            = Ok 9%float /\
            PrimFloat.ltb 9 5 = false.
Proof.
  destruct (team.actors_rating_of float_of_decimal [film_Al; film_Alan]) as [d|e] eqn:E;
    [|vm_compute in E; discriminate].
  exists d. split; [reflexivity|].
  pose proof (actors_rating_lookup float_of_decimal _ d "Al" E) as HX.
  vm_compute in HX.
  assert (gpt.get_highest_rating_for_actor float_of_decimal "Al" [film_Al; film_Alan]
          = Ok 9%float) as HY by (vm_compute; reflexivity).
  split; [exact HX|]. split; [exact HY|].
  apply (gpt_rating_not_below_team float_of_decimal [film_Al; film_Alan] d "Al" _ _);
    [|exact E | exact HX | exact HY].
  intros r [<- | [<- | []]]; vm_compute; reflexivity.
Defined.

(** X12. One film of the first loop of [teamproject.py] never drops a
    name from the index [actors_rating] and never lowers a rating: a
    name the index holds keeps its rating, or takes the rating of the
    film when the film credits it and that rating is greater; a name the
    index does not hold enters it with the film's rating exactly when
    the film credits it. *)
Theorem rate_film_keeps_best (py_float : string -> option float)
    (d d' : gmap string float) (film : row) (a : string) :
  team.rate_film py_float d film = Ok d' ->
  (forall x, d !! a = Some x ->
     d' !! a = Some x \/
     (a ∈ actors_of film /\ PrimFloat.ltb x (rating_of py_float film) = true /\
      d' !! a = Some (rating_of py_float film))) /\
  (d !! a = None ->
   d' !! a = if bool_decide (a ∈ actors_of film) then Some (rating_of py_float film)
             else None).
Proof.
  intros [_ ->]%rate_film_Ok. rewrite (rate_actors_lookup py_float).
  case_bool_decide as Ha.
  - split.
    + intros x ->. unfold improve, py_max.
      destruct (PrimFloat.ltb x (rating_of py_float film)) eqn:E; [right | left]; auto.
    + now intros ->.
  - split; [intros x ->; now left | now intros ->].
Qed.

Lemma rate_film_keeps_best_witness :
  exists d', team.rate_film float_of_decimal {[ "X" := 6%float ]} film_A = Ok d' /\
             d' !! "X" = Some 8%float /\ d' !! "Y" = Some 8%float.
Proof.
  destruct (team.rate_film float_of_decimal {[ "X" := 6%float ]} film_A) as [d'|e] eqn:E;
    [|vm_compute in E; discriminate].
  exists d'. split; [reflexivity|].
  destruct (rate_film_keeps_best float_of_decimal _ d' film_A "X" E) as [HX _].
  destruct (rate_film_keeps_best float_of_decimal _ d' film_A "Y" E) as [_ HY].
  split.
  - destruct (HX 6%float (lookup_singleton_eq "X" 6%float)) as [H | (_ & _ & H)].
    + pose proof (rate_film_Ok float_of_decimal _ _ _ E) as [_ Hd'].
      rewrite Hd', (rate_actors_lookup float_of_decimal) in H. vm_compute in H. discriminate.
    + exact H.
  - rewrite HY; [vm_compute; reflexivity|]. now apply lookup_singleton_ne.
Defined.

(** ** [write_file] *)

Lemma py_in_char_app (c : ascii) (a b : string) :
  py_in (String c EmptyString) (a +:+ b)
  = py_in (String c EmptyString) a || py_in (String c EmptyString) b.
Proof.
  induction a as [|x a IH].
  - change (EmptyString +:+ b) with b. destruct b; reflexivity.
  - change (String x a +:+ b) with (String x (a +:+ b)).
    cbn [py_in String.prefix]. rewrite IH, !prefix_empty.
    destruct (ascii_dec c x); reflexivity.
Qed.

Lemma join_cons (x : string) (l : list string) : join (x :: l) = x +:+ join l.
Proof.
  unfold join. destruct l as [|y l]; [|reflexivity].
  cbn [String.concat]. induction x as [|c x IH]; [reflexivity|].
  change (String c x +:+ EmptyString) with (String c (x +:+ EmptyString)). now rewrite <- IH.
Qed.

Lemma append_assoc (a b c : string) : (a +:+ b) +:+ c = a +:+ (b +:+ c).
Proof.
  induction a as [|x a IH]; [reflexivity|].
  change (String x a +:+ b) with (String x (a +:+ b)).
  change (String x (a +:+ b) +:+ c) with (String x ((a +:+ b) +:+ c)). now rewrite IH.
Qed.

(** X13. The text [write_file] writes reads back line by line: when no
    title and no text of a rating holds a newline, splitting the text
    written at the newlines gives the line [title, rating] of each
    pair, in the order of the list, and one empty text after the last
    newline; the file has one line for each pair. Both sources write
    the same text. *)
Theorem write_file_lines (py_str : float -> string) (top : list (string * float)) :
  (forall t r, In (t, r) top ->
     py_in newline t = false /\ py_in newline (py_str r) = false) ->
  py_split newline (team.write_file py_str top)
  = map (fun e => fst e +:+ ", " +:+ py_str (snd e)) top ++ [EmptyString] /\
  gpt.write_file py_str top = team.write_file py_str top.
Proof.
  intros H. split; [|reflexivity]. unfold team.write_file, written.
  unfold newline in *. set (nl := ascii_of_nat 10) in *.
  induction top as [|[t r] top IH]; [reflexivity|].
  cbn [map fst snd]. rewrite join_cons.
  set (rest := join (map _ top)) in *.
  transitivity (py_split (String nl EmptyString)
                         (((t +:+ ", ") +:+ py_str r) +:+ String nl rest)).
  { f_equal. rewrite !append_assoc. reflexivity. }
  rewrite fields_app, IH by (intros t' r' Hin; apply H; now right).
  rewrite fields_single.
  - rewrite append_assoc. reflexivity.
  - destruct (H t r (or_introl eq_refl)) as [Ht Hr].
    rewrite !py_in_char_app, Ht, Hr. reflexivity.
Qed.

Lemma write_file_lines_witness :
  team.write_file str_of_float [("A", 8%float); ("B", 7.5%float)]
  = "A, 8.0" +:+ newline +:+ "B, 7.5" +:+ newline /\
  py_split newline (team.write_file str_of_float [("A", 8%float); ("B", 7.5%float)])
  = ["A, 8.0"; "B, 7.5"; ""].
Proof.
  split; [vm_compute; reflexivity|].
  rewrite (proj1 (write_file_lines str_of_float [("A", 8%float); ("B", 7.5%float)]
                    ltac:(intros t r [[= <- <-] | [[= <- <-] | []]];
                          split; vm_compute; reflexivity))).
  vm_compute. reflexivity.
Defined.

(** ** From the file to the ranking *)

Lemma length_tail {A : Type} (l : list A) : List.length (tail l) = (List.length l - 1)%nat.
Proof. destruct l; simpl; lia. Qed.

Lemma team_limit_length {A : Type} (n : Z) (l : list A) :
  (List.length (team_limit n l) <= List.length l)%nat.
Proof. destruct (team_limit_firstn n l) as [k ->]. rewrite length_firstn. lia. Qed.

Lemma gpt_limit_length {A : Type} (n : Z) (l : list A) :
  (List.length (gpt_limit n l) <= List.length l)%nat.
Proof. destruct (gpt_limit_firstn n l) as [k ->]. rewrite length_firstn. lia. Qed.

(** X14. [read_file] and [top_n] compose on a well-formed file: when
    every line after the first has at least 9 fields once stripped and
    split on [";"], a field 6 that [int] accepts and a field 8 that
    [float] accepts, [read_file] returns a data set for every year and
    [top_n] returns a ranking of it for every genre filter and limit,
    with at most one entry for each line after the first; in both
    sources. *)
Theorem load_then_rank (py_int : string -> option Z) (py_float : string -> option float)
    (py_sum : list float -> float) (lines : list string) (year : Z) (genre : string) (n : Z) :
  (forall line, In line (tail lines) ->
     well_formed py_float (record_of line) = true /\
     is_Some (py_int (field (record_of line) 6))) ->
  (exists rows res,
     team.read_file py_int lines year = Ok rows /\
     team.top_n py_float rows genre n = Ok res /\
     (List.length res <= List.length lines - 1)%nat) /\
  (exists rows res,
     gpt.read_file py_int lines year = Ok rows /\
     gpt.top_n py_float py_sum rows genre n = Ok res /\
     (List.length res <= List.length lines - 1)%nat).
Proof.
  intros Hlines.
  assert (forall line, In line (tail lines) -> (9 <= List.length (record_of line))%nat)
    as Hnine.
  { intros line Hin. destruct (Hlines line Hin) as [Hwf _].
    apply andb_true_iff in Hwf as [Hlen9 _]. now apply Nat.leb_le in Hlen9. }
  assert (forall line, In line (tail lines) -> ~ malformed py_int line) as Hwell.
  { intros line Hin [Hlen | Hnone].
    - specialize (Hnine line Hin). lia.
    - destruct (Hlines line Hin) as [_ [y Hy]]. congruence. }
  assert (forall keep : row -> bool,
            forallb (well_formed py_float)
                    (List.filter keep (map record_of (tail lines))) = true /\
            (List.length (List.filter keep (map record_of (tail lines)))
             <= List.length lines - 1)%nat) as Hrows.
  { intros keep. split.
    - apply forallb_forall. intros r [Hr _]%filter_In.
      apply in_map_iff in Hr as (line & <- & Hline). now apply Hlines.
    - rewrite <- length_tail, <- (length_map record_of (tail lines)).
      apply filter_length_le. }
  split.
  - rewrite team_read_file_comprehension.
    rewrite (comprehension_ext_in _
               (fun line => let* y := read_year py_int line in Ok (year <=? y)%Z)).
    + rewrite (load_total py_int (fun y => (year <=? y)%Z)) by assumption.
      destruct (Hrows (fun r => (year <=? year_of py_int r)%Z)) as [Hwf Hlen].
      eexists. eexists. split; [reflexivity|]. split.
      * apply team_top_n_Ok. split; [exact Hwf | reflexivity].
      * etransitivity; [apply team_limit_length|].
        rewrite length_map. unfold team_ranking. rewrite ranking_length.
        etransitivity; [apply filter_length_le | exact Hlen].
    + intros line Hin. rewrite read_year_unstripped_inner; [reflexivity|].
      rewrite <- record_of_length. specialize (Hnine line Hin). lia.
  - rewrite gpt_read_file_comprehension.
    rewrite (load_total py_int (fun y => (year =? 0)%Z || (year <=? y)%Z)) by assumption.
    destruct (Hrows (fun r => (year =? 0)%Z || (year <=? year_of py_int r)%Z)) as [Hwf Hlen].
    eexists. eexists. split; [reflexivity|]. split.
    + now apply gpt_top_n_total.
    + rewrite length_map. etransitivity; [apply gpt_limit_length|].
      unfold gpt_ranking. rewrite ranking_length.
      etransitivity; [apply filter_length_le | exact Hlen].
Qed.

Lemma load_then_rank_witness :
  exists rows res,
    team.read_file int_of_decimal [header; line_bc; line_2015] 0 = Ok rows /\
    team.top_n float_of_decimal rows "Action" 5 = Ok res /\
    (List.length res <= 2)%nat.
Proof.
  refine (proj1 (load_then_rank int_of_decimal float_of_decimal sum_left
                   [header; line_bc; line_2015] 0%Z "Action" 5%Z _)).
  intros line [<- | [<- | []]]; (split; [vm_compute; reflexivity | vm_compute; eauto]).
Defined.

(** ** Rows that do not matter *)

Lemma actor_index_other_row (py_float : string -> option float)
    (cast : string -> row -> bool) (before after : list row) (r : row) (a : string) :
  cast a r = false ->
  actor_index py_float cast (before ++ r :: after) a
  = actor_index py_float cast (before ++ after) a.
Proof.
  intros H. unfold actor_index. rewrite !List.filter_app. cbn [List.filter]. now rewrite H.
Qed.

Lemma ranking_other_row (py_float : string -> option float) (total : list float -> float)
    (cast : string -> row -> bool) (pass : row -> bool) (key : ranked -> float * string)
    (before after : list row) (r : row) :
  pass r = false ->
  (forall r' a, In r' (before ++ after) -> pass r' = true -> a ∈ actors_of r' ->
                cast a r = false) ->
  ranking py_float total cast pass key (before ++ r :: after)
  = ranking py_float total cast pass key (before ++ after).
Proof.
  intros Hpass Hcast. unfold ranking. f_equal.
  replace (List.filter pass (before ++ r :: after)) with (List.filter pass (before ++ after))
    by (rewrite !List.filter_app; cbn [List.filter]; now rewrite Hpass).
  apply map_ext_in. intros r' [Hr' Hp]%filter_In.
  unfold ranked_of, actor_average. do 2 f_equal.
  apply map_ext_in. intros a Ha. apply actor_index_other_row.
  apply (Hcast r' a); [assumption | assumption | now apply list_elem_of_In].
Qed.

(** X15. A row that does not pass the genre filter and shares no actor
    with a film that passes does not change the result: on rows that can
    be ranked, [top_n] returns the same list with and without such a
    row, wherever it stands in the data set. Sharing an actor means, in
    [teamproject.py], that the row credits a name the film credits, and
    in [gptproject.py] that a name the film credits occurs in the row's
    actor field. *)
Theorem top_n_ignores_unrelated_row (py_float : string -> option float)
    (py_sum : list float -> float) (before after : list row) (r : row)
    (genre : string) (n : Z) :
  forallb (well_formed py_float) (before ++ r :: after) = true ->
  (passes genre r = false ->
   (forall r' a, In r' (before ++ after) -> passes genre r' = true -> a ∈ actors_of r' ->
                 credited a r = false) ->
   team.top_n py_float (before ++ r :: after) genre n
   = team.top_n py_float (before ++ after) genre n) /\
  (gpt_passes genre r = false ->
   (forall r' a, In r' (before ++ after) -> gpt_passes genre r' = true -> a ∈ actors_of r' ->
                 occurs a r = false) ->
   gpt.top_n py_float py_sum (before ++ r :: after) genre n
   = gpt.top_n py_float py_sum (before ++ after) genre n).
Proof.
  intros Hwf.
  assert (forallb (well_formed py_float) (before ++ after) = true) as Hwf'.
  { rewrite forallb_app in Hwf |- *. cbn [forallb] in Hwf.
    apply andb_true_iff in Hwf as [H1 [_ H2]%andb_true_iff]. now rewrite H1, H2. }
  split; intros Hpass Hcast.
  - destruct (team.top_n py_float (before ++ after) genre n) as [res|e] eqn:E.
    + apply team_top_n_Ok in E as [_ ->]. apply team_top_n_Ok. split; [assumption|].
      rewrite !team_ranking_passes. now rewrite ranking_other_row.
    + assert (exists res, team.top_n py_float (before ++ after) genre n = Ok res)
        as [res Hres] by (eexists; apply team_top_n_Ok; eauto).
      congruence.
  - rewrite !gpt_top_n_total by assumption. unfold gpt_ranking.
    now rewrite ranking_other_row.
Qed.

Lemma top_n_ignores_unrelated_row_witness :
  team.top_n float_of_decimal ([film_A] ++ film_S :: [film_B]) "Action" 0
  = team.top_n float_of_decimal ([film_A] ++ [film_B]) "Action" 0.
Proof.
  apply (proj1 (top_n_ignores_unrelated_row float_of_decimal sum_left
                  [film_A] [film_B] film_S "Action" 0%Z eq_refl)).
  - vm_compute. reflexivity.
  - intros r' a [<- | [<- | []]] _ Ha; apply list_elem_of_In in Ha; vm_compute in Ha.
    + destruct Ha as [<- | [<- | []]]; vm_compute; reflexivity.
    + destruct Ha as [<- | []]; vm_compute; reflexivity.
Defined.
